(** * asynccloud: the request engine and the client's authentication state

    A shallow embedding of [src/asynccloud/arequests.py] and of the parts of
    [src/asynccloud/asoundcloud.py] that own authentication state and compose
    request shapes, with the properties of the specification stated over it.

    Python dictionaries are stdpp finite maps, Python exceptions are values of
    [Exn], and code that talks to the network runs in a small monad that
    threads the log of the HTTP requests issued so far. An asynchronous
    generator is a state ([GenState]) advanced by [anext]; loops whose length
    the server decides take a bound ([fuel]) and return [Diverge] when it is
    reached.

    What lies outside the repository enters as follows: the remote API is a
    function from requests to responses ([Server]); the classes of the
    soundcloud library are records with their [from_dict] ([PyType],
    [Resources]); [urllib.parse] is a record of functions ([UrlLib]); the
    behaviour of [aiohttp] and [requests] on error statuses is written into
    [session_request] and [raise_for_status] as their documentation gives
    it. *)

From Stdlib Require Import ZArith Ascii String DecimalString.
From stdpp Require Import base option list gmap strings fin_maps.

Set Warnings "-register-all".

Local Open Scope Z_scope.
Local Open Scope string_scope.
Local Open Scope list_scope.

(** ** Python values and exceptions *)

(** JSON as [json.loads] / [r.json()] returns it. Numbers are the integers;
    objects are association lists whose keys are taken to be distinct. *)
Inductive Json :=
| JNull
| JBool (b : bool)
| JNum (z : Z)
| JStr (s : string)
| JArr (l : list Json)
| JObj (kvs : list (string * Json)).

(** The exceptions the modelled code raises or lets through. *)
Inductive Exn :=
| ValueError (msg : string)
| CouldNotConvert (d : Json) (attempted : list string)
    (* ValueError(f"Could not convert {d} to type {return_type}") *)
| KeyError (key : string)
| IndexError
| TypeError
| AttributeError
| AssertionError
| JSONDecodeError
| ClientResponseError (status : Z)   (* aiohttp *)
| HTTPError (status : Z)             (* requests *)
| FromDictError (type_name : string) (* raised inside T.from_dict *)
| Unmodelled (construct : string)
    (* not a Python exception: the construct named lies outside the
       fragment of the language or library that is modelled *).

(** Result of running a piece of Python: a value, a raised exception, or
    [Diverge] when the model's iteration bound was reached. *)
Inductive Res (A : Type) :=
| Ok (a : A)
| Raise (e : Exn)
| Diverge.
Arguments Ok {A} a.
Arguments Raise {A} e.
Arguments Diverge {A}.

Definition res_bind {A B} (r : Res A) (k : A -> Res B) : Res B :=
  match r with
  | Ok a => k a
  | Raise e => Raise e
  | Diverge => Diverge
  end.

(** ** String primitives *)
Module PyStr.

Fixpoint startswith (prefix s : string) : bool :=
  match prefix, s with
  | EmptyString, _ => true
  | String a p, String b t => if Ascii.eqb a b then startswith p t else false
  | String _ _, EmptyString => false
  end.

(** A character of a string is its code point, below 256. Whitespace of
    [str.split()] there: TAB, LF, VT, FF, CR, FS, GS, RS, US, the space,
    NEL (133) and the no-break space (160). *)
Definition is_space (c : ascii) : bool :=
  let n := nat_of_ascii c in
  ((9 <=? n)%nat && (n <=? 13)%nat) || ((28 <=? n)%nat && (n <=? 32)%nat)
  || (n =? 133)%nat || (n =? 160)%nat.

(** [split_ws cur s]: the words of [s], [cur] being the word read so far
    in reverse. Runs of whitespace separate words; no word is empty. *)
Fixpoint split_ws (cur : list ascii) (s : string) : list string :=
  let flush := match cur with
               | [] => []
               | _ => [string_of_list_ascii (rev cur)]
               end in
  match s with
  | EmptyString => flush
  | String c t =>
      if is_space c then flush ++ split_ws [] t
      else split_ws (c :: cur) t
  end.

(** [s.split()] *)
Definition split (s : string) : list string := split_ws [] s.

(** Truth value of a string: non-empty. *)
Definition truthy (s : string) : bool :=
  match s with EmptyString => false | _ => true end.

(** [str(n)] for an integer. *)
Definition of_Z (z : Z) : string := NilZero.string_of_int (Z.to_int z).

End PyStr.

(** ** The client's authentication state ([AsyncCloud]) *)
Module Client.

Record AsyncCloud := mkClient {
  client_id : string;
  _user_agent : string;
  _auth_token : option string;
  _authorization : option string;
  (** [self.session.headers], the default headers of every request of the
      aiohttp session *)
  session_headers : gmap string string;
}.

Definition _DEFAULT_USER_AGENT : string :=
  "Mozilla/5.0 (Windows NT 10.0; Win64; x64; rv:93.0) Gecko/20100101 Firefox/93.0".

Definition _get_default_headers (c : AsyncCloud) : gmap string string :=
  {[ "User-Agent" := _user_agent c ]}.

(** Truth value of an [Optional[str]]. *)
Definition opt_truthy (o : option string) : bool :=
  match o with
  | Some s => PyStr.truthy s
  | None => false
  end.

(** [str] of an [Optional[str]] inside an f-string. *)
Definition opt_str (o : option string) : string :=
  match o with
  | Some s => s
  | None => "None"
  end.


(** The [use_auth] property: setter. *)
Definition set_use_auth (value : bool) (c : AsyncCloud) : Res AsyncCloud :=
  if value && negb (opt_truthy (_auth_token c)) then
    Raise (ValueError "Cannot set use_auth to True without an auth token.")
  else if value then
    let authorization := "OAuth " +:+ opt_str (_auth_token c) in
    Ok {| client_id := client_id c;
          _user_agent := _user_agent c;
          _auth_token := _auth_token c;
          _authorization := Some authorization;
          session_headers := <["Authorization" := authorization]> (session_headers c) |}
  else
    Ok {| client_id := client_id c;
          _user_agent := _user_agent c;
          _auth_token := _auth_token c;
          _authorization := None;
          session_headers := delete "Authorization" (session_headers c) |}.

(** The [auth_token] property: getter. *)
Definition auth_token (c : AsyncCloud) : option string := _auth_token c.

(** The token after the scheme prefix was taken off:
    [new_auth_token.split()[-1]] when it starts with "OAuth". *)
Definition normalize_token (new_auth_token : option string) : Res (option string) :=
  match new_auth_token with
  | Some s =>
      if PyStr.startswith "OAuth" s then
        match last (PyStr.split s) with
        | Some t => Ok (Some t)
        | None => Raise IndexError
        end
      else Ok (Some s)
  | None => Ok None
  end.

(** The [auth_token] property: setter. The session's headers are not
    touched. *)
Definition set_auth_token (new_auth_token : option string) (c : AsyncCloud)
  : Res AsyncCloud :=
  res_bind (normalize_token new_auth_token) (fun tok =>
    Ok {| client_id := client_id c;
          _user_agent := _user_agent c;
          _auth_token := tok;
          _authorization :=
            if opt_truthy tok then Some ("OAuth " +:+ opt_str tok) else None;
          session_headers := session_headers c |}).


(** [AsyncCloud.__init__]. [generated] is what [generate_client_id()] would
    return; it is used only when no client id is supplied. The local
    [headers] dictionary was copied by the session when it was created, so
    the last assignment of the constructor does not reach the session. *)
Definition init (generated : Res string) (cid : option string)
    (token : option string) (user_agent : string) : Res AsyncCloud :=
  res_bind (if opt_truthy cid then Ok (opt_str cid) else generated) (fun cid' =>
    let c0 := {| client_id := cid';
                 _user_agent := user_agent;
                 _auth_token := token;
                 _authorization := None;
                 session_headers := {[ "User-Agent" := user_agent ]} |} in
    set_use_auth (opt_truthy token) c0).

End Client.

(** ** The polymorphic decoder ([_convert_dict]) *)
Module Decode.

(** A result class of the soundcloud library, as far as the engine uses
    it: its name and its [from_dict] constructor. *)
Record PyType (T : Type) := mkType {
  type_name : string;
  from_dict : Json -> Res T;
}.
Arguments mkType {T} _ _.
Arguments type_name {T} _.
Arguments from_dict {T} _ _.

(** A declared return type: one class, or [Union[t1, ..., tn]] whose
    arguments [get_args] returns in declared order. *)
Inductive ReturnType (T : Type) :=
| Single (t : PyType T)
| Union (ts : list (PyType T)).
Arguments Single {T} t.
Arguments Union {T} ts.

(** The [for t in get_args(return_type)] loop: the first candidate whose
    [from_dict] does not raise wins; [except Exception: pass] moves on. *)
Fixpoint try_candidates {T} (d : Json) (ts : list (PyType T)) : Res (option T) :=
  match ts with
  | [] => Ok None
  | t :: ts' =>
      match from_dict t d with
      | Ok v => Ok (Some v)
      | Raise _ => try_candidates d ts'
      | Diverge => Diverge
      end
  end.

Definition _convert_dict {T} (d : Json) (return_type : ReturnType T) : Res T :=
  match return_type with
  | Union ts =>
      res_bind (try_candidates d ts) (fun found =>
        match found with
        | Some v => Ok v
        | None => Raise (CouldNotConvert d (map type_name ts))
        end)
  | Single t => from_dict t d
  end.

(** A candidate fails on [d] when its [from_dict] raises. *)
Definition fails_on {T} (d : Json) (t : PyType T) : Prop :=
  exists e, from_dict t d = Raise e.

End Decode.

(** ** URL templating ([Request._format_url_and_remove_params]) *)
Module Template.

(** Values passed as keyword arguments. *)
Inductive PyVal :=
| PInt (z : Z)
| PStr (s : string).

(** [str(v)], which is what [format] applies to a field without
    conversion or format specification. *)
Definition py_str (v : PyVal) : string :=
  match v with
  | PInt z => PyStr.of_Z z
  | PStr s => s
  end.

(** What [string.Formatter().parse] splits a format string into: literal
    text and replacement fields. [{{] and [}}] are literal braces. *)
Inductive Segment :=
| Lit (c : ascii)
| Field (name : string).

Inductive Mode :=
| Text                          (* in literal text *)
| Open                          (* just read a left brace *)
| Close                         (* just read a right brace in literal text *)
| InField (name : list ascii)   (* inside a field, name so far reversed *).

(** Characters that start an attribute, an index, a conversion, a format
    specification or a nested field inside a replacement field. *)
Definition beyond_plain_field (c : ascii) : bool :=
  existsb (Ascii.eqb c) ["."; "["; "!"; ":"; "{"]%char.

Definition cons_seg (s : Segment) (r : Res (list Segment)) : Res (list Segment) :=
  res_bind r (fun l => Ok (s :: l)).

Fixpoint parse_from (m : Mode) (s : string) : Res (list Segment) :=
  match s, m with
  | EmptyString, Text => Ok []
  | EmptyString, Open => Raise (ValueError "Single '{' encountered in format string")
  | EmptyString, Close => Raise (ValueError "Single '}' encountered in format string")
  | EmptyString, InField _ => Raise (ValueError "expected '}' before end of string")
  | String c t, Text =>
      if Ascii.eqb c "{" then parse_from Open t
      else if Ascii.eqb c "}" then parse_from Close t
      else cons_seg (Lit c) (parse_from Text t)
  | String c t, Open =>
      if Ascii.eqb c "{" then cons_seg (Lit "{") (parse_from Text t)
      else if Ascii.eqb c "}" then cons_seg (Field "") (parse_from Text t)
      else if beyond_plain_field c then Raise (Unmodelled "replacement field")
      else parse_from (InField [c]) t
  | String c t, Close =>
      if Ascii.eqb c "}" then cons_seg (Lit "}") (parse_from Text t)
      else Raise (ValueError "Single '}' encountered in format string")
  | String c t, InField name =>
      if Ascii.eqb c "}" then
        cons_seg (Field (string_of_list_ascii (rev name))) (parse_from Text t)
      else if beyond_plain_field c then Raise (Unmodelled "replacement field")
      else parse_from (InField (c :: name)) t
  end.

(** [string.Formatter().parse(format_url)] *)
Definition parse (format_url : string) : Res (list Segment) :=
  parse_from Text format_url.

(** The field names, in order: [tup[1]] of every tuple where it is not
    [None]. *)
Fixpoint field_names (segs : list Segment) : list string :=
  match segs with
  | [] => []
  | Lit _ :: r => field_names r
  | Field n :: r => n :: field_names r
  end.

Fixpoint all_digits (s : string) : bool :=
  match s with
  | EmptyString => true
  | String c t =>
      let n := nat_of_ascii c in
      (48 <=? n)%nat && (n <=? 57)%nat && all_digits t
  end.

(** An empty or all-digit field name refers to a positional argument. *)
Definition positional (name : string) : bool := all_digits name.

(** [format_url.format] applied to the keyword arguments [args], on the
    parsed template: no positional argument is ever passed. *)
Fixpoint render (args : gmap string PyVal) (segs : list Segment) : Res string :=
  match segs with
  | [] => Ok ""
  | Lit c :: r => res_bind (render args r) (fun s => Ok (String c s))
  | Field n :: r =>
      if positional n then Raise IndexError
      else match args !! n with
           | Some v => res_bind (render args r) (fun s => Ok (py_str v +:+ s))
           | None => Raise (KeyError n)
           end
  end.

(** The text a template resolves to when every placeholder is replaced
    by the string of its parameter's value: the reading of the
    specification, against which [render] is compared. *)
Definition expand (kwargs : gmap string PyVal) (segs : list Segment) : string :=
  foldr (fun seg rest =>
           match seg with
           | Lit c => String c rest
           | Field n => match kwargs !! n with
                        | Some v => py_str v +:+ rest
                        | None => rest
                        end
           end) "" segs.

(** One turn of [for k in list(kwargs.keys())]: the state is the pair
    [(args, kwargs)]. *)
Definition pop_step (format_args : gset string)
    (st : Res (gmap string PyVal * gmap string PyVal)) (k : string)
  : Res (gmap string PyVal * gmap string PyVal) :=
  res_bind st (fun '(args, kwargs) =>
    if decide (k ∈ format_args) then
      match kwargs !! k with
      | Some v => Ok (<[k := v]> args, delete k kwargs)
      | None => Raise (KeyError k)       (* kwargs.pop(k) *)
      end
    else Ok (args, kwargs)).

Record Request (T : Type) := mkRequest {
  format_url : string;
  return_type : Decode.ReturnType T;
  method : string;
}.
Arguments mkRequest {T} _ _ _.
Arguments format_url {T} _.
Arguments return_type {T} _.
Arguments method {T} _.

Definition base : string := "https://api-v2.soundcloud.com".

(** Returns the URL together with [kwargs] as the call leaves it. *)
Definition _format_url_and_remove_params {T} (self : Request T)
    (kwargs : gmap string PyVal) : Res (string * gmap string PyVal) :=
  res_bind (parse (format_url self)) (fun segs =>
    let format_args : gset string := list_to_set (field_names segs) in
    res_bind (foldl (pop_step format_args) (Ok (∅, kwargs)) (elements (dom kwargs)))
      (fun '(args, kwargs') =>
         res_bind (render args segs) (fun path => Ok (base +:+ path, kwargs')))).

End Template.

(** ** HTTP transport, the request log and the four request shapes *)
Module Http.
Import Client Decode Template.

(** A query parameter: a keyword argument, or the list of strings that
    [parse_qs] gives for a name. *)
Inductive ParamVal :=
| PV (v : PyVal)
| PVList (l : list string).

Inductive Transport :=
| Aiohttp     (* client.session *)
| Requests    (* the requests library *).

Record HttpRequest := mkReq {
  rq_via : Transport;
  rq_method : string;
  rq_url : string;
  rq_params : gmap string ParamVal;
  rq_json : option Json;
  rq_headers : gmap string string;
}.

(** [body] is [None] when the payload is not JSON. *)
Record Response := mkResp {
  status : Z;
  body : option Json;
}.

(** The remote API: what it answers to a request. *)
Definition Server : Type := HttpRequest -> Response.

(** Code that talks to the network: it reads the log of the requests
    issued so far and returns it extended. *)
Definition M (A : Type) : Type := list HttpRequest -> Res A * list HttpRequest.

Definition ret {A} (a : A) : M A := fun log => (Ok a, log).
Definition raise {A} (e : Exn) : M A := fun log => (Raise e, log).
Definition diverge {A} : M A := fun log => (Diverge, log).
Definition lift {A} (r : Res A) : M A := fun log => (r, log).
Definition bind {A B} (m : M A) (k : A -> M B) : M B :=
  fun log =>
    match m log with
    | (Ok a, log') => k a log'
    | (Raise e, log') => (Raise e, log')
    | (Diverge, log') => (Diverge, log')
    end.

Notation "'let*' x ':=' c 'in' k" := (bind c (fun x => k))
  (at level 10, x name, c at level 200, k at level 200, only parsing).
Notation "'let*' ' p ':=' c 'in' k" := (bind c (fun x => let 'p := x in k))
  (at level 10, p pattern, c at level 200, k at level 200, only parsing).

(** The functions of [urllib.parse] that the pagination loop applies to a
    non-empty cursor string, taken as parameters: [urlparse(u).path],
    [urlparse(u).query], [parse_qs] and [urljoin]. The one fact used about
    them is that joining a non-empty URL with its own path is not the empty
    string ([urljoin] returns its base when the path is empty). *)
Record UrlLib := mkUrlLib {
  urlparse_path : string -> string;
  urlparse_query : string -> string;
  parse_qs : string -> gmap string (list string);
  urljoin : string -> string -> string;
  urljoin_own_path : forall u, u <> "" -> urljoin u (urlparse_path u) <> "";
}.

Definition is_empty_status (s : Z) : bool :=
  (s =? 400)%Z || (s =? 404)%Z || (s =? 500)%Z.

(** [await r.json()] / [r.json()] *)
Definition json (r : Response) : M Json :=
  match body r with
  | Some j => ret j
  | None => raise JSONDecodeError
  end.

Fixpoint assoc (k : string) (kvs : list (string * Json)) : option Json :=
  match kvs with
  | [] => None
  | (k', v) :: r => if String.eqb k k' then Some v else assoc k r
  end.

(** [d[k]] *)
Definition subscript (d : Json) (k : string) : Res Json :=
  match d with
  | JObj kvs =>
      match assoc k kvs with
      | Some v => Ok v
      | None => Raise (KeyError k)
      end
  | _ => Raise TypeError
  end.

(** [d.get(k, None)], [None] standing for an absent key *)
Definition dict_get (d : Json) (k : string) : Res (option Json) :=
  match d with
  | JObj kvs => Ok (assoc k kvs)
  | _ => Raise AttributeError
  end.

Fixpoint chars (s : string) : list Json :=
  match s with
  | EmptyString => []
  | String c t => JStr (String c EmptyString) :: chars t
  end.

(** What [for resource in j] iterates over (a string's characters are its
    bytes here). *)
Definition py_iter (j : Json) : Res (list Json) :=
  match j with
  | JArr l => Ok l
  | JObj kvs => Ok (map (fun kv => JStr (fst kv)) kvs)
  | JStr s => Ok (chars s)
  | _ => Raise TypeError
  end.

Definition json_truthy (j : Json) : bool :=
  match j with
  | JNull => false
  | JBool b => b
  | JNum z => negb (z =? 0)%Z
  | JStr s => PyStr.truthy s
  | JArr l => match l with [] => false | _ => true end
  | JObj kvs => match kvs with [] => false | _ => true end
  end.

(** The request that the aiohttp session sends for a call: the session's
    default headers are merged under the call's own. *)
Definition rest_request (c : AsyncCloud) (method url : string)
    (body : option Json) (params : gmap string ParamVal)
    (headers : gmap string string) : HttpRequest :=
  {| rq_via := Aiohttp; rq_method := method; rq_url := url;
     rq_params := params; rq_json := body;
     rq_headers := headers ∪ session_headers c |}.

(** [GraphQLRequest] *)
Record GraphQLRequest (Q T : Type) := mkGraphQL {
  operation_name : string;
  asdict : Q -> Json;              (* dataclasses.asdict on query_arg_type *)
  gql_return_type : ReturnType T;
  query_template_str : string;
}.
Arguments mkGraphQL {Q T} _ _ _ _.
Arguments operation_name {Q T} _.
Arguments asdict {Q T} _ _.
Arguments gql_return_type {Q T} _.
Arguments query_template_str {Q T} _.

Definition graphql_base : string := "https://graph.soundcloud.com/graphql".

(** The request that [GraphQLRequest.__call__] posts. *)
Definition graphql_request {Q T} (self : GraphQLRequest Q T) (client : AsyncCloud)
    (query_args : Q) : HttpRequest :=
  {| rq_via := Requests; rq_method := "POST"; rq_url := graphql_base;
     rq_params := {[ "client_id" := PV (PStr (client_id client)) ]};
     rq_json := Some (JObj [("operationName", JStr (operation_name self));
                             ("query", JStr (query_template_str self));
                             ("variables", asdict self query_args)]);
     rq_headers := <["Apollographql-Client-Name" := "v2"]>
                     (_get_default_headers client) |}.

Section WithWorld.
Context (lib : UrlLib) (srv : Server).

(** Sending a request: the server's answer, and the request logged. *)
Definition send (rq : HttpRequest) : M Response :=
  fun log => (Ok (srv rq), log ++ [rq]).

(** [client.session.request(method, url, json=.., params=.., headers=..,
    raise_for_status=..)] entered as a context manager. aiohttp merges
    the session's default headers under the call's own and, when
    [raise_for_status] is true, calls [raise_for_status()] on the response
    before handing it over: [ClientResponseError] for every status of 400
    and above. *)
Definition session_request (c : AsyncCloud) (method url : string)
    (body : option Json) (params : gmap string ParamVal)
    (headers : gmap string string) (raise_for_status : bool) : M Response :=
  let* r := send (rest_request c method url body params headers) in
  if raise_for_status && (400 <=? status r)%Z then
    raise (ClientResponseError (status r))
  else ret r.

(** [requests.post(url, json=.., params=.., headers=..)] *)
Definition requests_post (url : string) (body : Json)
    (params : gmap string ParamVal) (headers : gmap string string) : M Response :=
  send {| rq_via := Requests; rq_method := "POST"; rq_url := url;
          rq_params := params; rq_json := Some body; rq_headers := headers |}.

(** [r.raise_for_status()] of requests: [HTTPError] for 4xx and 5xx. *)
Definition raise_for_status (r : Response) : M unit :=
  if (400 <=? status r)%Z && (status r <? 600)%Z then raise (HTTPError (status r))
  else ret tt.

Section Shapes.
Context {T : Type}.

(** [SingleRequest.__call__]. Both branches inside the [async with]
    block return, so the statements after the block are never reached
    and have no counterpart here. *)
Definition SingleRequest_call (self : Request T) (client : AsyncCloud)
    (body : option Json) (kwargs : gmap string PyVal) : M (option T) :=
  let* '(resource_url, kwargs) := lift (_format_url_and_remove_params self kwargs) in
  let params := <["client_id" := PV (PStr (client_id client))]> (PV <$> kwargs) in
  let* r := session_request client (method self) resource_url body params ∅ true in
  if is_empty_status (status r) then ret None
  else
    let* d := json r in
    let* v := lift (_convert_dict d (return_type self)) in
    ret (Some v).

(** [ListRequest.__call__] *)
Definition ListRequest_call (self : Request T) (client : AsyncCloud)
    (body : option Json) (kwargs : gmap string PyVal) : M (list T) :=
  let* '(resource_url, kwargs) := lift (_format_url_and_remove_params self kwargs) in
  let params := <["client_id" := PV (PStr (client_id client))]> (PV <$> kwargs) in
  let headers := _get_default_headers client in
  let* r := session_request client "GET" resource_url None params headers true in
  if is_empty_status (status r) then ret []
  else
    let* d := json r in
    let* items := lift (py_iter d) in
    (fix convert_all (l : list Json) : M (list T) :=
       match l with
       | [] => ret []
       | resource :: l' =>
           let* v := lift (_convert_dict resource (return_type self)) in
           let* vs := convert_all l' in
           ret (v :: vs)
       end) items.

(** *** The paginated collection: an asynchronous generator *)

(** Where the generator of [CollectionRequest.__call__] is suspended:
    not started yet (nothing of the body has run), at the [yield]
    inside the loop over [data["collection"]] with [rest] still to go,
    or finished. *)
Inductive GenState :=
| GStart (kwargs : gmap string PyVal) (offset limit : option PyVal)
| GSuspended (data : Json) (rest : list Json)
| GDone.

(** The records a generator can yield without another request: what is
    left of the page it is suspended in. *)
Definition at_hand (g : GenState) : list Json :=
  match g with
  | GSuspended _ rest => rest
  | _ => []
  end.

(** The parameters of the first request: [kwargs] once the path
    parameters are gone, [client_id], then [offset] and [limit] when
    they were given. *)
Definition initial_params (client : AsyncCloud) (kwargs : gmap string PyVal)
    (offset limit : option PyVal) : gmap string ParamVal :=
  let params := <["client_id" := PV (PStr (client_id client))]> (PV <$> kwargs) in
  let params := match offset with
                | Some o => <["offset" := PV o]> params
                | None => params
                end in
  match limit with
  | Some n => <["limit" := PV n]> params
  | None => params
  end.

(** The five statements after the [for] loop: the URL and the
    parameters of the following request. A falsy [next_href] (absent,
    [null], the empty string, ...) goes through [urlparse], [parse_qs]
    and [urljoin] to an empty URL (the empty bytes string, as falsy as the
    empty string that stands for it here) and no cursor parameter; a
    truthy value that is not a string makes [urlparse] raise. *)
Definition cursor_target (client : AsyncCloud) (next_href : option Json)
  : Res (string * gmap string ParamVal) :=
  let with_client_id (params : gmap string ParamVal) :=
    <["client_id" := PVList [client_id client]]> params in
  match next_href with
  | Some (JStr (String a u)) =>
      let href := String a u in
      Ok (urljoin lib href (urlparse_path lib href),
          with_client_id (PVList <$> parse_qs lib (urlparse_query lib href)))
  | Some j =>
      if json_truthy j then Raise AttributeError
      else Ok ("", with_client_id ∅)
  | None => Ok ("", with_client_id ∅)
  end.

(** The body of [for resource in data["collection"]] from the point
    where [items] remain, followed by the end of the [while] body;
    [next_page] is the loop head. *)
Definition for_body (self : Request T) (client : AsyncCloud)
    (next_page : string -> gmap string ParamVal -> M (option T * GenState))
    (data : Json) (items : list Json) : M (option T * GenState) :=
  match items with
  | resource :: rest =>
      let* v := lift (_convert_dict resource (return_type self)) in
      ret (Some v, GSuspended data rest)
  | [] =>
      let* next_href := lift (dict_get data "next_href") in
      let* '(resource_url, params) := lift (cursor_target client next_href) in
      next_page resource_url params
  end.

(** [while resource_url:], run until the next [yield] or the end.
    [fuel] bounds the number of pages fetched on the way. *)
Fixpoint fetch_pages (self : Request T) (client : AsyncCloud) (fuel : nat)
    (resource_url : string) (params : gmap string ParamVal)
  : M (option T * GenState) :=
  if negb (PyStr.truthy resource_url) then ret (None, GDone)
  else
    match fuel with
    | O => diverge
    | S fuel' =>
        let* r := session_request client "GET" resource_url None params ∅ true in
        if is_empty_status (status r) then ret (None, GDone)
        else
          let* data := json r in
          let* collection := lift (subscript data "collection") in
          let* items := lift (py_iter collection) in
          for_body self client (fetch_pages self client fuel') data items
    end.

(** [__anext__]: resume the generator until it yields ([Some v]) or
    ends ([None], i.e. [StopAsyncIteration]). *)
Definition anext (self : Request T) (client : AsyncCloud) (fuel : nat)
    (g : GenState) : M (option T * GenState) :=
  match g with
  | GStart kwargs offset limit =>
      let* '(resource_url, kwargs) := lift (_format_url_and_remove_params self kwargs) in
      fetch_pages self client fuel resource_url
        (initial_params client kwargs offset limit)
  | GSuspended data rest =>
      for_body self client (fetch_pages self client fuel) data rest
  | GDone => ret (None, GDone)
  end.

(** [async for item in islice(g, n): chunk.append(item)]: at most [n]
    calls of [__anext__], none after the [n]-th item. *)
Fixpoint islice_collect (self : Request T) (client : AsyncCloud) (fuel : nat)
    (n : nat) (g : GenState) : M (list T * GenState) :=
  match n with
  | O => ret ([], g)
  | S n' =>
      let* '(o, g') := anext self client fuel g in
      match o with
      | Some v =>
          let* '(vs, g'') := islice_collect self client fuel n' g' in
          ret (v :: vs, g'')
      | None => ret ([], g')
      end
  end.

End Shapes.

(** [GraphQLRequest.__call__] *)
Definition GraphQLRequest_call {Q T} (self : GraphQLRequest Q T)
    (client : AsyncCloud) (query_args : Q) : M (option T) :=
  let params : gmap string ParamVal :=
    {[ "client_id" := PV (PStr (client_id client)) ]} in
  let headers := <["Apollographql-Client-Name" := "v2"]> (_get_default_headers client) in
  let data := JObj [("operationName", JStr (operation_name self));
                    ("query", JStr (query_template_str self));
                    ("variables", asdict self query_args)] in
  let* r := requests_post graphql_base data params headers in
  if is_empty_status (status r) then ret None
  else
    let* _ := raise_for_status r in
    let* j := json r in
    let* d := lift (subscript j "data") in
    let* v := lift (_convert_dict d (gql_return_type self)) in
    ret (Some v).

End WithWorld.

(** *** What a paginated endpoint serves

    The vocabulary in which the pagination properties are stated: the
    server's side of a chain of pages. *)
Section Pages.
Context (lib : UrlLib) (srv : Server) (client : AsyncCloud).

Definition page_request (url : string) (params : gmap string ParamVal)
  : HttpRequest :=
  rest_request client "GET" url None params ∅.

(** The server answers the request for [url] with a success status and
    a JSON body [data] whose [collection] array holds [records]. *)
Definition Page (url : string) (params : gmap string ParamVal)
    (data : Json) (records : list Json) : Prop :=
  url <> "" /\
  status (srv (page_request url params)) < 400 /\
  body (srv (page_request url params)) = Some data /\
  subscript data "collection" = Ok (JArr records).

(** [data] has no [next_href] field (or a [null] or otherwise falsy
    one). *)
Definition no_cursor (data : Json) : Prop :=
  exists next_href,
    dict_get data "next_href" = Ok next_href /\
    match next_href with
    | None => True
    | Some j => json_truthy j = false
    end.

(** [data] has the cursor [href] in its [next_href] field. *)
Definition has_cursor (data : Json) (href : string) : Prop :=
  dict_get data "next_href" = Ok (Some (JStr href)) /\ href <> "".

(** The request a cursor stands for: the cursor's URL without its query
    string, and the parameters of that query string with [client_id]
    set to the client's. *)
Definition cursor_url (href : string) : string :=
  urljoin lib href (urlparse_path lib href).
Definition cursor_params (href : string) : gmap string ParamVal :=
  <["client_id" := PVList [client_id client]]>
    (PVList <$> parse_qs lib (urlparse_query lib href)).

(** [PagesFrom url params pages]: asked at [url] with [params], the
    server serves the first of [pages]; each page but the last carries
    the cursor of the next, the last carries none. A page is listed as
    the request that fetches it and its records. *)
Inductive PagesFrom
  : string -> gmap string ParamVal -> list (HttpRequest * list Json) -> Prop :=
| PagesFrom_last url params data records :
    Page url params data records ->
    no_cursor data ->
    PagesFrom url params [(page_request url params, records)]
| PagesFrom_next url params data records href pages :
    Page url params data records ->
    has_cursor data href ->
    PagesFrom (cursor_url href) (cursor_params href) pages ->
    PagesFrom url params ((page_request url params, records) :: pages).

(** What follows a page whose body is [data]. *)
Definition After (data : Json) (pages : list (HttpRequest * list Json)) : Prop :=
  (no_cursor data /\ pages = []) \/
  (exists href, has_cursor data href /\
                PagesFrom (cursor_url href) (cursor_params href) pages).

(** All the records of a chain, in page order. *)
Definition records_of (pages : list (HttpRequest * list Json)) : list Json :=
  concat (map snd pages).

(** [values] are what the records decode to. *)
Definition decodes {T} (return_type : ReturnType T) (records : list Json)
    (values : list T) : Prop :=
  Forall2 (fun j v => _convert_dict j return_type = Ok v) records values.

(** The chain of pages that a call with [kwargs], [offset] and [limit]
    walks. *)
Definition Chain {T} (self : Request T) (kwargs : gmap string PyVal)
    (offset limit : option PyVal) (pages : list (HttpRequest * list Json)) : Prop :=
  exists url kwargs',
    _format_url_and_remove_params self kwargs = Ok (url, kwargs') /\
    PagesFrom url (initial_params client kwargs' offset limit) pages.

(** Where a generator stands in a chain: [items] are the records it has
    still to yield and [pages] the pages it has still to fetch. *)
Definition Pending {T} (self : Request T) (g : @GenState)
    (items : list Json) (pages : list (HttpRequest * list Json)) : Prop :=
  match g with
  | GStart kwargs offset limit =>
      Chain self kwargs offset limit pages /\ items = records_of pages
  | GSuspended data rest =>
      After data pages /\ items = rest ++ records_of pages
  | GDone => items = [] /\ pages = []
  end.

End Pages.

End Http.

(** ** The client's methods ([asoundcloud.py]) *)
Module Api.
Import Client Decode Template Http.

(** *** Records of [soundcloud.resource.graphql], by the fields read *)
Record InteractionCount := mkCount {
  count : option Z;
  interactionTypeValueUrn : option string;
}.

Record UserInteraction := mkInteraction {
  interactionCounts : option (list InteractionCount);
  userInteraction : option string;
}.

(** [UserInteractionsQueryResult] *)
Record UserInteractionsQueryResult := mkResult {
  user : list UserInteraction;
  creator : list UserInteraction;
}.

(** [UserInteractionsQueryParams] *)
Record UserInteractionsQueryParams := mkParams {
  createdByProfileUrn : string;
  interactionTypeUrn : string;
  parentUrn : string;
  targetUrns : list string;
}.

Definition asdict_params (q : UserInteractionsQueryParams) : Json :=
  JObj [("createdByProfileUrn", JStr (createdByProfileUrn q));
        ("interactionTypeUrn", JStr (interactionTypeUrn q));
        ("parentUrn", JStr (parentUrn q));
        ("targetUrns", JArr (map JStr (targetUrns q)))].

(** The resource classes of the soundcloud library that the methods below
    name, with the attributes they read: [track.urn], [track.user.urn],
    [comment.self.urn], and whether a search item is a [User]. *)
Record Resources := mkResources {
  BasicTrack : Type;
  BasicComment : Type;
  User : Type;
  SearchItem : Type;
  BasicTrack_type : PyType BasicTrack;
  BasicComment_type : PyType BasicComment;
  SearchItem_type : ReturnType SearchItem;
  UserInteractionsQueryResult_type : PyType UserInteractionsQueryResult;
  track_urn : BasicTrack -> string;
  track_user_urn : BasicTrack -> string;
  comment_self_urn : BasicComment -> string;
  as_User : SearchItem -> option User;
}.

Section WithResources.
Context (lib : UrlLib) (srv : Server) (R : Resources).

Record CommentWithInteractions := mkCWI {
  comment : BasicComment R;
  likes : Z;
  liked_by_creator : bool;
  liked_by_user : bool;
}.

(** *** Endpoints *)
Definition ResolveRequest : Request (SearchItem R) :=
  mkRequest "/resolve" (SearchItem_type R) "GET".
Definition TrackRequest : Request (BasicTrack R) :=
  mkRequest "/tracks/{track_id}" (Single (BasicTrack_type R)) "GET".
Definition TracksRequest : Request (BasicTrack R) :=
  mkRequest "/tracks" (Single (BasicTrack_type R)) "GET".
Definition TrackCommentsRequest : Request (BasicComment R) :=
  mkRequest "/tracks/{track_id}/comments" (Single (BasicComment_type R)) "GET".

Definition UserInteractionsRequest
  : GraphQLRequest UserInteractionsQueryParams UserInteractionsQueryResult :=
  mkGraphQL
    "UserInteractions"
    asdict_params
    (Single (UserInteractionsQueryResult_type R))
"query UserInteractions(
   $parentUrn: String!
   $interactionTypeUrn: String!
   $targetUrns: [String!]!
   $createdByProfileUrn: String
) {
   user: userInteractions(
       parentUrn: $parentUrn
       interactionTypeUrn: $interactionTypeUrn
       targetUrns: $targetUrns
   ) {
       interactionCounts {
           count
           interactionTypeValueUrn
       }
       interactionTypeUrn
       targetUrn
       userInteraction
   }

   creator: userInteractions(
       parentUrn: $parentUrn
       interactionTypeUrn: $interactionTypeUrn
       targetUrns: $targetUrns
       createdByProfileUrn: $createdByProfileUrn
   ) {
       interactionCounts {
           count
           interactionTypeValueUrn
       }
       interactionTypeUrn
       targetUrn
       userInteraction
   }
}".

(** *** Methods *)

(** [resolve]: an [async def]; this is what awaiting it runs. *)
Definition resolve (client : AsyncCloud) (url : string) : M (option (SearchItem R)) :=
  SingleRequest_call srv ResolveRequest client None {[ "url" := PStr url ]}.

(** [get_track] *)
Definition get_track (client : AsyncCloud) (track_id : Z) : M (option (BasicTrack R)) :=
  SingleRequest_call srv TrackRequest client None {[ "track_id" := PInt track_id ]}.

(** Calling a [CollectionRequest] with keyword arguments creates the
    generator: [_], [offset] and [limit] bind to the parameters of that
    name, the others are collected in [kwargs]. Nothing runs yet. *)
Definition CollectionRequest_call (keywords : gmap string PyVal)
  : GenState :=
  GStart (delete "_" (delete "offset" (delete "limit" keywords)))
         (keywords !! "offset") (keywords !! "limit").

(** [get_track_comments]: a keyword given twice is a [TypeError], and so
    is a keyword [client], the parameter of [CollectionRequest.__call__]
    that the method passes by position. *)
Definition get_track_comments (client : AsyncCloud) (track_id threaded : Z)
    (kwargs : gmap string PyVal) : Res GenState :=
  if decide ("track_id" ∈ dom kwargs ∨ "threaded" ∈ dom kwargs ∨ "client" ∈ dom kwargs)
  then Raise TypeError
  else Ok (CollectionRequest_call
             (<["track_id" := PInt track_id]> (<["threaded" := PInt threaded]> kwargs))).

Definition like : string := "sc:interactiontypevalue:like".

Definition is_like (x : InteractionCount) : bool :=
  bool_decide (interactionTypeValueUrn x = Some like).

(** The loop over [zip(chunk, result.user, result.creator)]. *)
Fixpoint enrich (chunk : list (BasicComment R))
    (user_side creator_side : list UserInteraction)
  : Res (list CommentWithInteractions) :=
  match chunk, user_side, creator_side with
  | comment :: chunk', user_interactions :: us, creator_interactions :: cs =>
      match interactionCounts user_interactions with
      | None => Raise AssertionError
      | Some counts =>
          let likes := List.filter is_like counts in
          let num_likes := match likes with
                           | l :: _ => count l
                           | [] => Some 0
                           end in
          res_bind (enrich chunk' us cs) (fun more =>
            Ok ({| comment := comment;
                   likes := match num_likes with
                            | Some n => n
                            | None => 0
                            end;
                   liked_by_creator :=
                     bool_decide (userInteraction creator_interactions = Some like);
                   liked_by_user :=
                     bool_decide (userInteraction user_interactions = Some like) |}
                :: more))
      end
  | _, _, _ => Ok []
  end.

(** What a consumer that runs an asynchronous generator to its end has
    seen: the items yielded, then how it ended. *)
Record Drained (A : Type) := mkDrained {
  emitted : list A;
  ending : Res unit;
}.
Arguments mkDrained {A} _ _.
Arguments emitted {A} _.
Arguments ending {A} _.

Definition emit_then {A} (xs : list A)
    (rest : Drained A * list HttpRequest) : Drained A * list HttpRequest :=
  (mkDrained (xs ++ emitted (fst rest)) (ending (fst rest)), snd rest).

Definition ended {A} (r : Res unit) (log : list HttpRequest)
  : Drained A * list HttpRequest :=
  (mkDrained [] r, log).

(** The [while True] loop of [get_track_comments_with_interactions],
    run to the end; [fuel] bounds its iterations and the pages fetched
    by each call of [__anext__]. *)
Fixpoint batches (client : AsyncCloud) (track_urn creator_urn : string)
    (fuel : nat) (comments : GenState) (log : list HttpRequest)
  : Drained CommentWithInteractions * list HttpRequest :=
  match fuel with
  | O => ended Diverge log
  | S fuel' =>
      match islice_collect lib srv TrackCommentsRequest client fuel 10 comments log with
      | (Ok (chunk, comments'), log1) =>
          match chunk with
          | [] => ended (Ok tt) log1
          | _ =>
              let comment_urns := map (comment_self_urn R) chunk in
              match GraphQLRequest_call srv UserInteractionsRequest client
                      (mkParams creator_urn "sc:interactiontype:reaction"
                                track_urn comment_urns) log1 with
              | (Ok (Some result), log2) =>
                  match enrich chunk (user result) (creator result) with
                  | Ok comments_with_interactions =>
                      emit_then comments_with_interactions
                        (batches client track_urn creator_urn fuel' comments' log2)
                  | Raise e => ended (Raise e) log2
                  | Diverge => ended Diverge log2
                  end
              | (Ok None, log2) => ended (Ok tt) log2
              | (Raise e, log2) => ended (Raise e) log2
              | (Diverge, log2) => ended Diverge log2
              end
          end
      | (Raise e, log1) => ended (Raise e) log1
      | (Diverge, log1) => ended Diverge log1
      end
  end.

(** [get_track_comments_with_interactions], consumed to its end. *)
Definition get_track_comments_with_interactions (client : AsyncCloud)
    (fuel : nat) (track_id threaded : Z) (kwargs : gmap string PyVal)
    (log : list HttpRequest)
  : Drained CommentWithInteractions * list HttpRequest :=
  match get_track client track_id log with
  | (Ok None, log1) => ended (Ok tt) log1
  | (Ok (Some track), log1) =>
      match get_track_comments client track_id threaded kwargs with
      | Ok comments =>
          batches client (track_urn R track) (track_user_urn R track) fuel comments log1
      | Raise e => ended (Raise e) log1
      | Diverge => ended Diverge log1
      end
  | (Raise e, log1) => ended (Raise e) log1
  | (Diverge, log1) => ended Diverge log1
  end.

(** What the name [resource] of [get_user_by_username] can be bound to:
    the coroutine object that calling an [async def] returns, or a value
    that awaiting it gives. *)
Inductive PyObj :=
| Coroutine (co : M (option (SearchItem R)))
| Value (v : option (SearchItem R)).

Definition obj_truthy (o : PyObj) : bool :=
  match o with
  | Coroutine _ => true
  | Value (Some _) => true
  | Value None => false
  end.

(** [isinstance(o, User)], with the instance when it is one. *)
Definition instance_of_User (o : PyObj) : option (User R) :=
  match o with
  | Value (Some item) => as_User R item
  | _ => None
  end.

(** [get_user_by_username]: a plain [def]; the call of [resolve] is not
    awaited. *)
Definition get_user_by_username (client : AsyncCloud) (username : string)
  : option (User R) :=
  let resource := Coroutine (resolve client ("https://soundcloud.com/" +:+ username)) in
  if obj_truthy resource then
    match instance_of_User resource with
    | Some u => Some u
    | None => None
    end
  else None.

(** *** Vocabulary for the composed operation *)

(** The comments of the track are served as the chain [pages]. *)
Definition CommentPages (client : AsyncCloud) (track_id threaded : Z)
    (kwargs : gmap string PyVal) (pages : list (HttpRequest * list Json)) : Prop :=
  exists kw offset limit,
    get_track_comments client track_id threaded kwargs = Ok (GStart kw offset limit) /\
    Chain lib srv client TrackCommentsRequest kw offset limit pages.

(** The interaction-count query for the comments [urns] of [track]. *)
Definition interactions_query (client : AsyncCloud) (track : BasicTrack R)
    (urns : list string) : HttpRequest :=
  graphql_request UserInteractionsRequest client
    (mkParams (track_user_urn R track) "sc:interactiontype:reaction"
              (track_urn R track) urns).

(** The GraphQL endpoint answers that query with a success status and
    a body whose [data] decodes to [result]. *)
Definition Answers (client : AsyncCloud) (track : BasicTrack R)
    (urns : list string) (result : UserInteractionsQueryResult) : Prop :=
  let r := srv (interactions_query client track urns) in
  status r < 400 /\
  exists j d, body r = Some j /\ subscript j "data" = Ok d /\
              from_dict (UserInteractionsQueryResult_type R) d = Ok result.

(** [result] has one entry per queried comment on both sides, each with
    its interaction counts. *)
Definition Aligned (n : nat) (result : UserInteractionsQueryResult) : Prop :=
  length (user result) = n /\ length (creator result) = n /\
  Forall (fun u => interactionCounts u <> None) (user result).

(** Requests sent through the requests library: the GraphQL queries. *)
Definition via_requests (rq : HttpRequest) : bool :=
  match rq_via rq with
  | Requests => true
  | Aiohttp => false
  end.

End WithResources.

Arguments mkDrained {A} _ _.
Arguments emitted {A} _.
Arguments ending {A} _.

End Api.

(** ** Client-id bootstrap ([AsyncCloud.generate_client_id]) *)
Module Bootstrap.
Import Client.

(** The double quote. *)
Definition dquote : ascii := "034"%char.

(** The pages that [requests.get] fetches: status and text of a URL. *)
Definition Web : Type := string -> Z * string.

(** What the bootstrap raises: the [HTTPError] of [raise_for_status], or
    [ClientIDGenerationError] with its message. *)
Inductive BootError :=
| BootHTTPError (status : Z)
| ClientIDGenerationError (msg : string).

(** [s] without the prefix [p], when it starts with it. *)
Fixpoint strip_prefix (p s : string) : option string :=
  match p, s with
  | EmptyString, _ => Some s
  | String a p', String b s' => if Ascii.eqb a b then strip_prefix p' s' else None
  | String _ _, EmptyString => None
  end.

(** The longest prefix of [s] without the character [c], and what
    follows it. *)
Fixpoint span_not (c : ascii) (s : string) : string * string :=
  match s with
  | EmptyString => (EmptyString, EmptyString)
  | String a t =>
      if Ascii.eqb a c then (EmptyString, s)
      else let '(run, rest) := span_not c t in (String a run, rest)
  end.

Definition asset_base : string := "https://a-v2.sndcdn.com/assets/0-".

(** [_ASSETS_SCRIPTS_REGEX] matched at the start of [s]: the text [src=],
    a quote, the asset base, one or more characters other than a dot, the
    text [.js] and a quote. The group is the URL between the quotes. A run
    of characters other than a dot can only be followed by a dot or the end,
    so the run is the whole of it. *)
Definition match_asset (s : string) : option string :=
  s1 ← strip_prefix ("src=" +:+ String dquote asset_base) s;
  let '(name, rest) := span_not "." s1 in
  match name with
  | EmptyString => None
  | _ => _ ← strip_prefix (".js" +:+ String dquote EmptyString) rest;
         Some (asset_base +:+ name +:+ ".js")
  end.

(** [_CLIENT_ID_REGEX] matched at the start of [s]: the text [client_id:],
    a quote, one or more characters other than a quote, and a quote. *)
Definition match_client_id (s : string) : option string :=
  s1 ← strip_prefix ("client_id:" +:+ String dquote EmptyString) s;
  let '(id, rest) := span_not dquote s1 in
  match id, rest with
  | EmptyString, _ => None
  | _, EmptyString => None
  | _, _ => Some id
  end.

(** The leftmost match in [s]: what [findall(..)[0]] and [search(..)]
    return the group of. *)
Fixpoint search (m : string -> option string) (s : string) : option string :=
  match m s with
  | Some r => Some r
  | None =>
      match s with
      | EmptyString => None
      | String _ t => search m t
      end
  end.

(** [requests.get(url)] followed by [r.raise_for_status()]: the text. *)
Definition get_text (web : Web) (url : string) : BootError + string :=
  let '(status, text) := web url in
  if (400 <=? status)%Z && (status <? 600)%Z then inl (BootHTTPError status)
  else inr text.

Definition generate_client_id (web : Web) : BootError + string :=
  match get_text web "https://soundcloud.com" with
  | inl e => inl e
  | inr home =>
      match search match_asset home with
      | None => inl (ClientIDGenerationError "No asset scripts found")
      | Some url =>
          match get_text web url with
          | inl e => inl e
          | inr script =>
              match search match_client_id script with
              | None =>
                  inl (ClientIDGenerationError
                         ("Could not find client_id in script '" +:+ url +:+ "'"))
              | Some client_id => inr client_id
              end
          end
      end
  end.

(** [AsyncCloud(client_id, auth_token, user_agent)]: the client id is
    generated only when none is given; the rest is [Client.init]. *)
Definition construct (web : Web) (cid token : option string) (user_agent : string)
  : BootError + Res AsyncCloud :=
  if opt_truthy cid then
    inr (init (Raise (Unmodelled "generate_client_id")) cid token user_agent)
  else
    match generate_client_id web with
    | inl e => inl e
    | inr generated => inr (init (Ok generated) cid token user_agent)
    end.

End Bootstrap.

(** ** More methods of the client *)
Module Methods.
Import Client Decode Template Http Api.

(** [MeRequest]; the class [User] is given by its
    [from_dict]. *)
Definition MeRequest {U} (User_type : PyType U) : Request U :=
  mkRequest "/me" (Single User_type) "GET".

(** The [try] / [except ClientResponseError] of the two validity probes:
    success is [True], status 401 is [False], any other exception goes
    on. *)
Definition probe {T} (call : M (option T)) : M bool :=
  fun log =>
    match call log with
    | (Ok _, log') => (Ok true, log')
    | (Raise (ClientResponseError status), log') =>
        if (status =? 401)%Z then (Ok false, log')
        else (Raise (ClientResponseError status), log')
    | (Raise e, log') => (Raise e, log')
    | (Diverge, log') => (Diverge, log')
    end.

(** [is_client_id_valid] *)
Definition is_client_id_valid (srv : Server) (R : Resources) (client : AsyncCloud)
  : M bool :=
  probe (SingleRequest_call srv (TrackRequest R) client None
           {[ "track_id" := PInt 1032303631 ]}).

(** [is_auth_token_valid] *)
Definition is_auth_token_valid {U} (srv : Server) (User_type : PyType U)
    (client : AsyncCloud) : M bool :=
  probe (SingleRequest_call srv (MeRequest User_type) client None ∅).

(** [sep.join(l)] *)
Fixpoint join (sep : string) (l : list string) : string :=
  match l with
  | [] => EmptyString
  | [s] => s
  | s :: r => s +:+ sep +:+ join sep r
  end.

(** A keyword argument's value as the JSON value it stands for. *)
Definition json_of (v : PyVal) : Json :=
  match v with
  | PInt z => JNum z
  | PStr s => JStr s
  end.

(** The names that [get_tracks] binds itself. A keyword of such a name is
    bound to the parameter, and given next to the positional argument it is a
    [TypeError]: the dictionary of the extra keyword arguments holds none. *)
Definition get_tracks_names : list string :=
  ["self"; "track_ids"; "playlistId"; "playlistSecretToken"].

(** [get_tracks]. The call [TracksRequest(self, ids=.., **kwargs)] binds
    the keywords to the parameters of [ListRequest.__call__], which are
    [self], [client], [body] and the dictionary of the others: a second
    [ids], or [client] given again, is a [TypeError]; a keyword [body] becomes
    the body parameter, which the bulk-list shape does not send; the others
    go on as query parameters. *)
Definition get_tracks (srv : Server) (R : Resources) (client : AsyncCloud)
    (track_ids : list Z) (playlistId : option Z) (playlistSecretToken : option string)
    (kwargs : gmap string PyVal) : M (list (BasicTrack R)) :=
  if decide (Exists (fun k => k ∈ dom kwargs) get_tracks_names) then raise TypeError
  else
    let kwargs := match playlistId with
                  | Some p => <["playlistId" := PInt p]> kwargs
                  | None => kwargs
                  end in
    let kwargs := match playlistSecretToken with
                  | Some t => <["playlistSecretToken" := PStr t]> kwargs
                  | None => kwargs
                  end in
    if decide ("ids" ∈ dom kwargs ∨ "client" ∈ dom kwargs) then raise TypeError
    else
      let keywords := <["ids" := PStr (join "," (map PyStr.of_Z track_ids))]> kwargs in
      ListRequest_call srv (TracksRequest R) client
        (json_of <$> keywords !! "body") (delete "body" keywords).

(** *** Vocabulary for the properties of the engine *)

(** What the single-resource shape sends. *)
Definition single_rq {T} (self : Request T) (client : AsyncCloud)
    (payload : option Json) (url : string) (kwargs' : gmap string PyVal)
  : HttpRequest :=
  rest_request client (method self) url payload
    (<["client_id" := PV (PStr (client_id client))]> (PV <$> kwargs')) ∅.

(** What the bulk-list shape sends. *)
Definition list_rq (client : AsyncCloud) (url : string)
    (kwargs' : gmap string PyVal) : HttpRequest :=
  rest_request client "GET" url None
    (<["client_id" := PV (PStr (client_id client))]> (PV <$> kwargs'))
    (_get_default_headers client).

(** The conversion loop of the bulk-list shape, by itself: the elements
    decoded in order, or the exception of the first that does not decode. *)
Fixpoint convert_all {T} (return_type : ReturnType T) (l : list Json) : Res (list T) :=
  match l with
  | [] => Ok []
  | resource :: l' =>
      res_bind (_convert_dict resource return_type) (fun v =>
      res_bind (convert_all return_type l') (fun vs => Ok (v :: vs)))
  end.

(** The request of the client-id probe. *)
Definition client_id_probe (R : Resources) (client : AsyncCloud) : HttpRequest :=
  single_rq (TrackRequest R) client None
    "https://api-v2.soundcloud.com/tracks/1032303631" ∅.

(** The request of the token probe. *)
Definition token_probe {U} (User_type : PyType U) (client : AsyncCloud) : HttpRequest :=
  single_rq (MeRequest User_type) client None "https://api-v2.soundcloud.com/me" ∅.

(** The keyword arguments that [get_tracks] passes on, [body] among them
    when it is given. *)
Definition tracks_kwargs (track_ids : list Z) (playlistId : option Z)
    (playlistSecretToken : option string) (kwargs : gmap string PyVal)
  : gmap string PyVal :=
  <["ids" := PStr (join "," (map PyStr.of_Z track_ids))]>
    (match playlistSecretToken with
     | Some t => <["playlistSecretToken" := PStr t]>
     | None => fun m => m
     end
       (match playlistId with
        | Some p => <["playlistId" := PInt p]> kwargs
        | None => kwargs
        end)).

(** Literal text written as a template: braces doubled. *)
Fixpoint escape (s : string) : string :=
  match s with
  | EmptyString => EmptyString
  | String c t =>
      if Ascii.eqb c "{" then String "{" (String "{" (escape t))
      else if Ascii.eqb c "}" then String "}" (String "}" (escape t))
      else String c (escape t)
  end.

(** The request carries the client's id as its [client_id] parameter (a
    string on a first request, a one-element list after a cursor). *)
Definition carries_client_id (client : AsyncCloud) (rq : HttpRequest) : Prop :=
  rq_params rq !! "client_id" = Some (PV (PStr (client_id client))) \/
  rq_params rq !! "client_id" = Some (PVList [client_id client]).

(** [l] cut into consecutive pieces of [k] elements, the last one possibly
    shorter; [n] bounds the number of pieces. *)
Fixpoint pieces_of {A} (n k : nat) (l : list A) : list (list A) :=
  match n with
  | O => []
  | S n' =>
      match l with
      | [] => []
      | _ => take k l :: pieces_of n' k (drop k l)
      end
  end.

(** The batches of ten that a list of comments is processed in. *)
Definition batches_of_ten {A} (l : list A) : list (list A) :=
  pieces_of (length l) 10 l.

(** A word: no whitespace in it, and not empty. *)
Definition is_word (s : string) : Prop :=
  s <> EmptyString /\
  forallb (fun c => negb (PyStr.is_space c)) (list_ascii_of_string s) = true.

Definition all_space (s : string) : Prop :=
  forallb PyStr.is_space (list_ascii_of_string s) = true.

(** [t] is the last word of [s]: a word of [s] that only whitespace
    follows and that starts [s] or comes after a whitespace character. *)
Definition last_word (s t : string) : Prop :=
  is_word t /\
  exists pre post,
    s = pre +:+ t +:+ post /\
    all_space post /\
    (pre = EmptyString \/
     exists pre' c, pre = pre' +:+ String c EmptyString /\ PyStr.is_space c = true).

End Methods.

(** ** Concrete clients, servers and resource classes

    Small instances on which the definitions above can be run. *)
Module Fixtures.
Import Client Decode Template Http Api.

(** A client built without a token: [AsyncCloud(client_id="cid")]. *)
Definition fresh_client : AsyncCloud :=
  {| client_id := "cid";
     _user_agent := _DEFAULT_USER_AGENT;
     _auth_token := None;
     _authorization := None;
     session_headers := {[ "User-Agent" := _DEFAULT_USER_AGENT ]} |}.

(** A client built with a token: [AsyncCloud(client_id="cid",
    auth_token="abc")]. *)
Definition token_client : AsyncCloud :=
  {| client_id := "cid";
     _user_agent := _DEFAULT_USER_AGENT;
     _auth_token := Some "abc";
     _authorization := Some "OAuth abc";
     session_headers := <["Authorization" := "OAuth abc"]>
                          {[ "User-Agent" := _DEFAULT_USER_AGENT ]} |}.

(** Two overlapping classes: every payload with an "id" is a
    [Supertype]; one that also has a "title" is a [Subtype] as well. The
    decoded value records the class that built it. *)
Definition has_key (k : string) (d : Json) : bool :=
  match d with
  | JObj kvs => match assoc k kvs with Some _ => true | None => false end
  | _ => false
  end.

Definition Supertype : PyType (string * Json) :=
  mkType "Supertype"
    (fun d => if has_key "id" d then Ok ("Supertype", d)
              else Raise (FromDictError "Supertype")).

Definition Subtype : PyType (string * Json) :=
  mkType "Subtype"
    (fun d => if has_key "id" d && has_key "title" d then Ok ("Subtype", d)
              else Raise (FromDictError "Subtype")).

Definition both_match : Json := JObj [("id", JNum 7); ("title", JStr "t")].
Definition none_match : Json := JObj [("name", JStr "n")].

(** The example of the specification: a template with two placeholders
    and a mapping with one key more. *)
Definition ab_request : Request unit :=
  mkRequest "/x/{a}/y/{b}" (Union []) "GET".
Definition abc_kwargs : gmap string PyVal :=
  {[ "a" := PInt 1; "b" := PInt 2; "c" := PInt 3 ]}.

(** *** Resource classes *)

Definition get_str (cls : string) (d : Json) (k : string) : Res string :=
  match subscript d k with
  | Ok (JStr s) => Ok s
  | _ => Raise (FromDictError cls)
  end.

Definition get_obj (cls : string) (d : Json) (k : string) : Res Json :=
  match subscript d k with
  | Ok (JObj kvs) => Ok (JObj kvs)
  | _ => Raise (FromDictError cls)
  end.

(** A track: its urn and the urn of its user. *)
Definition track_from_dict (d : Json) : Res (string * string) :=
  res_bind (get_str "BasicTrack" d "urn") (fun urn =>
  res_bind (get_obj "BasicTrack" d "user") (fun u =>
  res_bind (get_str "BasicTrack" u "urn") (fun user_urn =>
  Ok (urn, user_urn)))).

(** A comment: the urn under "self" and the body. *)
Definition comment_from_dict (d : Json) : Res (string * string) :=
  res_bind (get_obj "BasicComment" d "self") (fun s =>
  res_bind (get_str "BasicComment" s "urn") (fun urn =>
  res_bind (get_str "BasicComment" d "body") (fun text =>
  Ok (urn, text)))).

(** A search item: a user (by name) or a track (by urn). *)
Definition user_item : PyType (string + string) :=
  mkType "User" (fun d =>
    res_bind (get_str "User" d "username") (fun n => Ok (inl n))).
Definition track_item : PyType (string + string) :=
  mkType "Track" (fun d =>
    res_bind (get_str "Track" d "urn") (fun n => Ok (inr n))).

Definition count_from_json (d : Json) : Res InteractionCount :=
  match subscript d "count", subscript d "interactionTypeValueUrn" with
  | Ok (JNum n), Ok (JStr s) => Ok (mkCount (Some n) (Some s))
  | Ok JNull, Ok (JStr s) => Ok (mkCount None (Some s))
  | _, _ => Raise (FromDictError "InteractionCount")
  end.

Fixpoint decode_all {A} (f : Json -> Res A) (l : list Json) : Res (list A) :=
  match l with
  | [] => Ok []
  | x :: r => res_bind (f x) (fun a => res_bind (decode_all f r) (fun s => Ok (a :: s)))
  end.

Definition interaction_from_json (d : Json) : Res UserInteraction :=
  let mine := match subscript d "userInteraction" with
              | Ok (JStr s) => Some s
              | _ => None
              end in
  match subscript d "interactionCounts" with
  | Ok (JArr l) =>
      res_bind (decode_all count_from_json l) (fun cs => Ok (mkInteraction (Some cs) mine))
  | Ok JNull => Ok (mkInteraction None mine)
  | _ => Raise (FromDictError "UserInteraction")
  end.

Definition result_from_dict (d : Json) : Res UserInteractionsQueryResult :=
  match subscript d "user", subscript d "creator" with
  | Ok (JArr us), Ok (JArr cs) =>
      res_bind (decode_all interaction_from_json us) (fun u =>
      res_bind (decode_all interaction_from_json cs) (fun c =>
      Ok (mkResult u c)))
  | _, _ => Raise (FromDictError "UserInteractionsQueryResult")
  end.

Definition resources : Resources :=
  {| BasicTrack := string * string;
     BasicComment := string * string;
     User := string;
     SearchItem := string + string;
     BasicTrack_type := mkType "BasicTrack" track_from_dict;
     BasicComment_type := mkType "BasicComment" comment_from_dict;
     SearchItem_type := Union [user_item; track_item];
     UserInteractionsQueryResult_type :=
       mkType "UserInteractionsQueryResult" result_from_dict;
     track_urn := fst;
     track_user_urn := snd;
     comment_self_urn := fst;
     as_User := fun i => match i with inl n => Some n | inr _ => None end |}.

(** *** Servers *)

(** Every request is answered with the given status and body. *)
Definition always (status : Z) (body : option Json) : Server :=
  fun _ => mkResp status body.

Definition alice : Json := JObj [("kind", JStr "user"); ("username", JStr "alice")].

(** *** A stand-in for [urllib.parse]

    Enough of [urlparse], [parse_qs] and [urljoin] for the cursors of the
    servers below: absolute URLs [scheme://host/path?name=value&...]
    without escapes, fragment or path parameters. *)

(** The text before, and after, the first occurrence of [c]. *)
Fixpoint before (c : ascii) (s : string) : string :=
  match s with
  | EmptyString => EmptyString
  | String a t => if Ascii.eqb a c then EmptyString else String a (before c t)
  end.
Fixpoint behind (c : ascii) (s : string) : string :=
  match s with
  | EmptyString => EmptyString
  | String a t => if Ascii.eqb a c then t else behind c t
  end.

(** The path starts at the third slash of the URL: [from_slash 2] is the
    text from that slash on, [upto_slash 2] the text before it. *)
Fixpoint from_slash (k : nat) (s : string) : string :=
  match s with
  | EmptyString => EmptyString
  | String a t =>
      if Ascii.eqb a "/" then
        match k with
        | O => s
        | S k' => from_slash k' t
        end
      else from_slash k t
  end.
Fixpoint upto_slash (k : nat) (s : string) : string :=
  match s with
  | EmptyString => EmptyString
  | String a t =>
      if Ascii.eqb a "/" then
        match k with
        | O => EmptyString
        | S k' => String a (upto_slash k' t)
        end
      else String a (upto_slash k t)
  end.

Definition simple_path (u : string) : string := from_slash 2 (before "?" u).
Definition simple_query (u : string) : string := behind "?" u.

Definition simple_urljoin (u p : string) : string :=
  match p with
  | EmptyString => u
  | _ => upto_slash 2 u +:+ p
  end.

(** The pieces of [s] between occurrences of [c]; [cur] is the piece
    read so far, reversed. *)
Fixpoint pieces (c : ascii) (cur : list ascii) (s : string) : list string :=
  match s with
  | EmptyString => [string_of_list_ascii (rev cur)]
  | String a t =>
      if Ascii.eqb a c then string_of_list_ascii (rev cur) :: pieces c [] t
      else pieces c (a :: cur) t
  end.

(** Pairs without a value are dropped; the values of a name are listed
    in order. *)
Definition simple_parse_qs (q : string) : gmap string (list string) :=
  foldl (fun m pair =>
           let name := before "=" pair in
           let value := behind "=" pair in
           match value with
           | EmptyString => m
           | _ => <[name := default [] (m !! name) ++ [value]]> m
           end) ∅ (pieces "&" [] q).

Definition urllib : UrlLib.
Proof.
  refine (mkUrlLib simple_path simple_query simple_parse_qs simple_urljoin _).
  intros u Hu. unfold simple_urljoin.
  destruct (simple_path u) as [|a p]; [exact Hu|].
  destruct (upto_slash 2 u); discriminate.
Defined.

(** *** A track with fifteen comments on two pages *)

Definition comment_json (urn : string) : Json :=
  JObj [("self", JObj [("urn", JStr urn)]); ("body", JStr "hi")].

Definition page_json (urns : list string) (next_href : option string) : Json :=
  JObj (("collection", JArr (map comment_json urns))
        :: match next_href with
           | Some h => [("next_href", JStr h)]
           | None => []
           end).

Definition track_json : Json :=
  JObj [("urn", JStr "soundcloud:tracks:1");
        ("user", JObj [("urn", JStr "soundcloud:users:9")])].

Definition first_urns : list string := ["c1"; "c2"; "c3"; "c4"; "c5"; "c6"; "c7"; "c8"].
Definition second_urns : list string := ["c9"; "c10"; "c11"; "c12"; "c13"; "c14"; "c15"].

Definition comments_url : string := "https://api-v2.soundcloud.com/tracks/1/comments".
Definition second_href : string :=
  "https://api-v2.soundcloud.com/tracks/1/comments?offset=8&limit=8".

Definition user_side : Json :=
  JObj [("interactionCounts",
         JArr [JObj [("count", JNum 3);
                     ("interactionTypeValueUrn", JStr "sc:interactiontypevalue:like")]]);
        ("userInteraction", JNull)].
Definition creator_side : Json :=
  JObj [("interactionCounts", JArr []);
        ("userInteraction", JStr "sc:interactiontypevalue:like")].

(** One entry per queried comment on both sides. *)
Definition answer_interactions (rq : HttpRequest) : Response :=
  match rq_json rq with
  | Some j =>
      match res_bind (subscript j "variables") (fun v => subscript v "targetUrns") with
      | Ok (JArr urns) =>
          mkResp 200 (Some (JObj [("data",
            JObj [("user", JArr (map (fun _ => user_side) urns));
                  ("creator", JArr (map (fun _ => creator_side) urns))])]))
      | _ => mkResp 400 None
      end
  | None => mkResp 400 None
  end.

Definition comment_server : Server :=
  fun rq =>
    if String.eqb (rq_url rq) "https://api-v2.soundcloud.com/tracks/1" then
      mkResp 200 (Some track_json)
    else if String.eqb (rq_url rq) comments_url then
      match rq_params rq !! "offset" with
      | None => mkResp 200 (Some (page_json first_urns (Some second_href)))
      | Some (PVList ["8"]) => mkResp 200 (Some (page_json second_urns None))
      | Some _ => mkResp 404 None
      end
    else if String.eqb (rq_url rq) graphql_base then answer_interactions rq
    else mkResp 404 None.

(** The generator that [get_track_comments(1)] returns, and the chain it
    walks on [comment_server]. *)
Definition comment_kwargs : gmap string PyVal :=
  delete "_" (delete "offset" (delete "limit"
    (<["track_id" := PInt 1]> (<["threaded" := PInt 0]> ∅)))).

Definition comment_pages : list (HttpRequest * list Json) :=
  [(page_request fresh_client comments_url
      (initial_params fresh_client {[ "threaded" := PInt 0 ]} None None),
    map comment_json first_urns);
   (page_request fresh_client (cursor_url urllib second_href)
      (cursor_params urllib fresh_client second_href),
    map comment_json second_urns)].

Definition the_track : string * string :=
  ("soundcloud:tracks:1", "soundcloud:users:9").

Definition the_comments : list (string * string) :=
  map (fun u => (u, "hi")) (first_urns ++ second_urns).

Definition ten_answers : UserInteractionsQueryResult :=
  mkResult
    (replicate 10 (mkInteraction
                     (Some [mkCount (Some 3) (Some "sc:interactiontypevalue:like")]) None))
    (replicate 10 (mkInteraction (Some []) (Some "sc:interactiontypevalue:like"))).

Definition five_answers : UserInteractionsQueryResult :=
  mkResult
    (replicate 5 (mkInteraction
                    (Some [mkCount (Some 3) (Some "sc:interactiontypevalue:like")]) None))
    (replicate 5 (mkInteraction (Some []) (Some "sc:interactiontypevalue:like"))).

(** *** Five comments on three pages *)

Definition three_url : string := "https://api-v2.soundcloud.com/tracks/2/comments".
Definition href_2 : string := "https://api-v2.soundcloud.com/tracks/2/comments?offset=2".
Definition href_3 : string := "https://api-v2.soundcloud.com/tracks/2/comments?offset=3".

Definition three_page_server : Server :=
  fun rq =>
    if String.eqb (rq_url rq) three_url then
      match rq_params rq !! "offset" with
      | None => mkResp 200 (Some (page_json ["a1"; "a2"] (Some href_2)))
      | Some (PVList ["2"]) => mkResp 200 (Some (page_json ["a3"] (Some href_3)))
      | Some (PVList ["3"]) => mkResp 200 (Some (page_json ["a4"; "a5"] None))
      | Some _ => mkResp 404 None
      end
    else mkResp 404 None.

Definition three_pages : list (HttpRequest * list Json) :=
  [(page_request fresh_client three_url
      (initial_params fresh_client ∅ None None),
    map comment_json ["a1"; "a2"]);
   (page_request fresh_client (cursor_url urllib href_2)
      (cursor_params urllib fresh_client href_2),
    map comment_json ["a3"]);
   (page_request fresh_client (cursor_url urllib href_3)
      (cursor_params urllib fresh_client href_3),
    map comment_json ["a4"; "a5"])].

End Fixtures.

(** ** More concrete servers and pages *)
Module MoreFixtures.
Import Client Decode Template Http Api Bootstrap Methods.

Definition second_track_json : Json :=
  JObj [("urn", JStr "soundcloud:tracks:2");
        ("user", JObj [("urn", JStr "soundcloud:users:9")])].

(** Two tracks, and the same with an element between them that is no
    track. *)
Definition two_tracks : list Json := [Fixtures.track_json; second_track_json].
Definition spoiled_tracks : list Json :=
  [Fixtures.track_json; JObj [("urn", JNum 3)]; second_track_json].

(** A comment class that refuses the comment [a4], and the comments
    endpoint declared with it. *)
Definition picky_comment : PyType (string * string) :=
  mkType "PickyComment" (fun d =>
    res_bind (Fixtures.comment_from_dict d) (fun c =>
      if String.eqb (fst c) "a4" then Raise (FromDictError "PickyComment")
      else Ok c)).

Definition PickyCommentsRequest : Request (string * string) :=
  mkRequest "/tracks/{track_id}/comments" (Single picky_comment) "GET".

(** The comment server with another GraphQL endpoint: [refusing_server]
    answers the queries for ten comments and refuses the others with 404;
    [countless_server] answers every query with user entries whose
    [interactionCounts] is [null]. *)
Definition refusing_server : Server :=
  fun rq =>
    if via_requests rq then
      match rq_json rq with
      | Some j =>
          match res_bind (subscript j "variables") (fun v => subscript v "targetUrns") with
          | Ok (JArr urns) =>
              if (length urns =? 10)%nat then Fixtures.answer_interactions rq
              else mkResp 404 None
          | _ => mkResp 404 None
          end
      | None => mkResp 404 None
      end
    else Fixtures.comment_server rq.

Definition countless_side : Json :=
  JObj [("interactionCounts", JNull); ("userInteraction", JNull)].

Definition countless_server : Server :=
  fun rq =>
    if via_requests rq then
      match rq_json rq with
      | Some j =>
          match res_bind (subscript j "variables") (fun v => subscript v "targetUrns") with
          | Ok (JArr urns) =>
              mkResp 200 (Some (JObj [("data",
                JObj [("user", JArr (map (fun _ => countless_side) urns));
                      ("creator", JArr (map (fun _ => Fixtures.creator_side) urns))])]))
          | _ => mkResp 400 None
          end
      | None => mkResp 400 None
      end
    else Fixtures.comment_server rq.

Definition ten_countless : UserInteractionsQueryResult :=
  mkResult
    (replicate 10 (mkInteraction None None))
    (replicate 10 (mkInteraction (Some []) (Some "sc:interactiontypevalue:like"))).

(** Interaction entries for three comments: two on the user side, three
    on the creator side. *)
Definition two_user_entries : list UserInteraction :=
  [mkInteraction (Some [mkCount (Some 1) (Some "sc:interactiontypevalue:laugh");
                        mkCount (Some 4) (Some "sc:interactiontypevalue:like")])
                 (Some "sc:interactiontypevalue:like");
   mkInteraction (Some [mkCount None (Some "sc:interactiontypevalue:like")]) None].
Definition three_creator_entries : list UserInteraction :=
  [mkInteraction None None;
   mkInteraction None (Some "sc:interactiontypevalue:like");
   mkInteraction None None].

(** A web with a home page that names one asset script, and the script
    with a client id in it. *)
Definition script_url : string := "https://a-v2.sndcdn.com/assets/0-abc123.js".

Definition home_page : string :=
  "<html><script crossorigin src=" +:+ String dquote script_url
    +:+ String dquote "></script></html>".

Definition script_text : string :=
  "var o={client_id:" +:+ String dquote "Zx9" +:+ String dquote ",env:1}".

Definition small_web : Web :=
  fun url =>
    if String.eqb url "https://soundcloud.com" then (200, home_page)
    else if String.eqb url script_url then (200, script_text)
    else (404, "").

End MoreFixtures.

(** * Properties *)

Import Client Decode Template Http Api.

(** ** Authentication state *)

Example init_fresh_client :
  Client.init (Raise (Unmodelled "generate_client_id")) (Some "cid") None
    _DEFAULT_USER_AGENT = Ok Fixtures.fresh_client.
Proof. vm_compute. reflexivity. Qed.

Example init_token_client :
  Client.init (Raise (Unmodelled "generate_client_id")) (Some "cid") (Some "abc")
    _DEFAULT_USER_AGENT = Ok Fixtures.token_client.
Proof. vm_compute. reflexivity. Qed.

(** Splitting never returns an empty word, whatever was read so far. *)
Lemma split_ws_last_is_Some (cur : list ascii) (s : string) :
  cur <> [] \/ (exists c t, s = String c t /\ PyStr.is_space c = false) ->
  is_Some (last (PyStr.split_ws cur s)).
Proof.
  revert cur. induction s as [|c t IH]; intros cur Hcur; simpl.
  - destruct Hcur as [Hne | (c & t & Heq & _)]; [|discriminate].
    destruct cur; [congruence|]. simpl. eauto.
  - destruct (PyStr.is_space c) eqn:Hsp.
    + destruct Hcur as [Hne | (c' & t' & Heq & Hns)].
      * destruct cur as [|a cur]; [congruence|].
        rewrite last_app.
        destruct (last (PyStr.split_ws [] t)); simpl; eauto.
      * injection Heq as Hc Ht. subst c' t'. congruence.
    + apply IH. left. discriminate.
Qed.

(** [new_auth_token.split()[-1]] cannot fail behind the [startswith]
    guard, so the token setter always succeeds. *)
Lemma normalize_token_total (tok : option string) :
  exists t, Client.normalize_token tok = Ok t.
Proof.
  destruct tok as [s|]; unfold Client.normalize_token; [|eexists; reflexivity].
  destruct (PyStr.startswith "OAuth" s) eqn:Hs; [|eexists; reflexivity].
  assert (is_Some (last (PyStr.split s))) as [w Hw].
  { unfold PyStr.split. apply split_ws_last_is_Some. right.
    destruct s as [|c t]; [discriminate|].
    exists c, t. split; [reflexivity|].
    cbn [PyStr.startswith] in Hs.
    destruct (Ascii.eqb "O" c) eqn:Hc; [|discriminate].
    apply Ascii.eqb_eq in Hc. subst c. reflexivity. }
  rewrite Hw. eexists; reflexivity.
Qed.

(** C4 does not hold as stated: on a client built without a token,
    assigning [use_auth = False] raises nothing. *)
Lemma use_auth_off_without_token_does_not_fail :
  Client._auth_token Fixtures.fresh_client = None /\
  Client.set_use_auth false Fixtures.fresh_client = Ok Fixtures.fresh_client /\
  ~ (exists e, Client.set_use_auth false Fixtures.fresh_client = Raise e).
Proof.
  split; [reflexivity|]. split.
  - vm_compute. reflexivity.
  - intros [e He]. vm_compute in He. discriminate.
Qed.

(** C4, amended: on a client that holds no auth token, it is assigning
    [use_auth = True] that fails (with the [ValueError] that plays the role
    of the configuration error); assigning [use_auth = False] succeeds and
    leaves the client without authorization header. *)
Theorem use_auth_without_token (c : AsyncCloud) (H : Client._auth_token c = None) :
  Client.set_use_auth true c
    = Raise (ValueError "Cannot set use_auth to True without an auth token.") /\
  exists c', Client.set_use_auth false c = Ok c' /\
             Client._auth_token c' = None /\
             Client._authorization c' = None /\
             Client.session_headers c' !! "Authorization" = None.
Proof.
  unfold Client.set_use_auth. rewrite H. simpl. split; [reflexivity|].
  eexists. split; [reflexivity|]. simpl.
  repeat split; try assumption. apply lookup_delete_eq.
Qed.

Lemma use_auth_without_token_witness :
  Client.set_use_auth true Fixtures.fresh_client
    = Raise (ValueError "Cannot set use_auth to True without an auth token.") /\
  exists c', Client.set_use_auth false Fixtures.fresh_client = Ok c' /\
             Client._auth_token c' = None /\
             Client._authorization c' = None /\
             Client.session_headers c' !! "Authorization" = None.
Proof. apply (use_auth_without_token Fixtures.fresh_client). reflexivity. Defined.



(** The token setter and deleter leave the session's own headers as they
    were: only assignments to [use_auth] write them. *)
Lemma set_auth_token_keeps_session_headers (tok : option string) (c c' : AsyncCloud) :
  Client.set_auth_token tok c = Ok c' ->
  Client.session_headers c' = Client.session_headers c.
Proof.
  unfold Client.set_auth_token.
  destruct (Client.normalize_token tok); simpl; [|discriminate..].
  intros [= <-]. reflexivity.
Qed.



(** ** The polymorphic decoder *)

Section DecoderProps.
Context {T : Type}.

Lemma try_candidates_first_success (d : Json) (before after : list (PyType T))
    (t : PyType T) (v : T) :
  Forall (fails_on d) before -> from_dict t d = Ok v ->
  try_candidates d (before ++ t :: after) = Ok (Some v).
Proof.
  intros Hb Ht. induction Hb as [|t' before [e He] _ IH]; simpl.
  - rewrite Ht. reflexivity.
  - rewrite He. exact IH.
Qed.

Lemma try_candidates_all_fail (d : Json) (ts : list (PyType T)) :
  Forall (fails_on d) ts -> try_candidates d ts = Ok None.
Proof.
  induction 1 as [|t ts [e He] _ IH]; simpl; [reflexivity|].
  rewrite He. exact IH.
Qed.

(** C3: the candidates of a union are tried in declared order and the
    first whose construction succeeds gives the result; with candidates
    [Subtype, Supertype] and a payload both accept, the value is the one
    [Subtype] builds; when every candidate fails, decoding raises the
    error that names the payload and the attempted types. *)
Theorem convert_dict_first_match_wins (d : Json) (ts : list (PyType T)) :
  (forall before t after v,
      ts = before ++ t :: after ->
      Forall (fails_on d) before -> from_dict t d = Ok v ->
      _convert_dict d (Union ts) = Ok v) /\
  (forall sub super v w,
      ts = [sub; super] ->
      from_dict sub d = Ok v -> from_dict super d = Ok w ->
      _convert_dict d (Union ts) = Ok v) /\
  (Forall (fails_on d) ts ->
   _convert_dict d (Union ts) = Raise (CouldNotConvert d (map type_name ts))).
Proof.
  split; [|split].
  - intros before t after v -> Hb Ht. unfold _convert_dict.
    rewrite (try_candidates_first_success _ _ _ _ _ Hb Ht). reflexivity.
  - intros sub super v w -> Hv _. unfold _convert_dict. simpl.
    rewrite Hv. reflexivity.
  - intros Hall. unfold _convert_dict.
    rewrite (try_candidates_all_fail _ _ Hall). reflexivity.
Qed.

End DecoderProps.

Lemma convert_dict_first_match_wins_witness :
  _convert_dict Fixtures.both_match (Union [Fixtures.Subtype; Fixtures.Supertype])
    = Ok ("Subtype", Fixtures.both_match) /\
  _convert_dict Fixtures.both_match (Union [Fixtures.Supertype; Fixtures.Subtype])
    = Ok ("Supertype", Fixtures.both_match) /\
  _convert_dict Fixtures.none_match (Union [Fixtures.Subtype; Fixtures.Supertype])
    = Raise (CouldNotConvert Fixtures.none_match ["Subtype"; "Supertype"]).
Proof.
  split; [|split].
  - apply (proj1 (proj2 (convert_dict_first_match_wins Fixtures.both_match
                           [Fixtures.Subtype; Fixtures.Supertype]))
             Fixtures.Subtype Fixtures.Supertype
             ("Subtype", Fixtures.both_match) ("Supertype", Fixtures.both_match));
      reflexivity.
  - apply (proj1 (convert_dict_first_match_wins Fixtures.both_match
                    [Fixtures.Supertype; Fixtures.Subtype])
             [] Fixtures.Supertype [Fixtures.Subtype]); [reflexivity| |reflexivity].
    constructor.
  - apply (proj2 (proj2 (convert_dict_first_match_wins Fixtures.none_match
                           [Fixtures.Subtype; Fixtures.Supertype]))).
    repeat constructor; eexists; reflexivity.
Defined.

(** A single declared type is not a union: the failure of its [from_dict]
    reaches the caller as it is. *)
Lemma convert_dict_single (T : Type) (d : Json) (t : PyType T) :
  _convert_dict d (Single t) = from_dict t d.
Proof. reflexivity. Qed.

(** ** URL templating *)

(** Case analysis on every [decide] of the goal. *)
Ltac decide_cases :=
  repeat match goal with
         | |- context [decide ?P] => destruct (decide P)
         end.

Section TemplateProps.

Lemma pop_fold (fa : gset string) (ks : list string) :
  forall args kw : gmap string PyVal,
    NoDup ks -> (forall k, k ∈ ks -> is_Some (kw !! k)) ->
    exists args' kw',
      foldl (pop_step fa) (Ok (args, kw)) ks = Ok (args', kw') /\
      (forall k, args' !! k = if decide (k ∈ ks /\ k ∈ fa) then kw !! k else args !! k) /\
      (forall k, kw' !! k = if decide (k ∈ ks /\ k ∈ fa) then None else kw !! k).
Proof.
  induction ks as [|k0 ks IH]; intros args kw Hnd Hin.
  - exists args, kw. split; [reflexivity|].
    split; intros k; destruct (decide _) as [Hk|Hk]; try reflexivity;
      destruct Hk as [Hk _]; inversion Hk.
  - apply NoDup_cons in Hnd as [Hk0 Hnd]. cbn [foldl].
    replace (pop_step fa (Ok (args, kw)) k0) with
      (if decide (k0 ∈ fa) then
         match kw !! k0 with
         | Some v => Ok (<[k0:=v]> args, delete k0 kw)
         | None => Raise (KeyError k0)
         end
       else Ok (args, kw)) by reflexivity.
    destruct (decide (k0 ∈ fa)) as [Hfa|Hfa].
    + destruct (Hin k0) as [v Hv]; [left|]. rewrite Hv.
      destruct (IH (<[k0:=v]> args) (delete k0 kw) Hnd) as (args' & kw' & Hf & Ha & Hk).
      { intros k Hk. rewrite lookup_delete_ne; [|intros ->; contradiction].
        apply Hin. right. exact Hk. }
      exists args', kw'. split; [exact Hf|].
      split; intros k; [rewrite Ha|rewrite Hk];
        destruct (decide (k = k0)) as [->|Hne].
      * rewrite decide_False by (intros [? _]; contradiction).
        rewrite decide_True by (split; [left|assumption]).
        rewrite lookup_insert_eq. symmetry. exact Hv.
      * rewrite lookup_delete_ne, lookup_insert_ne by congruence.
        decide_cases; try reflexivity; exfalso;
          rewrite ?elem_of_cons in *; intuition congruence.
      * rewrite decide_False by (intros [? _]; contradiction).
        rewrite decide_True by (split; [left|assumption]).
        apply lookup_delete_eq.
      * rewrite lookup_delete_ne by congruence.
        decide_cases; try reflexivity; exfalso;
          rewrite ?elem_of_cons in *; intuition congruence.
    + destruct (IH args kw Hnd) as (args' & kw' & Hf & Ha & Hk).
      { intros k Hk. apply Hin. right. exact Hk. }
      exists args', kw'. split; [exact Hf|].
      split; intros k; [rewrite Ha|rewrite Hk];
        decide_cases; try reflexivity; exfalso;
          rewrite ?elem_of_cons in *; intuition congruence.
Qed.

(** Rendering replaces every named placeholder that is supplied. *)
Lemma render_expand (args : gmap string PyVal) (segs : list Segment) :
  (forall n, n ∈ field_names segs -> positional n = false /\ is_Some (args !! n)) ->
  render args segs = Ok (expand args segs).
Proof.
  induction segs as [|[c|n] segs IH]; intros H; simpl.
  - reflexivity.
  - rewrite IH by exact H. reflexivity.
  - destruct (H n) as [Hp [v Hv]]; [left|].
    rewrite Hp, Hv, IH; [reflexivity|].
    intros m Hm. apply H. right. exact Hm.
Qed.

Lemma expand_ext (a b : gmap string PyVal) (segs : list Segment) :
  (forall n, n ∈ field_names segs -> a !! n = b !! n) ->
  expand a segs = expand b segs.
Proof.
  induction segs as [|[c|n] segs IH]; intros H; simpl.
  - reflexivity.
  - f_equal. apply IH. exact H.
  - rewrite (H n) by left. fold (expand a segs). fold (expand b segs).
    rewrite IH; [reflexivity|]. intros m Hm. apply H. right. exact Hm.
Qed.

(** C6: when the template's placeholders are plain names and the mapping
    supplies every one of them, the call returns the base URL followed by
    the template with each placeholder replaced by the string of its
    parameter's value, and leaves in the mapping exactly the entries whose
    key is not a placeholder. *)
Theorem format_url_resolves_and_removes (T : Type) (self : Request T)
    (kwargs : gmap string PyVal) (segs : list Segment)
    (Hparse : parse (format_url self) = Ok segs)
    (Hsupplied : forall n, n ∈ field_names segs ->
                           positional n = false /\ is_Some (kwargs !! n)) :
  _format_url_and_remove_params self kwargs
    = Ok (Template.base +:+ expand kwargs segs,
          filter (fun kv => kv.1 ∉ field_names segs) kwargs).
Proof.
  unfold _format_url_and_remove_params. rewrite Hparse. simpl.
  destruct (pop_fold (list_to_set (field_names segs)) (elements (dom kwargs)) ∅ kwargs)
    as (args' & kw' & Hf & Ha & Hk).
  { apply NoDup_elements. }
  { intros k Hk. apply elem_of_dom. apply elem_of_elements. exact Hk. }
  rewrite Hf. simpl.
  assert (Hargs : forall n, n ∈ field_names segs -> args' !! n = kwargs !! n).
  { intros n Hn. rewrite Ha. rewrite decide_True; [reflexivity|].
    split; [|apply elem_of_list_to_set; exact Hn].
    apply elem_of_elements, elem_of_dom. apply Hsupplied. exact Hn. }
  rewrite render_expand.
  2:{ intros n Hn. rewrite (Hargs n Hn). apply Hsupplied. exact Hn. }
  simpl. rewrite (expand_ext args' kwargs segs Hargs).
  do 2 f_equal. apply map_eq. intros k. rewrite Hk.
  apply option_eq. intros v. rewrite map_lookup_filter_Some. simpl.
  destruct (decide _) as [Hd|Hd].
  - split; [discriminate|]. intros [_ Hn]. destruct Hd as [_ Hd].
    apply elem_of_list_to_set in Hd. contradiction.
  - split; [|tauto]. intros Hv. split; [exact Hv|]. intros Hn. apply Hd.
    split; [|apply elem_of_list_to_set; exact Hn].
    apply elem_of_elements, elem_of_dom. eauto.
Qed.

End TemplateProps.

Lemma format_url_resolves_and_removes_witness :
  _format_url_and_remove_params Fixtures.ab_request Fixtures.abc_kwargs
    = Ok ("https://api-v2.soundcloud.com/x/1/y/2", {[ "c" := PInt 3 ]}).
Proof.
  assert (Hparse : parse (format_url Fixtures.ab_request)
                   = Ok [Lit "/"; Lit "x"; Lit "/"; Field "a";
                         Lit "/"; Lit "y"; Lit "/"; Field "b"]%char)
    by reflexivity.
  rewrite (format_url_resolves_and_removes unit Fixtures.ab_request
             Fixtures.abc_kwargs _ Hparse).
  - vm_compute. reflexivity.
  - intros n Hn. simpl in Hn.
    apply elem_of_cons in Hn as [->|Hn]; [split; [reflexivity|eexists; reflexivity]|].
    apply elem_of_cons in Hn as [->|Hn]; [split; [reflexivity|eexists; reflexivity]|].
    inversion Hn.
Defined.

(** ** [get_user_by_username] *)

(** C9: whatever the server, the client and the name, the method returns
    [None]: [resource] is bound to the coroutine that the un-awaited call of
    [resolve] returns, which is no [User]. *)
Theorem get_user_by_username_is_None (srv : Server) (R : Resources)
    (client : AsyncCloud) (username : string) :
  get_user_by_username srv R client username = None.
Proof. reflexivity. Qed.

(** ... even where awaiting the same call gives a user: the server below
    resolves every URL to the user alice. *)
Example resolve_awaited_finds_alice :
  fst (resolve (Fixtures.always 200 (Some Fixtures.alice)) Fixtures.resources
         Fixtures.fresh_client "https://soundcloud.com/alice" [])
    = Ok (Some (inl "alice")) /\
  get_user_by_username (Fixtures.always 200 (Some Fixtures.alice)) Fixtures.resources
    Fixtures.fresh_client "alice" = None.
Proof. split; vm_compute; reflexivity. Qed.

(** ** Statuses 400, 404 and 500 at the four request shapes *)

Section StatusProps.
Context (lib : UrlLib) (srv : Server) {T : Type}.

(** With [raise_for_status=True] the session raises on every status of
    400 and above, before the caller sees the response. *)
Lemma session_request_raises (client : AsyncCloud) (method url : string)
    (body : option Json) (params : gmap string ParamVal)
    (headers : gmap string string) (log : list HttpRequest) :
  let rq := rest_request client method url body params headers in
  400 <= status (srv rq) ->
  session_request srv client method url body params headers true log
    = (Raise (ClientResponseError (status (srv rq))), log ++ [rq]).
Proof.
  intros rq H. unfold session_request, bind, send. fold rq.
  destruct (400 <=? status (srv rq))%Z eqn:E; [reflexivity|].
  apply Z.leb_gt in E. lia.
Qed.

Lemma is_empty_status_ge_400 (s : Z) : is_empty_status s = true -> 400 <= s.
Proof.
  unfold is_empty_status. intros H.
  apply orb_true_iff in H as [H|H]; [apply orb_true_iff in H as [H|H]|];
    apply Z.eqb_eq in H; lia.
Qed.

(** The single-resource shape raises on every status of 400 and above,
    400, 404 and 500 included: its status test is never reached with one of
    them. *)
Lemma single_request_raises (self : Request T) (client : AsyncCloud)
    (body : option Json) (kwargs kwargs' : gmap string PyVal) (url : string)
    (log : list HttpRequest) :
  _format_url_and_remove_params self kwargs = Ok (url, kwargs') ->
  let rq := rest_request client (method self) url body
              (<["client_id" := PV (PStr (client_id client))]> (PV <$> kwargs')) ∅ in
  400 <= status (srv rq) ->
  SingleRequest_call srv self client body kwargs log
    = (Raise (ClientResponseError (status (srv rq))), log ++ [rq]).
Proof.
  intros Hf rq Hs. unfold SingleRequest_call, bind at 1, lift. rewrite Hf.
  unfold bind at 1.
  rewrite session_request_raises by exact Hs.
  reflexivity.
Qed.

(** So does the bulk-list shape. *)
Lemma list_request_raises (self : Request T) (client : AsyncCloud)
    (body : option Json) (kwargs kwargs' : gmap string PyVal) (url : string)
    (log : list HttpRequest) :
  _format_url_and_remove_params self kwargs = Ok (url, kwargs') ->
  let rq := rest_request client "GET" url None
              (<["client_id" := PV (PStr (client_id client))]> (PV <$> kwargs'))
              (_get_default_headers client) in
  400 <= status (srv rq) ->
  ListRequest_call srv self client body kwargs log
    = (Raise (ClientResponseError (status (srv rq))), log ++ [rq]).
Proof.
  intros Hf rq Hs. unfold ListRequest_call, bind at 1, lift. rewrite Hf.
  unfold bind at 1.
  rewrite session_request_raises by exact Hs.
  reflexivity.
Qed.

(** And so does every page fetch of the collection shape. *)
Lemma fetch_pages_raises (self : Request T) (client : AsyncCloud) (fuel : nat)
    (url : string) (params : gmap string ParamVal) (log : list HttpRequest) :
  url <> "" ->
  let rq := rest_request client "GET" url None params ∅ in
  400 <= status (srv rq) ->
  fetch_pages lib srv self client (S fuel) url params log
    = (Raise (ClientResponseError (status (srv rq))), log ++ [rq]).
Proof.
  intros Hu rq Hs. simpl. destruct url as [|a u]; [congruence|]. simpl.
  unfold bind at 1.
  rewrite session_request_raises by exact Hs.
  reflexivity.
Qed.

(** The GraphQL shape tests the status before it calls
    [raise_for_status]: there the three statuses give [None]. *)
Lemma graphql_request_returns_None {Q} (self : GraphQLRequest Q T)
    (client : AsyncCloud) (query_args : Q) (log : list HttpRequest) :
  let rq := graphql_request self client query_args in
  is_empty_status (status (srv rq)) = true ->
  GraphQLRequest_call srv self client query_args log = (Ok None, log ++ [rq]).
Proof.
  intros rq Hs. unfold GraphQLRequest_call, bind at 1, requests_post, send.
  change (mkReq Requests _ _ _ _ _) with rq. rewrite Hs. reflexivity.
Qed.

(** Any other status of 400 to 599 leaves the GraphQL shape as an
    [HTTPError]. *)
Lemma graphql_request_raises {Q} (self : GraphQLRequest Q T)
    (client : AsyncCloud) (query_args : Q) (log : list HttpRequest) :
  let rq := graphql_request self client query_args in
  is_empty_status (status (srv rq)) = false ->
  400 <= status (srv rq) < 600 ->
  GraphQLRequest_call srv self client query_args log
    = (Raise (HTTPError (status (srv rq))), log ++ [rq]).
Proof.
  intros rq Hs [Hlo Hhi]. unfold GraphQLRequest_call, bind at 1, requests_post, send.
  change (mkReq Requests _ _ _ _ _) with rq. rewrite Hs.
  unfold bind at 1, raise_for_status.
  destruct (400 <=? status (srv rq))%Z eqn:E1; [|apply Z.leb_gt in E1; lia].
  destruct (status (srv rq) <? 600)%Z eqn:E2; [|apply Z.ltb_ge in E2; lia].
  reflexivity.
Qed.

End StatusProps.

(** C1, on a server that answers every request with status 404: the
    single-resource shape ([get_track]), the first [__anext__] of the
    collection shape and the bulk-list shape all raise
    [ClientResponseError(404)] to their caller instead of returning [None],
    ending the sequence or returning the empty list; only the GraphQL shape
    returns [None]. *)
Theorem rest_shapes_raise_on_404 :
  let srv := Fixtures.always 404 (Some (JObj [])) in
  let R := Fixtures.resources in
  let c := Fixtures.fresh_client in
  fst (get_track srv R c 1 []) = Raise (ClientResponseError 404) /\
  (forall lib fuel,
      fst (anext lib srv (TrackCommentsRequest R) c (S fuel)
             (GStart {[ "track_id" := PInt 1 ]} None None) [])
        = Raise (ClientResponseError 404)) /\
  fst (ListRequest_call srv (TracksRequest R) c None {[ "ids" := PStr "1,2" ]} [])
    = Raise (ClientResponseError 404) /\
  fst (GraphQLRequest_call srv (UserInteractionsRequest R) c
         (mkParams "u" "sc:interactiontype:reaction" "t" ["c1"]) [])
    = Ok None.
Proof.
  repeat split; try (vm_compute; reflexivity).
Qed.

(** ** The paginated collection *)

Section PaginationProps.
Context (lib : UrlLib) (srv : Server) {T : Type}
        (self : Request T) (client : AsyncCloud).

Abbreviation rt := (return_type self).
Abbreviation yield_value x data rest :=
  (bind (lift (_convert_dict x rt)) (fun v => ret (Some v, GSuspended data rest))).

Lemma empty_status_above_400 (s : Z) : s < 400 -> is_empty_status s = false.
Proof.
  intros H. unfold is_empty_status.
  repeat (apply orb_false_iff; split); apply Z.eqb_neq; lia.
Qed.

Lemma session_request_passes (method url : string) (body : option Json)
    (params : gmap string ParamVal) (headers : gmap string string)
    (log : list HttpRequest) :
  let rq := rest_request client method url body params headers in
  status (srv rq) < 400 ->
  session_request srv client method url body params headers true log
    = (Ok (srv rq), log ++ [rq]).
Proof.
  intros rq H. unfold session_request, bind, send. fold rq.
  destruct (400 <=? status (srv rq))%Z eqn:E; [|reflexivity].
  apply Z.leb_le in E. lia.
Qed.

(** One turn of the [while] loop, up to the [for] loop. *)
Lemma fetch_pages_page (fuel : nat) (url : string) (params : gmap string ParamVal)
    (data : Json) (records : list Json) (log : list HttpRequest) :
  Page srv client url params data records ->
  fetch_pages lib srv self client (S fuel) url params log
    = for_body lib self client (fetch_pages lib srv self client fuel) data records
        (log ++ [page_request client url params]).
Proof.
  intros (Hu & Hs & Hb & Hc). cbn [fetch_pages].
  destruct url as [|a u]; [congruence|]. cbn [PyStr.truthy negb].
  unfold bind at 1. unfold page_request in *.
  rewrite session_request_passes by exact Hs.
  rewrite (empty_status_above_400 _ Hs).
  unfold bind at 1, json. rewrite Hb. unfold ret at 1.
  unfold bind at 1, lift at 1. rewrite Hc.
  unfold bind at 1, lift at 1. reflexivity.
Qed.

Lemma fetch_pages_empty_url (fuel : nat) (params : gmap string ParamVal)
    (log : list HttpRequest) :
  fetch_pages lib srv (T:=T) self client fuel "" params log = (Ok (None, GDone), log).
Proof. destruct fuel; reflexivity. Qed.

Lemma for_body_no_cursor (fuel : nat) (data : Json) (log : list HttpRequest) :
  no_cursor data ->
  for_body lib self client (fetch_pages lib srv self client fuel) data [] log
    = (Ok (None, GDone), log).
Proof.
  intros (nxt & Hget & Hfalsy). unfold for_body, bind at 1, lift at 1.
  rewrite Hget. unfold bind at 1, lift at 1.
  assert (exists p, cursor_target lib client nxt = Ok ("", p)) as [p ->].
  { unfold cursor_target. destruct nxt as [j|]; [|eexists; reflexivity].
    destruct j as [| | |s| |]; try (rewrite Hfalsy; eexists; reflexivity).
    destruct s; [eexists; reflexivity|discriminate]. }
  apply fetch_pages_empty_url.
Qed.

Lemma for_body_cursor (next : string -> gmap string ParamVal -> M (option T * GenState))
    (data : Json) (href : string) (log : list HttpRequest) :
  has_cursor data href ->
  for_body lib self client next data [] log
    = next (cursor_url lib href) (cursor_params lib client href) log.
Proof.
  intros [Hget Hne]. unfold for_body, bind at 1, lift at 1.
  rewrite Hget. unfold bind at 1, lift at 1.
  destruct href as [|a u]; [congruence|]. reflexivity.
Qed.

(** From the head of the loop: either the chain has no record left and
    the generator ends after fetching all of it, or it yields the first
    record, having fetched the pages up to the one that holds it. *)
Lemma fetch_pages_spec (url : string) (params : gmap string ParamVal)
    (pages : list (HttpRequest * list Json)) :
  PagesFrom lib srv client url params pages ->
  forall (fuel : nat) (log : list HttpRequest),
    (length pages <= fuel)%nat ->
    (records_of pages = [] /\
     fetch_pages lib srv self client fuel url params log
       = (Ok (None, GDone), log ++ map fst pages)) \/
    (exists x rest fetched remaining data,
        pages = fetched ++ remaining /\
        After lib srv client data remaining /\
        records_of pages = x :: rest ++ records_of remaining /\
        fetch_pages lib srv self client fuel url params log
          = yield_value x data rest (log ++ map fst fetched) /\
        records_of fetched = x :: rest /\
        records_of (removelast fetched) = []).
Proof.
  induction 1 as [url params data records HP Hno
                 |url params data records href pages HP Hcur Hch IH];
    intros fuel log Hfuel; (destruct fuel as [|fuel]; [simpl in Hfuel; lia|]);
    rewrite (fetch_pages_page _ _ _ _ _ _ HP).
  - destruct records as [|x rest].
    + left. split; [reflexivity|]. apply for_body_no_cursor. exact Hno.
    + right. exists x, rest, [(page_request client url params, x :: rest)], [], data.
      split; [reflexivity|]. split; [left; split; [exact Hno|reflexivity]|].
      unfold records_of. simpl. rewrite !app_nil_r. repeat split.
  - destruct records as [|x rest].
    + rewrite (for_body_cursor _ _ _ _ Hcur).
      destruct (IH fuel (log ++ [page_request client url params]))
        as [[Hnil Hrun]
           | (x & rest & fetched & remaining & data' & Hp & Haf & Hrec & Hrun & Hfet & Hlast)].
      { simpl in Hfuel. lia. }
      * left. split; [exact Hnil|]. rewrite Hrun. simpl. rewrite <- app_assoc. reflexivity.
      * right. exists x, rest, ((page_request client url params, []) :: fetched),
          remaining, data'.
        split; [rewrite Hp; reflexivity|]. split; [exact Haf|].
        split; [exact Hrec|].
        split; [rewrite Hrun; simpl; rewrite <- app_assoc; reflexivity|].
        split; [exact Hfet|].
        destruct fetched as [|p fetched]; [discriminate|]. exact Hlast.
    + right. exists x, rest, [(page_request client url params, x :: rest)], pages, data.
      split; [reflexivity|]. split; [right; exists href; split; assumption|].
      unfold records_of. simpl. rewrite !app_nil_r. repeat split.
Qed.

(** The same from a suspended generator. *)
Lemma for_body_spec (data : Json) (rest : list Json)
    (pages : list (HttpRequest * list Json)) (fuel : nat) (log : list HttpRequest) :
  After lib srv client data pages ->
  (length pages <= fuel)%nat ->
  (rest ++ records_of pages = [] /\
   for_body lib self client (fetch_pages lib srv self client fuel) data rest log
     = (Ok (None, GDone), log ++ map fst pages)) \/
  (exists x rest' fetched remaining data',
      pages = fetched ++ remaining /\
      After lib srv client data' remaining /\
      rest ++ records_of pages = x :: rest' ++ records_of remaining /\
      for_body lib self client (fetch_pages lib srv self client fuel) data rest log
        = yield_value x data' rest' (log ++ map fst fetched) /\
      rest ++ records_of fetched = x :: rest' /\
      (fetched = [] \/ (rest = [] /\ records_of (removelast fetched) = []))).
Proof.
  intros Haf Hfuel. destruct rest as [|x rest].
  - destruct Haf as [[Hno ->] | (href & Hcur & Hch)].
    + left. split; [reflexivity|]. simpl. rewrite app_nil_r.
      apply for_body_no_cursor. exact Hno.
    + rewrite (for_body_cursor _ _ _ _ Hcur). simpl.
      destruct (fetch_pages_spec _ _ _ Hch fuel log Hfuel)
        as [Hend
           | (x & rest & fetched & remaining & data' & Hp & Haf & Hrec & Hrun & Hfet & Hlast)];
        [left; exact Hend|].
      right. exists x, rest, fetched, remaining, data'.
      repeat split; try assumption. right. split; [reflexivity|exact Hlast].
  - right. exists x, rest, [], pages, data.
    split; [reflexivity|]. split; [exact Haf|]. split; [reflexivity|].
    split; [simpl; rewrite app_nil_r; reflexivity|].
    split; [unfold records_of; simpl; rewrite app_nil_r; reflexivity|].
    left. reflexivity.
Qed.

(** One call of [__anext__], wherever the generator stands. *)
Lemma anext_spec (g : GenState) (items : list Json)
    (pages : list (HttpRequest * list Json)) (fuel : nat) (log : list HttpRequest) :
  Pending lib srv client self g items pages ->
  (length pages <= fuel)%nat ->
  (items = [] /\
   anext lib srv self client fuel g log = (Ok (None, GDone), log ++ map fst pages)) \/
  (exists x items' fetched remaining g',
      items = x :: items' /\
      pages = fetched ++ remaining /\
      Pending lib srv client self g' items' remaining /\
      anext lib srv self client fuel g log
        = bind (lift (_convert_dict x rt)) (fun v => ret (Some v, g'))
            (log ++ map fst fetched) /\
      at_hand g ++ records_of fetched = x :: at_hand g' /\
      (fetched = [] \/ (at_hand g = [] /\ records_of (removelast fetched) = []))).
Proof.
  intros HP Hfuel. destruct g as [kwargs offset limit|data rest|]; simpl in HP.
  - destruct HP as [(url & kwargs' & Hfmt & Hch) ->].
    unfold anext, bind at 1, lift at 1. rewrite Hfmt.
    destruct (fetch_pages_spec _ _ _ Hch fuel log Hfuel)
      as [[Hnil Hrun]
         | (x & rest & fetched & remaining & data & Hp & Haf & Hrec & Hrun & Hfet & Hlast)].
    + left. split; assumption.
    + right. exists x, (rest ++ records_of remaining), fetched, remaining,
        (GSuspended data rest).
      repeat split; try assumption. right. split; [reflexivity|exact Hlast].
  - destruct HP as [Haf ->]. unfold anext.
    destruct (for_body_spec data rest pages fuel log Haf Hfuel)
      as [[Hnil Hrun]
         | (x & rest' & fetched & remaining & data' & Hp & Haf' & Hrec & Hrun & Hfet & Hlast)].
    + left. split; assumption.
    + right. exists x, (rest' ++ records_of remaining), fetched, remaining,
        (GSuspended data' rest').
      repeat split; assumption.
  - destruct HP as [-> ->]. left. split; [reflexivity|].
    simpl. rewrite app_nil_r. reflexivity.
Qed.

Lemma islice_collect_done (fuel n : nat) (log : list HttpRequest) :
  islice_collect lib srv self client fuel n GDone log = (Ok ([], GDone), log).
Proof. destruct n; reflexivity. Qed.

(** Taking [n] items: the first [n] records decoded, the pages fetched on
    the way, and the generator left where the rest is pending. Asking for
    more than there is ends the generator. *)
Lemma islice_collect_spec (n : nat) :
  forall (g : GenState) (items : list Json) (pages : list (HttpRequest * list Json))
         (fuel : nat) (log : list HttpRequest) (values : list T),
    Pending lib srv client self g items pages ->
    (length pages <= fuel)%nat ->
    decodes rt (take n items) values ->
    exists fetched remaining g',
      pages = fetched ++ remaining /\
      Pending lib srv client self g' (drop n items) remaining /\
      islice_collect lib srv self client fuel n g log
        = (Ok (values, g'), log ++ map fst fetched) /\
      ((length items < n)%nat -> g' = GDone /\ remaining = []).
Proof.
  induction n as [|n IH]; intros g items pages fuel log values HP Hfuel Hdec.
  - exists [], pages, g. rewrite take_0 in Hdec. inversion Hdec; subst.
    rewrite drop_0, app_nil_r. repeat split; [exact HP|lia|lia].
  - cbn [islice_collect]. unfold bind at 1.
    destruct (anext_spec g items pages fuel log HP Hfuel)
      as [[-> Hrun] | (x & items' & fetched & remaining & g' & -> & Hp & HP' & Hrun & _)];
      rewrite Hrun.
    + inversion Hdec; subst. exists pages, [], GDone.
      rewrite app_nil_r. repeat split.
    + cbn [take] in Hdec. apply Forall2_cons_inv_l in Hdec
        as (v & values' & Hv & Hdec & ->).
      unfold bind at 1, lift at 1. rewrite Hv. unfold ret at 1.
      destruct (IH g' items' remaining fuel (log ++ map fst fetched) values' HP')
        as (fetched' & remaining' & g'' & Hp' & HP'' & Hrun' & Hend);
        [subst pages; rewrite length_app in Hfuel; lia|exact Hdec|].
      exists (fetched ++ fetched'), remaining', g''.
      split; [subst; apply app_assoc|]. split; [exact HP''|].
      split.
      * unfold bind at 1. rewrite Hrun'. unfold ret.
        rewrite map_app, app_assoc. reflexivity.
      * intros Hlen. apply Hend. simpl in Hlen. lia.
Qed.

(** Within the page at hand no request is issued. *)
Lemma islice_collect_within_page (fuel n : nat) :
  forall (data : Json) (rest : list Json) (log : list HttpRequest) (values : list T),
    (n <= length rest)%nat ->
    decodes rt (take n rest) values ->
    islice_collect lib srv self client fuel n (GSuspended data rest) log
      = (Ok (values, GSuspended data (drop n rest)), log).
Proof.
  induction n as [|n IH]; intros data rest log values Hn Hdec.
  - rewrite take_0 in Hdec. inversion Hdec. reflexivity.
  - destruct rest as [|x rest]; [simpl in Hn; lia|].
    cbn [take] in Hdec. apply Forall2_cons_inv_l in Hdec
      as (v & values' & Hv & Hdec & ->).
    cbn [islice_collect anext for_body]. unfold bind at 1, bind at 1, lift at 1.
    rewrite Hv. unfold ret at 1. unfold bind at 1.
    rewrite (IH data rest log values'); [reflexivity|simpl in Hn; lia|exact Hdec].
Qed.

(** C2: when the server serves a chain of pages (each page but the last
    carrying in [next_href] the cursor of the next, the last carrying
    none), a consumer that runs the generator to its end receives the
    decoded records of all pages, in array order within a page and pages in
    chain order, and then the end of the sequence; the requests issued are
    the first one and, for every cursor, one against the cursor's URL with
    the parameters of the cursor's query string and [client_id] set to the
    client's. *)
Theorem collection_yields_pages_in_order (kwargs : gmap string PyVal)
    (offset limit : option PyVal) (pages : list (HttpRequest * list Json))
    (values : list T) (fuel : nat) (log : list HttpRequest)
    (Hchain : Chain lib srv client self kwargs offset limit pages)
    (Hdec : decodes rt (records_of pages) values)
    (Hfuel : (length pages <= fuel)%nat) :
  islice_collect lib srv self client fuel (S (length values))
      (GStart kwargs offset limit) log
    = (Ok (values, GDone), log ++ map fst pages) /\
  (forall href,
      cursor_params lib client href !! "client_id" = Some (PVList [client_id client]) /\
      (forall k, k <> "client_id" ->
                 cursor_params lib client href !! k
                 = PVList <$> (parse_qs lib (urlparse_query lib href) !! k)) /\
      rq_url (page_request client (cursor_url lib href) (cursor_params lib client href))
        = urljoin lib href (urlparse_path lib href)).
Proof.
  split.
  - assert (Hlen : length (records_of pages) = length values)
      by (eapply Forall2_length; exact Hdec).
    destruct (islice_collect_spec (S (length values)) (GStart kwargs offset limit)
                (records_of pages) pages fuel log values)
      as (fetched & remaining & g' & Hp & _ & Hrun & Hend).
    + split; [exact Hchain|reflexivity].
    + exact Hfuel.
    + rewrite take_ge by lia. exact Hdec.
    + destruct Hend as [-> ->]; [lia|].
      rewrite app_nil_r in Hp. subst fetched. exact Hrun.
  - intros href. unfold cursor_params. split; [apply lookup_insert_eq|].
    split; [|reflexivity].
    intros k Hk. rewrite lookup_insert_ne by congruence. apply lookup_fmap.
Qed.

Lemma records_of_app (a b : list (HttpRequest * list Json)) :
  records_of (a ++ b) = records_of a ++ records_of b.
Proof. unfold records_of. rewrite map_app. apply concat_app. Qed.

(** Taking [n] records that exist: the records at hand and those of the
    pages fetched make up the [n] delivered and those left at hand, and the
    pages fetched before the last one did not suffice. *)
Lemma islice_collect_demand (n : nat) :
  forall (g : GenState) (items : list Json) (pages : list (HttpRequest * list Json))
         (fuel : nat) (log : list HttpRequest) (values : list T),
    Pending lib srv client self g items pages ->
    (length pages <= fuel)%nat ->
    (n <= length items)%nat ->
    decodes rt (take n items) values ->
    exists fetched remaining g',
      pages = fetched ++ remaining /\
      islice_collect lib srv self client fuel n g log
        = (Ok (values, g'), log ++ map fst fetched) /\
      (length (at_hand g) + length (records_of fetched)
       = n + length (at_hand g'))%nat /\
      (fetched = [] \/
       (length (at_hand g) + length (records_of (removelast fetched)) < n)%nat).
Proof.
  induction n as [|n IH]; intros g items pages fuel log values HP Hfuel Hn Hdec.
  - exists [], pages, g. rewrite take_0 in Hdec. inversion Hdec; subst.
    rewrite app_nil_r. repeat split; [simpl; lia|left; reflexivity].
  - cbn [islice_collect]. unfold bind at 1.
    destruct (anext_spec g items pages fuel log HP Hfuel)
      as [[-> _]
         | (x & items' & f1 & r1 & g1 & -> & Hp & HP1 & Hrun & Hhand & Hor)];
      [simpl in Hn; lia|].
    rewrite Hrun. cbn [take] in Hdec.
    apply Forall2_cons_inv_l in Hdec as (v & values' & Hv & Hdec & ->).
    unfold bind at 1, lift at 1. rewrite Hv. unfold ret at 1.
    destruct (IH g1 items' r1 fuel (log ++ map fst f1) values' HP1)
      as (f2 & r2 & g2 & Hp2 & Hrun2 & Hlen2 & Hor2);
      [subst pages; rewrite length_app in Hfuel; lia|simpl in Hn; lia|exact Hdec|].
    apply (f_equal length) in Hhand. rewrite length_app in Hhand. simpl in Hhand.
    exists (f1 ++ f2), r2, g2.
    split; [subst; apply app_assoc|]. split; [|split].
    + unfold bind at 1. rewrite Hrun2. unfold ret.
      rewrite map_app, app_assoc. reflexivity.
    + rewrite records_of_app, length_app. lia.
    + destruct f2 as [|p f2].
      * rewrite app_nil_r.
        destruct Hor as [->|[Hh Hl]]; [left; reflexivity|].
        right. rewrite Hh, Hl. simpl. lia.
      * right. rewrite removelast_app by discriminate.
        rewrite records_of_app, length_app.
        destruct Hor2 as [?|Hlt]; [discriminate|]. lia.
Qed.

(** C8: to deliver the first [n] records of a chain the generator fetches
    the pages up to the one that holds the [n]-th record and none after it:
    the pages before the last one fetched hold fewer than [n] records. In
    particular, when the first page holds [n] records (one, say, of a
    two-page sequence), the first page is the only one requested; the rest
    is fetched only by a later [__anext__]. *)
Theorem collection_fetches_on_demand (kwargs : gmap string PyVal)
    (offset limit : option PyVal) (pages : list (HttpRequest * list Json)) (n : nat)
    (values : list T) (fuel : nat) (log : list HttpRequest)
    (Hchain : Chain lib srv client self kwargs offset limit pages)
    (Hn : (0 < n <= length (records_of pages))%nat)
    (Hdec : decodes rt (take n (records_of pages)) values)
    (Hfuel : (length pages <= fuel)%nat) :
  exists fetched remaining g',
    pages = fetched ++ remaining /\
    islice_collect lib srv self client fuel n (GStart kwargs offset limit) log
      = (Ok (values, g'), log ++ map fst fetched) /\
    (length (records_of (removelast fetched)) < n <= length (records_of fetched))%nat /\
    (forall first records more,
        pages = (first, records) :: more -> (n <= length records)%nat ->
        fetched = [(first, records)]).
Proof.
  destruct (islice_collect_demand n (GStart kwargs offset limit) (records_of pages)
              pages fuel log values)
    as (fetched & remaining & g' & Hp & Hrun & Hlen & Hor);
    [split; [exact Hchain|reflexivity]|exact Hfuel|lia|exact Hdec|].
  simpl in Hlen, Hor.
  assert (Hlast : (length (records_of (removelast fetched)) < n)%nat).
  { destruct Hor as [->|Hlt]; [simpl in Hlen; lia|exact Hlt]. }
  exists fetched, remaining, g'.
  split; [exact Hp|]. split; [exact Hrun|]. split; [lia|].
  intros first records more Hpages Hrec.
  destruct fetched as [|p fetched]; [simpl in Hlen; lia|].
  rewrite Hpages in Hp. injection Hp as <- Hmore.
  destruct fetched as [|q fetched]; [reflexivity|].
  exfalso. change (removelast ((first, records) :: q :: fetched))
    with ((first, records) :: removelast (q :: fetched)) in Hlast.
  unfold records_of in Hlast. cbn [map concat snd] in Hlast.
  rewrite length_app in Hlast. lia.
Qed.

End PaginationProps.

(** ** Comments enriched with interaction counts *)

Section ComposedProps.
Context (lib : UrlLib) (srv : Server) (R : Resources) (client : AsyncCloud).

Abbreviation gql_only := (List.filter via_requests).

(** The single-resource shape sends nothing through the requests
    library. *)
Lemma single_request_via {T} (self : Request T) (payload : option Json)
    (kwargs : gmap string PyVal) (log log' : list HttpRequest) (r : Res (option T)) :
  SingleRequest_call srv self client payload kwargs log = (r, log') ->
  gql_only log' = gql_only log.
Proof.
  unfold SingleRequest_call, bind at 1, lift at 1.
  destruct (_format_url_and_remove_params self kwargs) as [[url kw]| |];
    [|intros [= _ <-]; reflexivity..].
  unfold bind at 1, session_request, bind at 1, send.
  set (rq := rest_request _ _ _ _ _ _).
  assert (Hrq : gql_only (log ++ [rq]) = gql_only log).
  { rewrite List.filter_app. simpl. apply app_nil_r. }
  destruct (true && (400 <=? status (srv rq))%Z).
  - intros [= _ <-]. exact Hrq.
  - unfold ret at 1. destruct (is_empty_status (status (srv rq))).
    + intros [= _ <-]. exact Hrq.
    + unfold bind at 1, json. destruct (body (srv rq)); [|intros [= _ <-]; exact Hrq].
      unfold ret at 1, bind at 1, lift at 1.
      destruct (_convert_dict _ _); intros [= _ <-]; exact Hrq.
Qed.

(** Page requests go through the aiohttp session. *)
Lemma pages_via_session (url : string) (params : gmap string ParamVal)
    (pages : list (HttpRequest * list Json)) :
  PagesFrom lib srv client url params pages ->
  Forall (fun p => via_requests (fst p) = false) pages.
Proof. induction 1; repeat constructor; assumption. Qed.

Lemma gql_only_session (l : list (HttpRequest * list Json)) :
  Forall (fun p => via_requests (fst p) = false) l ->
  gql_only (map fst l) = [].
Proof.
  induction 1 as [|p l Hp _ IH]; [reflexivity|]. simpl. rewrite Hp. exact IH.
Qed.

Lemma graphql_answers (track : BasicTrack R) (urns : list string)
    (result : UserInteractionsQueryResult) (log : list HttpRequest) :
  Answers srv R client track urns result ->
  GraphQLRequest_call srv (UserInteractionsRequest R) client
      (mkParams (track_user_urn R track) "sc:interactiontype:reaction"
                (track_urn R track) urns) log
    = (Ok (Some result), log ++ [interactions_query R client track urns]).
Proof.
  intros (Hs & j & d & Hb & Hd & Hr).
  unfold GraphQLRequest_call, bind at 1, requests_post, send.
  change (mkReq Requests _ _ _ _ _) with (interactions_query R client track urns).
  set (rq := interactions_query R client track urns) in *.
  assert (is_empty_status (status (srv rq)) = false) as ->.
  { unfold is_empty_status.
    repeat (apply orb_false_iff; split); apply Z.eqb_neq; lia. }
  unfold bind at 1, raise_for_status.
  destruct (400 <=? status (srv rq))%Z eqn:E; [apply Z.leb_le in E; lia|].
  cbn [andb]. unfold ret at 1. unfold bind at 1, json. rewrite Hb.
  unfold ret at 1. unfold bind at 1, lift at 1. rewrite Hd.
  unfold bind at 1, lift at 1. cbn [_convert_dict UserInteractionsRequest gql_return_type].
  rewrite Hr. reflexivity.
Qed.

(** An aligned result enriches every comment of the chunk, in order. *)
Lemma enrich_aligned (chunk : list (BasicComment R)) :
  forall us cs : list UserInteraction,
    length us = length chunk -> length cs = length chunk ->
    Forall (fun u => interactionCounts u <> None) us ->
    exists out, enrich R chunk us cs = Ok out /\
                map (comment R) out = chunk.
Proof.
  induction chunk as [|c chunk IH]; intros us cs Hu Hc Hall.
  - exists []. split; reflexivity.
  - destruct us as [|u us]; [discriminate|]. destruct cs as [|k cs]; [discriminate|].
    apply Forall_cons in Hall as [Hu0 Hall].
    destruct (IH us cs) as (out & Hout & Hmap); [simpl in *; lia..|exact Hall|].
    cbn [enrich]. destruct (interactionCounts u) as [counts|]; [|congruence].
    rewrite Hout. eexists. split; [reflexivity|]. simpl. rewrite Hmap. reflexivity.
Qed.

(** One turn of the [while True] loop on a non-empty chunk. *)
Lemma batches_step (track : BasicTrack R) (fuel : nat) (g g' : GenState)
    (chunk : list (BasicComment R)) (result : UserInteractionsQueryResult)
    (out : list (CommentWithInteractions R)) (log log1 : list HttpRequest) :
  chunk <> [] ->
  islice_collect lib srv (TrackCommentsRequest R) client (S fuel) 10 g log
    = (Ok (chunk, g'), log1) ->
  Answers srv R client track (map (comment_self_urn R) chunk) result ->
  enrich R chunk (user result) (creator result) = Ok out ->
  batches lib srv R client (track_urn R track) (track_user_urn R track) (S fuel) g log
    = emit_then out
        (batches lib srv R client (track_urn R track) (track_user_urn R track) fuel g'
           (log1 ++ [interactions_query R client track (map (comment_self_urn R) chunk)])).
Proof.
  intros Hne Hrun Hans Hout. cbn [batches]. rewrite Hrun.
  destruct chunk as [|c chunk]; [congruence|].
  rewrite (graphql_answers track _ result log1 Hans). rewrite Hout. reflexivity.
Qed.

(** The turn that finds the source exhausted ends the operation. *)
Lemma batches_end (track_urn creator_urn : string) (fuel : nat) (g g' : GenState)
    (log log1 : list HttpRequest) :
  islice_collect lib srv (TrackCommentsRequest R) client (S fuel) 10 g log
    = (Ok ([], g'), log1) ->
  batches lib srv R client track_urn creator_urn (S fuel) g log = ended (Ok tt) log1.
Proof. intros Hrun. cbn [batches]. rewrite Hrun. reflexivity. Qed.

(** C7: for a track that exists and whose comment source yields 15
    comments (however they are spread over pages), with the GraphQL
    endpoint answering each interaction-count query with one entry per
    queried comment, the operation consumed to its end emits 15 results
    whose comments are the source's in the original order, issues two
    interaction-count queries, for the first 10 comment identifiers and
    for the last 5, and ends without error. *)
Theorem comments_with_interactions_two_batches
    (track_id threaded : Z) (kwargs : gmap string PyVal)
    (track : BasicTrack R) (pages : list (HttpRequest * list Json))
    (comments : list (BasicComment R))
    (first second : UserInteractionsQueryResult)
    (fuel : nat) (log log1 : list HttpRequest)
    (Htrack : get_track srv R client track_id log = (Ok (Some track), log1))
    (Hpages : CommentPages lib srv R client track_id threaded kwargs pages)
    (Hdec : decodes (Single (BasicComment_type R)) (records_of pages) comments)
    (H15 : length comments = 15%nat)
    (Hfirst : Answers srv R client track
                (map (comment_self_urn R) (take 10 comments)) first)
    (Hfirst_aligned : Aligned 10 first)
    (Hsecond : Answers srv R client track
                 (map (comment_self_urn R) (drop 10 comments)) second)
    (Hsecond_aligned : Aligned 5 second)
    (Hfuel : (length pages + 3 <= fuel)%nat) :
  exists out log',
    get_track_comments_with_interactions lib srv R client fuel track_id threaded
        kwargs log
      = (mkDrained out (Ok tt), log') /\
    length out = 15%nat /\
    map (comment R) out = comments /\
    gql_only log'
      = gql_only log
        ++ [interactions_query R client track
              (map (comment_self_urn R) (take 10 comments));
            interactions_query R client track
              (map (comment_self_urn R) (drop 10 comments))].
Proof.
  destruct Hpages as (kw & offset & limit & Hgen & Hchain).
  assert (Hvia : Forall (fun p => via_requests (fst p) = false) pages).
  { destruct Hchain as (url & kw' & _ & Hch). exact (pages_via_session _ _ _ Hch). }
  assert (Hlen : length (records_of pages) = 15%nat)
    by (rewrite <- H15; eapply Forall2_length; exact Hdec).
  unfold get_track_comments_with_interactions. rewrite Htrack, Hgen.
  destruct fuel as [|[|[|fuel]]]; [lia..|].
  (* first batch *)
  destruct (islice_collect_spec lib srv (TrackCommentsRequest R) client 10
              (GStart kw offset limit) (records_of pages) pages
              (S (S (S fuel))) log1 (take 10 comments))
    as (fetched1 & rest1 & g1 & Hp1 & HP1 & Hrun1 & _).
  { split; [exact Hchain|reflexivity]. }
  { lia. }
  { apply Forall2_take. exact Hdec. }
  destruct Hfirst_aligned as (Hu1 & Hc1 & Hall1).
  destruct (enrich_aligned (take 10 comments) (user first) (creator first))
    as (out1 & Hout1 & Hmap1);
    [rewrite length_take; lia..|exact Hall1|].
  assert (Hne1 : take 10 comments <> []).
  { intros E. apply (f_equal length) in E. rewrite length_take, H15 in E. discriminate. }
  rewrite (batches_step track _ _ _ _ first out1 _ _ Hne1 Hrun1 Hfirst Hout1).
  (* second batch *)
  destruct (islice_collect_spec lib srv (TrackCommentsRequest R) client 10
              g1 (drop 10 (records_of pages)) rest1 (S (S fuel))
              ((log1 ++ map fst fetched1)
                 ++ [interactions_query R client track
                       (map (comment_self_urn R) (take 10 comments))])
              (drop 10 comments))
    as (fetched2 & rest2 & g2 & Hp2 & HP2 & Hrun2 & Hend2).
  { exact HP1. }
  { subst pages. rewrite length_app in Hfuel. lia. }
  { rewrite take_ge by (rewrite length_drop; lia). apply Forall2_drop. exact Hdec. }
  destruct Hend2 as [-> ->]; [rewrite length_drop; lia|].
  destruct Hsecond_aligned as (Hu2 & Hc2 & Hall2).
  destruct (enrich_aligned (drop 10 comments) (user second) (creator second))
    as (out2 & Hout2 & Hmap2);
    [rewrite length_drop; lia..|exact Hall2|].
  assert (Hne2 : drop 10 comments <> []).
  { intros E. apply (f_equal length) in E. rewrite length_drop, H15 in E. discriminate. }
  rewrite (batches_step track _ _ _ _ second out2 _ _ Hne2 Hrun2 Hsecond Hout2).
  (* the source is exhausted *)
  rewrite (batches_end _ _ fuel GDone GDone _ _ (islice_collect_done _ _ _ _ _ _ _)).
  exists (out1 ++ out2). eexists. split; [|split; [|split]].
  - unfold emit_then, ended. simpl. rewrite app_nil_r. reflexivity.
  - rewrite length_app, <- (length_map (comment R) out1),
      <- (length_map (comment R) out2), Hmap1, Hmap2,
      length_take, length_drop. lia.
  - rewrite map_app, Hmap1, Hmap2. apply take_drop.
  - rewrite app_nil_r in Hp2. subst rest1. subst pages.
    apply Forall_app in Hvia as [Hv1 Hv2].
    rewrite !List.filter_app, (gql_only_session _ Hv1), (gql_only_session _ Hv2).
    rewrite (single_request_via _ _ _ _ _ _ Htrack). simpl.
    rewrite !app_nil_r, <- app_assoc. reflexivity.
Qed.

End ComposedProps.

(** ** The properties on a concrete server *)

Example cursor_of_second_page :
  cursor_url Fixtures.urllib Fixtures.second_href = Fixtures.comments_url /\
  cursor_params Fixtures.urllib Fixtures.fresh_client Fixtures.second_href
    = {[ "offset" := PVList ["8"]; "limit" := PVList ["8"];
         "client_id" := PVList ["cid"] ]}.
Proof. split; vm_compute; reflexivity. Qed.

Lemma comment_chain :
  Chain Fixtures.urllib Fixtures.comment_server Fixtures.fresh_client
    (TrackCommentsRequest Fixtures.resources) Fixtures.comment_kwargs None None
    Fixtures.comment_pages.
Proof.
  exists Fixtures.comments_url, {[ "threaded" := PInt 0 ]}.
  split; [vm_compute; reflexivity|].
  unfold Fixtures.comment_pages.
  eapply PagesFrom_next with (data := Fixtures.page_json Fixtures.first_urns
                                         (Some Fixtures.second_href)).
  - repeat split; try (vm_compute; reflexivity). discriminate.
  - split; [reflexivity|discriminate].
  - eapply PagesFrom_last with (data := Fixtures.page_json Fixtures.second_urns None).
    + repeat split; try (vm_compute; reflexivity). vm_compute. discriminate.
    + exists None. split; reflexivity.
Qed.

Lemma three_page_chain :
  Chain Fixtures.urllib Fixtures.three_page_server Fixtures.fresh_client
    (TrackCommentsRequest Fixtures.resources) {[ "track_id" := PInt 2 ]} None None
    Fixtures.three_pages.
Proof.
  exists Fixtures.three_url, ∅.
  split; [vm_compute; reflexivity|].
  unfold Fixtures.three_pages.
  eapply PagesFrom_next with
    (data := Fixtures.page_json ["a1"; "a2"] (Some Fixtures.href_2)).
  - repeat split; try (vm_compute; reflexivity). discriminate.
  - split; [reflexivity|discriminate].
  - eapply PagesFrom_next with
      (data := Fixtures.page_json ["a3"] (Some Fixtures.href_3)).
    + repeat split; try (vm_compute; reflexivity). vm_compute. discriminate.
    + split; [reflexivity|discriminate].
    + eapply PagesFrom_last with (data := Fixtures.page_json ["a4"; "a5"] None).
      * repeat split; try (vm_compute; reflexivity). vm_compute. discriminate.
      * exists None. split; reflexivity.
Qed.

(** The three requests of that chain: the same URL each time, first with
    the client id alone, then with the parameters of each cursor and the
    client id. *)
Example three_page_requests :
  map (fun p => (rq_url (fst p), rq_params (fst p))) Fixtures.three_pages
    = [(Fixtures.three_url, {[ "client_id" := PV (PStr "cid") ]});
       (Fixtures.three_url, {[ "offset" := PVList ["2"]; "client_id" := PVList ["cid"] ]});
       (Fixtures.three_url, {[ "offset" := PVList ["3"]; "client_id" := PVList ["cid"] ]})].
Proof. vm_compute. reflexivity. Qed.

Lemma collection_yields_pages_in_order_witness :
  islice_collect Fixtures.urllib Fixtures.three_page_server
      (TrackCommentsRequest Fixtures.resources) Fixtures.fresh_client 3 6
      (GStart {[ "track_id" := PInt 2 ]} None None) []
    = (Ok ([("a1", "hi"); ("a2", "hi"); ("a3", "hi"); ("a4", "hi"); ("a5", "hi")], GDone),
       [] ++ map fst Fixtures.three_pages).
Proof.
  apply (proj1 (collection_yields_pages_in_order Fixtures.urllib
                  Fixtures.three_page_server (TrackCommentsRequest Fixtures.resources)
                  Fixtures.fresh_client {[ "track_id" := PInt 2 ]} None None
                  Fixtures.three_pages
                  [("a1", "hi"); ("a2", "hi"); ("a3", "hi"); ("a4", "hi"); ("a5", "hi")]
                  3 [] three_page_chain
                  ltac:(repeat constructor) ltac:(simpl; lia))).
Defined.

Lemma collection_fetches_on_demand_witness :
  exists fetched remaining g',
    Fixtures.comment_pages = fetched ++ remaining /\
    islice_collect Fixtures.urllib Fixtures.comment_server
        (TrackCommentsRequest Fixtures.resources) Fixtures.fresh_client 2 1
        (GStart Fixtures.comment_kwargs None None) []
      = (Ok ([("c1", "hi")], g'), [] ++ map fst fetched) /\
    (length (records_of (removelast fetched)) < 1 <= length (records_of fetched))%nat /\
    (forall first records more,
        Fixtures.comment_pages = (first, records) :: more ->
        (1 <= length records)%nat ->
        fetched = [(first, records)]).
Proof.
  apply (collection_fetches_on_demand Fixtures.urllib Fixtures.comment_server
           (TrackCommentsRequest Fixtures.resources) Fixtures.fresh_client
           Fixtures.comment_kwargs None None Fixtures.comment_pages 1
           [("c1", "hi")] 2 [] comment_chain).
  - simpl. lia.
  - repeat constructor.
  - simpl. lia.
Defined.

(** Asked for one record, the generator has sent the request of the first
    page and no other. *)
Example first_record_fetches_first_page :
  snd (islice_collect Fixtures.urllib Fixtures.comment_server
         (TrackCommentsRequest Fixtures.resources) Fixtures.fresh_client 2 1
         (GStart Fixtures.comment_kwargs None None) [])
    = [page_request Fixtures.fresh_client Fixtures.comments_url
         (initial_params Fixtures.fresh_client {[ "threaded" := PInt 0 ]} None None)].
Proof. vm_compute. reflexivity. Qed.

Lemma comments_with_interactions_two_batches_witness :
  exists out log',
    get_track_comments_with_interactions Fixtures.urllib Fixtures.comment_server
        Fixtures.resources Fixtures.fresh_client 5 1 0 ∅ []
      = (mkDrained out (Ok tt), log') /\
    length out = 15%nat /\
    map (comment Fixtures.resources) out = Fixtures.the_comments /\
    List.filter via_requests log'
      = List.filter via_requests []
        ++ [interactions_query Fixtures.resources Fixtures.fresh_client Fixtures.the_track
              (map fst (take 10 Fixtures.the_comments));
            interactions_query Fixtures.resources Fixtures.fresh_client Fixtures.the_track
              (map fst (drop 10 Fixtures.the_comments))].
Proof.
  apply (comments_with_interactions_two_batches Fixtures.urllib Fixtures.comment_server
           Fixtures.resources Fixtures.fresh_client 1 0 ∅ Fixtures.the_track
           Fixtures.comment_pages Fixtures.the_comments
           Fixtures.ten_answers Fixtures.five_answers 5 []
           (snd (get_track Fixtures.comment_server Fixtures.resources
                   Fixtures.fresh_client 1 []))).
  - vm_compute. reflexivity.
  - exists Fixtures.comment_kwargs, None, None. split; [vm_compute; reflexivity|].
    exact comment_chain.
  - repeat constructor.
  - reflexivity.
  - split; [vm_compute; reflexivity|].
    eexists _, _. repeat split; vm_compute; reflexivity.
  - repeat split; repeat constructor; discriminate.
  - split; [vm_compute; reflexivity|].
    eexists _, _. repeat split; vm_compute; reflexivity.
  - repeat split; repeat constructor; discriminate.
  - simpl. lia.
Defined.

(** * Further properties *)

Import Bootstrap Methods.

(** ** URL templating: failure, inversion, literal templates *)

Section MoreTemplateProps.

(** The loop that moves the path parameters out of [kwargs] cannot fail:
    what it pops are keys of [kwargs], each once. *)
Lemma pop_all (fa : gset string) (kwargs : gmap string PyVal) :
  exists args kw,
    foldl (pop_step fa) (Ok (∅, kwargs)) (elements (dom kwargs)) = Ok (args, kw) /\
    (forall k, args !! k = if decide (k ∈ fa) then kwargs !! k else None) /\
    kw = filter (fun kv => kv.1 ∉ fa) kwargs.
Proof.
  destruct (pop_fold fa (elements (dom kwargs)) ∅ kwargs)
    as (args & kw & Hf & Ha & Hk).
  { apply NoDup_elements. }
  { intros k Hk. apply elem_of_dom, elem_of_elements. exact Hk. }
  exists args, kw. split; [exact Hf|]. split.
  - intros k. rewrite Ha, lookup_empty.
    destruct (decide (k ∈ fa)) as [Hin|Hout].
    + destruct (decide (k ∈ elements (dom kwargs) /\ k ∈ fa)) as [_|Hn]; [reflexivity|].
      destruct (kwargs !! k) eqn:E; [|reflexivity].
      exfalso. apply Hn. split; [|exact Hin].
      apply elem_of_elements, elem_of_dom. eauto.
    + rewrite decide_False by (intros [_ ?]; contradiction). reflexivity.
  - apply map_eq. intros k. rewrite Hk.
    apply option_eq. intros v. rewrite map_lookup_filter_Some. simpl.
    destruct (decide _) as [[_ Hd]|Hd].
    + split; [discriminate|]. intros [_ Hn]. contradiction.
    + split; [|tauto]. intros Hv. split; [exact Hv|]. intros Hn. apply Hd.
      split; [|exact Hn]. apply elem_of_elements, elem_of_dom. eauto.
Qed.

(** Rendering succeeds only on named placeholders that are supplied. *)
Lemma render_Ok_inv (args : gmap string PyVal) (segs : list Segment) (path : string) :
  render args segs = Ok path ->
  forall n, n ∈ field_names segs -> positional n = false /\ is_Some (args !! n).
Proof.
  revert path. induction segs as [|[c|m] segs IH]; intros path H n Hn; simpl in *.
  - inversion Hn.
  - destruct (render args segs) as [p| |]; try discriminate. eapply IH; eauto.
  - destruct (positional m) eqn:Hp; [discriminate|].
    destruct (args !! m) as [v|] eqn:Hv; [|discriminate].
    destruct (render args segs) as [p| |]; try discriminate.
    apply elem_of_cons in Hn as [->|Hn]; [split; [exact Hp|eauto]|].
    eapply IH; eauto.
Qed.

(** The first placeholder without a value stops the rendering. *)
Lemma render_missing (args : gmap string PyVal) (segs : list Segment) :
  forall (before : list string) (n : string) (after : list string),
    field_names segs = before ++ n :: after ->
    (forall m, m ∈ before -> positional m = false /\ is_Some (args !! m)) ->
    positional n = false -> args !! n = None ->
    render args segs = Raise (KeyError n).
Proof.
  induction segs as [|[c|m] segs IH]; intros before n after Hf Hb Hp Hn; simpl in *.
  - destruct before; discriminate.
  - rewrite (IH before n after Hf Hb Hp Hn). reflexivity.
  - destruct before as [|b before]; simpl in Hf; injection Hf as -> Hf.
    + rewrite Hp, Hn. reflexivity.
    + destruct (Hb b) as [Hpb [v Hv]]; [left|]. rewrite Hpb, Hv.
      rewrite (IH before n after Hf); [reflexivity| |exact Hp|exact Hn].
      intros k Hk. apply Hb. right. exact Hk.
Qed.

(** X1: for a template of the form that [parse] reads (literal text,
    doubled braces, and fields that are a bare name or index, without
    conversion, format specification, attribute or subscript): when the call
    succeeds, every field is a name that the mapping supplied, the URL is the
    base followed by the template with the values in place, and the mapping
    has lost exactly the placeholder keys. Nothing else makes the call
    succeed on such a template. *)
Theorem format_url_success_inv (T : Type) (self : Request T)
    (kwargs kwargs' : gmap string PyVal) (url : string) (segs : list Segment)
    (Hparse : parse (format_url self) = Ok segs)
    (H : _format_url_and_remove_params self kwargs = Ok (url, kwargs')) :
  (forall n, n ∈ field_names segs -> positional n = false /\ is_Some (kwargs !! n)) /\
  url = Template.base +:+ expand kwargs segs /\
  kwargs' = filter (fun kv => kv.1 ∉ field_names segs) kwargs /\
  dom kwargs' ⊆ dom kwargs.
Proof.
  unfold _format_url_and_remove_params in H. rewrite Hparse in H. simpl in H.
  destruct (pop_all (list_to_set (field_names segs)) kwargs)
    as (args & kw & Hf & Ha & Hk).
  rewrite Hf in H. simpl in H.
  destruct (render args segs) as [path| |] eqn:Hr; try discriminate.
  injection H as <- <-.
  assert (Hargs : forall n, n ∈ field_names segs -> args !! n = kwargs !! n).
  { intros n Hn. rewrite Ha. rewrite decide_True; [reflexivity|].
    apply elem_of_list_to_set. exact Hn. }
  assert (Hsup : forall n, n ∈ field_names segs ->
                           positional n = false /\ is_Some (kwargs !! n)).
  { intros n Hn. rewrite <- (Hargs n Hn). exact (render_Ok_inv _ _ _ Hr n Hn). }
  split; [exact Hsup|]. split; [|split].
  - rewrite render_expand in Hr.
    + injection Hr as <-. rewrite (expand_ext args kwargs segs Hargs). reflexivity.
    + intros n Hn. rewrite (Hargs n Hn). apply Hsup. exact Hn.
  - subst kw. apply map_eq. intros k. apply option_eq. intros v.
    rewrite !map_lookup_filter_Some. simpl. rewrite elem_of_list_to_set. reflexivity.
  - subst kw. apply dom_filter_subseteq.
Qed.

Lemma format_url_success_inv_witness :
  (forall n, n ∈ field_names (map Lit (list_ascii_of_string "/x/") ++ [Field "a"]
                               ++ map Lit (list_ascii_of_string "/y/") ++ [Field "b"]) ->
             positional n = false /\ is_Some (Fixtures.abc_kwargs !! n)) /\
  "https://api-v2.soundcloud.com/x/1/y/2"
    = Template.base +:+ expand Fixtures.abc_kwargs
        (map Lit (list_ascii_of_string "/x/") ++ [Field "a"]
           ++ map Lit (list_ascii_of_string "/y/") ++ [Field "b"]) /\
  ({[ "c" := PInt 3 ]} : gmap string PyVal)
    = filter (fun kv => kv.1 ∉ field_names
                (map Lit (list_ascii_of_string "/x/") ++ [Field "a"]
                   ++ map Lit (list_ascii_of_string "/y/") ++ [Field "b"]))
        Fixtures.abc_kwargs /\
  dom ({[ "c" := PInt 3 ]} : gmap string PyVal) ⊆ dom Fixtures.abc_kwargs.
Proof.
  apply (format_url_success_inv unit Fixtures.ab_request Fixtures.abc_kwargs).
  - vm_compute. reflexivity.
  - vm_compute. reflexivity.
Defined.

(** Outside that form the model does not follow [str.format]: a field
    with a conversion is left unmodelled, not refused. *)
Example conversion_field_unmodelled :
  parse "/x/{a!r}" = Raise (Unmodelled "replacement field").
Proof. reflexivity. Qed.

(** X2: when the template parses, its placeholders are names, and [n]
    is the first of them that the mapping does not supply, the call raises
    [KeyError] for [n]. *)
Theorem format_url_missing_placeholder (T : Type) (self : Request T)
    (kwargs : gmap string PyVal) (segs : list Segment)
    (before : list string) (n : string) (after : list string)
    (Hparse : parse (format_url self) = Ok segs)
    (Hfields : field_names segs = before ++ n :: after)
    (Hbefore : forall m, m ∈ before -> positional m = false /\ is_Some (kwargs !! m))
    (Hnamed : positional n = false)
    (Hmissing : kwargs !! n = None) :
  _format_url_and_remove_params self kwargs = Raise (KeyError n).
Proof.
  unfold _format_url_and_remove_params. rewrite Hparse. simpl.
  destruct (pop_all (list_to_set (field_names segs)) kwargs)
    as (args & kw & Hf & Ha & Hk).
  rewrite Hf. simpl.
  rewrite (render_missing args segs before n after Hfields); [reflexivity| |exact Hnamed|].
  - intros m Hm. rewrite Ha. rewrite decide_True.
    + apply Hbefore. exact Hm.
    + apply elem_of_list_to_set. rewrite Hfields. apply elem_of_app. left. exact Hm.
  - rewrite Ha. destruct (decide _); [exact Hmissing|reflexivity].
Qed.

Lemma format_url_missing_placeholder_witness :
  _format_url_and_remove_params Fixtures.ab_request {[ "a" := PInt 1; "c" := PInt 3 ]}
    = Raise (KeyError "b").
Proof.
  apply (format_url_missing_placeholder unit Fixtures.ab_request
           {[ "a" := PInt 1; "c" := PInt 3 ]}
           [Lit "/"; Lit "x"; Lit "/"; Field "a"; Lit "/"; Lit "y"; Lit "/"; Field "b"]%char
           ["a"] "b" []).
  - reflexivity.
  - reflexivity.
  - intros m Hm. apply list_elem_of_singleton in Hm as ->.
    split; [reflexivity|eexists; reflexivity].
  - reflexivity.
  - reflexivity.
Defined.

Lemma parse_escape (s : string) :
  parse_from Text (escape s) = Ok (map Lit (list_ascii_of_string s)).
Proof.
  induction s as [|c t IH]; [reflexivity|].
  cbn [escape list_ascii_of_string map].
  destruct (Ascii.eqb c "{") eqn:Hl; [|destruct (Ascii.eqb c "}") eqn:Hr].
  - apply Ascii.eqb_eq in Hl. subst c. cbn [parse_from].
    change (Ascii.eqb "{" "{") with true. cbn iota. rewrite IH. reflexivity.
  - apply Ascii.eqb_eq in Hr. subst c. cbn [parse_from].
    change (Ascii.eqb "}" "{") with false. change (Ascii.eqb "}" "}") with true.
    cbn iota. rewrite IH. reflexivity.
  - cbn [parse_from]. rewrite Hl, Hr, IH. reflexivity.
Qed.

Lemma render_literal (args : gmap string PyVal) (l : list ascii) :
  render args (map Lit l) = Ok (string_of_list_ascii l).
Proof. induction l as [|c l IH]; [reflexivity|]. simpl. rewrite IH. reflexivity. Qed.

Lemma field_names_literal (l : list ascii) : field_names (map Lit l) = [].
Proof. induction l; [reflexivity|exact IHl]. Qed.

(** A template without placeholder leaves the mapping alone. *)
Lemma format_url_literal_run (T : Type) (self : Request T)
    (kwargs : gmap string PyVal) (s : string) :
  format_url self = escape s ->
  _format_url_and_remove_params self kwargs = Ok (Template.base +:+ s, kwargs).
Proof.
  intros Hs. unfold _format_url_and_remove_params, parse.
  rewrite Hs, parse_escape. simpl. rewrite field_names_literal.
  destruct (pop_all (list_to_set []) kwargs) as (args & kw & Hf & _ & Hk).
  rewrite Hf. simpl. rewrite render_literal, string_of_list_ascii_of_string. simpl.
  do 2 f_equal. subst kw. apply map_filter_id. intros k v _. simpl.
  apply not_elem_of_empty.
Qed.

(** X3: a template that is literal text, its braces doubled, resolves to
    the base followed by that text, whatever the text and the mapping, and
    the mapping is left as it was: all of it goes on as query parameters. *)
Theorem format_url_literal (T : Type) (self : Request T)
    (kwargs : gmap string PyVal) (s : string)
    (H : format_url self = escape s) :
  _format_url_and_remove_params self kwargs = Ok (Template.base +:+ s, kwargs).
Proof. exact (format_url_literal_run T self kwargs s H). Qed.

Lemma format_url_literal_witness :
  _format_url_and_remove_params
      (mkRequest "/search/{{tracks}}" (Union []) "GET" : Request unit)
      {[ "q" := PStr "x" ]}
    = Ok (Template.base +:+ "/search/{tracks}", {[ "q" := PStr "x" ]}).
Proof.
  apply (format_url_literal unit _ {[ "q" := PStr "x" ]} "/search/{tracks}").
  reflexivity.
Defined.

End MoreTemplateProps.

(** ** The polymorphic decoder, read backwards *)

(** X4: whatever a union decode returns was built by a candidate before
    which every candidate raised; and the only exception a union decode
    raises is the one that names the payload and all candidates, raised when
    every candidate has: no candidate's own exception gets out. *)
Theorem convert_dict_union_inv (T : Type) (d : Json) (ts : list (PyType T)) :
  (forall v, _convert_dict d (Union ts) = Ok v ->
             exists before t after,
               ts = before ++ t :: after /\
               Forall (fails_on d) before /\ from_dict t d = Ok v) /\
  (forall e, _convert_dict d (Union ts) = Raise e ->
             e = CouldNotConvert d (map type_name ts) /\ Forall (fails_on d) ts).
Proof.
  unfold _convert_dict.
  assert (Hsome : forall v, try_candidates d ts = Ok (Some v) ->
            exists before t after, ts = before ++ t :: after /\
              Forall (fails_on d) before /\ from_dict t d = Ok v).
  { induction ts as [|t ts IH]; intros v H; simpl in H; [discriminate|].
    destruct (from_dict t d) as [w|e|] eqn:Ht; [| |discriminate].
    - injection H as <-. exists [], t, ts. repeat split; [constructor|exact Ht].
    - destruct (IH v H) as (before & t' & after & -> & Hb & Hv).
      exists (t :: before), t', after. repeat split; [|exact Hv].
      constructor; [exists e; exact Ht|exact Hb]. }
  assert (Hnone : try_candidates d ts = Ok None -> Forall (fails_on d) ts).
  { induction ts as [|t ts IH]; intros H; simpl in H; [constructor|].
    destruct (from_dict t d) as [w|e|] eqn:Ht; try discriminate.
    constructor; [exists e; exact Ht|]. apply IH; [|exact H].
    intros v Hv. destruct (Hsome v) as (before & t' & after & Hts & Hb & Ht').
    { simpl. rewrite Ht. exact Hv. }
    destruct before as [|b before]; simpl in Hts; injection Hts as -> ->.
    - rewrite Ht in Ht'. discriminate.
    - inversion Hb; subst. eauto 10. }
  assert (Hraise : forall e, try_candidates d ts <> Raise e).
  { clear. induction ts as [|t ts IH]; intros e; simpl; [discriminate|].
    destruct (from_dict t d); [discriminate|apply IH|discriminate]. }
  split.
  - intros v H. destruct (try_candidates d ts) as [[w|]| |] eqn:E; simpl in H;
      try discriminate. injection H as <-. apply Hsome. reflexivity.
  - intros e H. destruct (try_candidates d ts) as [[w|]| |] eqn:E; simpl in H;
      try discriminate.
    + injection H as <-. split; [reflexivity|]. apply Hnone. reflexivity.
    + exfalso. exact (Hraise e0 eq_refl).
Qed.

Lemma convert_dict_union_inv_witness :
  exists before t after,
    [Fixtures.Subtype; Fixtures.Supertype] = before ++ t :: after /\
    Forall (fails_on Fixtures.both_match) before /\
    from_dict t Fixtures.both_match = Ok ("Subtype", Fixtures.both_match).
Proof.
  apply (proj1 (convert_dict_union_inv _ Fixtures.both_match
                  [Fixtures.Subtype; Fixtures.Supertype])).
  reflexivity.
Defined.

(** ** The single-resource and bulk-list shapes, case by case *)

Section MoreShapeProps.
Context (srv : Server) {T : Type} (self : Request T) (client : AsyncCloud).

(** Every run of the single-resource shape. *)
Lemma single_request_run (payload : option Json) (kwargs : gmap string PyVal)
    (log : list HttpRequest) :
  SingleRequest_call srv self client payload kwargs log =
  match _format_url_and_remove_params self kwargs with
  | Ok (url, kwargs') =>
      let rq := single_rq self client payload url kwargs' in
      (if (400 <=? status (srv rq))%Z then Raise (ClientResponseError (status (srv rq)))
       else match body (srv rq) with
            | None => Raise JSONDecodeError
            | Some d => res_bind (_convert_dict d (return_type self))
                          (fun v => Ok (Some v))
            end,
       log ++ [rq])
  | Raise e => (Raise e, log)
  | Diverge => (Diverge, log)
  end.
Proof.
  unfold SingleRequest_call, bind at 1, lift at 1.
  destruct (_format_url_and_remove_params self kwargs) as [[url kw]| |]; try reflexivity.
  unfold bind at 1, session_request, bind at 1, send. fold (single_rq self client payload url kw).
  set (rq := single_rq self client payload url kw). cbn [andb].
  destruct (400 <=? status (srv rq))%Z eqn:E; [reflexivity|].
  apply Z.leb_gt in E. unfold ret at 1.
  rewrite (empty_status_above_400 _ E).
  unfold bind at 1, json. destruct (body (srv rq)) as [d|]; [|reflexivity].
  unfold ret at 1, bind at 1, lift at 1.
  destruct (_convert_dict d (return_type self)); reflexivity.
Qed.

(** Every run of the bulk-list shape. *)
Lemma list_request_run (payload : option Json) (kwargs : gmap string PyVal)
    (log : list HttpRequest) :
  ListRequest_call srv self client payload kwargs log =
  match _format_url_and_remove_params self kwargs with
  | Ok (url, kwargs') =>
      let rq := list_rq client url kwargs' in
      (if (400 <=? status (srv rq))%Z then Raise (ClientResponseError (status (srv rq)))
       else match body (srv rq) with
            | None => Raise JSONDecodeError
            | Some d => res_bind (py_iter d) (convert_all (return_type self))
            end,
       log ++ [rq])
  | Raise e => (Raise e, log)
  | Diverge => (Diverge, log)
  end.
Proof.
  unfold ListRequest_call, bind at 1, lift at 1.
  destruct (_format_url_and_remove_params self kwargs) as [[url kw]| |]; try reflexivity.
  unfold bind at 1, session_request, bind at 1, send. fold (list_rq client url kw).
  set (rq := list_rq client url kw). cbn [andb].
  destruct (400 <=? status (srv rq))%Z eqn:E; [reflexivity|].
  apply Z.leb_gt in E. unfold ret at 1.
  rewrite (empty_status_above_400 _ E).
  unfold bind at 1, json. destruct (body (srv rq)) as [d|]; [|reflexivity].
  unfold ret at 1, bind at 1, lift at 1.
  destruct (py_iter d) as [items| |]; try reflexivity. simpl.
  generalize (log ++ [rq]). induction items as [|x items IH]; intros l; [reflexivity|].
  cbn [convert_all]. unfold bind at 1, lift at 1.
  destruct (_convert_dict x (return_type self)) as [v| |]; try reflexivity.
  unfold bind at 1. rewrite IH. simpl.
  destruct (convert_all (return_type self) items); reflexivity.
Qed.

Lemma convert_all_decodes (items : list Json) (values : list T) :
  decodes (return_type self) items values -> convert_all (return_type self) items = Ok values.
Proof.
  induction 1 as [|x v items values Hv _ IH]; [reflexivity|].
  cbn [convert_all]. rewrite Hv. simpl. rewrite IH. reflexivity.
Qed.

Lemma convert_all_first_failure (good : list Json) (values : list T) (bad : Json)
    (rest : list Json) (e : Exn) :
  decodes (return_type self) good values ->
  _convert_dict bad (return_type self) = Raise e ->
  convert_all (return_type self) (good ++ bad :: rest) = Raise e.
Proof.
  intros Hg Hb. induction Hg as [|x v items values Hv _ IH]; simpl.
  - cbn [convert_all]. rewrite Hb. reflexivity.
  - cbn [convert_all]. rewrite Hv. simpl.
    rewrite IH. reflexivity.
Qed.

(** X5: the single-resource shape never returns [None]: whatever the
    server answers, a call ends in a decoded value or in an exception. The
    branch that would return [None] needs a status that the session has
    already raised on. *)
Theorem single_request_never_None (payload : option Json) (kwargs : gmap string PyVal)
    (log : list HttpRequest) :
  fst (SingleRequest_call srv self client payload kwargs log) <> Ok None.
Proof.
  rewrite single_request_run.
  destruct (_format_url_and_remove_params self kwargs) as [[url kw]| |];
    [|discriminate..].
  cbn [fst]. destruct (400 <=? _)%Z; [discriminate|].
  destruct (body _) as [d|]; [|discriminate].
  destruct (_convert_dict d (return_type self)); discriminate.
Qed.

(** X6: a call of the single-resource or of the bulk-list shape sends at
    most one request, and that request carries the client's id as
    [client_id], also when the caller passed a [client_id] of its own. *)
Theorem rest_calls_send_client_id (payload : option Json) (kwargs : gmap string PyVal)
    (log : list HttpRequest) :
  (exists new,
      snd (SingleRequest_call srv self client payload kwargs log) = log ++ new /\
      (length new <= 1)%nat /\ Forall (carries_client_id client) new) /\
  (exists new,
      snd (ListRequest_call srv self client payload kwargs log) = log ++ new /\
      (length new <= 1)%nat /\ Forall (carries_client_id client) new).
Proof.
  rewrite single_request_run, list_request_run.
  destruct (_format_url_and_remove_params self kwargs) as [[url kw]| |]; cbn [snd];
    split; try (exists []; rewrite app_nil_r; repeat split; [simpl; lia|constructor]).
  - exists [single_rq self client payload url kw]. repeat split; [simpl; lia|].
    constructor; [|constructor]. left. apply lookup_insert_eq.
  - exists [list_rq client url kw]. repeat split; [simpl; lia|].
    constructor; [|constructor]. left. apply lookup_insert_eq.
Qed.

(** The bulk-list shape on an answer that decodes. *)
Lemma list_request_success (payload : option Json)
    (kwargs kwargs' : gmap string PyVal) (url : string)
    (items : list Json) (values : list T) (log : list HttpRequest) :
  _format_url_and_remove_params self kwargs = Ok (url, kwargs') ->
  status (srv (list_rq client url kwargs')) < 400 ->
  body (srv (list_rq client url kwargs')) = Some (JArr items) ->
  decodes (return_type self) items values ->
  ListRequest_call srv self client payload kwargs log
    = (Ok values, log ++ [list_rq client url kwargs']).
Proof.
  intros Hfmt Hstatus Hbody Hdec.
  rewrite list_request_run, Hfmt. cbn zeta.
  destruct (400 <=? _)%Z eqn:E; [apply Z.leb_le in E; lia|].
  rewrite Hbody. cbn [py_iter res_bind].
  rewrite (convert_all_decodes _ _ Hdec). reflexivity.
Qed.

(** X7: when the server answers the bulk-list request with a success
    status and a JSON array whose elements all decode, the call returns the
    decoded elements in array order (the empty list for the empty array). *)
Theorem list_request_decodes_in_order (payload : option Json)
    (kwargs kwargs' : gmap string PyVal) (url : string)
    (items : list Json) (values : list T) (log : list HttpRequest)
    (Hfmt : _format_url_and_remove_params self kwargs = Ok (url, kwargs'))
    (Hstatus : status (srv (list_rq client url kwargs')) < 400)
    (Hbody : body (srv (list_rq client url kwargs')) = Some (JArr items))
    (Hdec : decodes (return_type self) items values) :
  ListRequest_call srv self client payload kwargs log
    = (Ok values, log ++ [list_rq client url kwargs']).
Proof. exact (list_request_success payload kwargs kwargs' url items values log
                Hfmt Hstatus Hbody Hdec). Qed.

(** X8: one element that does not decode fails the whole bulk-list call
    with that element's exception: the elements decoded before it are not
    returned. *)
Theorem list_request_all_or_nothing (payload : option Json)
    (kwargs kwargs' : gmap string PyVal) (url : string)
    (good : list Json) (values : list T) (bad : Json) (rest : list Json) (e : Exn)
    (log : list HttpRequest)
    (Hfmt : _format_url_and_remove_params self kwargs = Ok (url, kwargs'))
    (Hstatus : status (srv (list_rq client url kwargs')) < 400)
    (Hbody : body (srv (list_rq client url kwargs')) = Some (JArr (good ++ bad :: rest)))
    (Hgood : decodes (return_type self) good values)
    (Hbad : _convert_dict bad (return_type self) = Raise e) :
  ListRequest_call srv self client payload kwargs log
    = (Raise e, log ++ [list_rq client url kwargs']).
Proof.
  rewrite list_request_run, Hfmt. cbn zeta.
  destruct (400 <=? _)%Z eqn:E; [apply Z.leb_le in E; lia|].
  rewrite Hbody. cbn [py_iter res_bind].
  rewrite (convert_all_first_failure _ _ _ _ _ Hgood Hbad). reflexivity.
Qed.

End MoreShapeProps.

(** ** The validity probes and [get_tracks] *)

Section ProbeProps.
Context (srv : Server).

(** A probe over a single-resource call, by the status of the answer. *)
Lemma probe_single_run {T} (self : Request T) (client : AsyncCloud)
    (kwargs kwargs' : gmap string PyVal) (url : string) (log : list HttpRequest) :
  _format_url_and_remove_params self kwargs = Ok (url, kwargs') ->
  let rq := single_rq self client None url kwargs' in
  probe (SingleRequest_call srv self client None kwargs) log =
  (if (400 <=? status (srv rq))%Z then
     if (status (srv rq) =? 401)%Z then Ok false
     else Raise (ClientResponseError (status (srv rq)))
   else match body (srv rq) with
        | None => Raise JSONDecodeError
        | Some d =>
            match _convert_dict d (return_type self) with
            | Ok _ => Ok true
            | Raise (ClientResponseError s) =>
                if (s =? 401)%Z then Ok false else Raise (ClientResponseError s)
            | Raise e => Raise e
            | Diverge => Diverge
            end
        end,
   log ++ [rq]).
Proof.
  intros Hfmt rq. unfold probe. rewrite single_request_run, Hfmt. cbn zeta. fold rq.
  destruct (400 <=? status (srv rq))%Z.
  - destruct (status (srv rq) =? 401)%Z; reflexivity.
  - destruct (body (srv rq)) as [d|]; [|reflexivity].
    destruct (_convert_dict d (return_type self)) as [v|e|]; try reflexivity.
    destruct e; try reflexivity. simpl. destruct (status0 =? 401)%Z; reflexivity.
Qed.

Lemma client_id_probe_url (R : Resources) :
  _format_url_and_remove_params (TrackRequest R) {[ "track_id" := PInt 1032303631 ]}
    = Ok ("https://api-v2.soundcloud.com/tracks/1032303631", ∅).
Proof. vm_compute. reflexivity. Qed.

(** X9: [is_client_id_valid] sends one request for a fixed track and
    reads its status: 401 is [False]; any other status of 400 and above is
    raised as [ClientResponseError] (404 for a track that is gone, 429, 500:
    none of them reads as valid or invalid); a success status with a body
    that decodes is [True]. *)
Theorem is_client_id_valid_by_status (R : Resources) (client : AsyncCloud)
    (log : list HttpRequest) :
  let rq := client_id_probe R client in
  (status (srv rq) = 401 ->
   is_client_id_valid srv R client log = (Ok false, log ++ [rq])) /\
  (400 <= status (srv rq) -> status (srv rq) <> 401 ->
   is_client_id_valid srv R client log
     = (Raise (ClientResponseError (status (srv rq))), log ++ [rq])) /\
  (status (srv rq) < 400 ->
   forall d v, body (srv rq) = Some d -> from_dict (BasicTrack_type R) d = Ok v ->
   is_client_id_valid srv R client log = (Ok true, log ++ [rq])).
Proof.
  intros rq. unfold is_client_id_valid.
  rewrite (probe_single_run _ _ _ _ _ _ (client_id_probe_url R)).
  fold (client_id_probe R client). fold rq. cbn zeta.
  split; [|split].
  - intros ->. reflexivity.
  - intros Hge Hne. destruct (400 <=? _)%Z eqn:E; [|apply Z.leb_gt in E; lia].
    destruct (_ =? 401)%Z eqn:E1; [apply Z.eqb_eq in E1; contradiction|reflexivity].
  - intros Hlt d v Hb Hd. destruct (400 <=? _)%Z eqn:E; [apply Z.leb_le in E; lia|].
    rewrite Hb. cbn [_convert_dict TrackRequest return_type]. rewrite Hd. reflexivity.
Qed.

(** X10: provided decoding a user never raises a [ClientResponseError]
    of its own, [is_auth_token_valid] returns [False] exactly when the
    server answers the request for [/me] with status 401. *)
Theorem is_auth_token_valid_False_iff {U} (User_type : PyType U)
    (client : AsyncCloud) (log : list HttpRequest)
    (Hdec : forall d s, from_dict User_type d <> Raise (ClientResponseError s)) :
  fst (is_auth_token_valid srv User_type client log) = Ok false <->
  status (srv (token_probe User_type client)) = 401.
Proof.
  unfold is_auth_token_valid.
  rewrite (probe_single_run (MeRequest User_type) client ∅ ∅
             "https://api-v2.soundcloud.com/me" log) by (vm_compute; reflexivity).
  fold (token_probe User_type client). cbn [fst].
  set (rq := token_probe User_type client).
  destruct (400 <=? status (srv rq))%Z eqn:E.
  - destruct (status (srv rq) =? 401)%Z eqn:E1.
    + apply Z.eqb_eq in E1. tauto.
    + apply Z.eqb_neq in E1. split; [discriminate|contradiction].
  - apply Z.leb_gt in E. split; [|lia].
    destruct (body (srv rq)) as [d|]; [|discriminate].
    cbn [_convert_dict MeRequest return_type].
    destruct (from_dict User_type d) as [v|e|] eqn:Hd; try discriminate.
    destruct e; try discriminate. exfalso. exact (Hdec _ _ Hd).
Qed.

(** X11: called with extra keyword arguments that name none of its own
    parameters and neither [ids] nor [client] (each of those is a
    [TypeError]), [get_tracks] sends one request to [/tracks] whose [ids] are
    the decimal identifiers joined by commas in the order given, with
    [playlistId] and [playlistSecretToken] present exactly when they are
    given. A keyword [body] binds to the body parameter of the request shape
    and is not sent, neither as a query parameter nor as a body; every other
    keyword goes on as a query parameter. When the answer is a success with
    an array that decodes, the decoded tracks are returned in the order of
    the answer. *)
Theorem get_tracks_sends_joined_ids (R : Resources) (client : AsyncCloud)
    (track_ids : list Z) (playlistId : option Z) (playlistSecretToken : option string)
    (kwargs : gmap string PyVal) (items : list Json) (values : list (BasicTrack R))
    (log : list HttpRequest)
    (Hfree : forall k, k ∈ get_tracks_names ++ ["ids"; "client"] -> kwargs !! k = None)
    (Hstatus : status (srv (list_rq client "https://api-v2.soundcloud.com/tracks"
                 (delete "body"
                    (tracks_kwargs track_ids playlistId playlistSecretToken kwargs))))
               < 400)
    (Hbody : body (srv (list_rq client "https://api-v2.soundcloud.com/tracks"
                 (delete "body"
                    (tracks_kwargs track_ids playlistId playlistSecretToken kwargs))))
             = Some (JArr items))
    (Hdec : decodes (Single (BasicTrack_type R)) items values) :
  let rq := list_rq client "https://api-v2.soundcloud.com/tracks"
              (delete "body"
                 (tracks_kwargs track_ids playlistId playlistSecretToken kwargs)) in
  get_tracks srv R client track_ids playlistId playlistSecretToken kwargs log
    = (Ok values, log ++ [rq]) /\
  rq_params rq !! "ids" = Some (PV (PStr (join "," (map PyStr.of_Z track_ids)))) /\
  rq_params rq !! "playlistId" = (fun p => PV (PInt p)) <$> playlistId /\
  rq_params rq !! "playlistSecretToken"
    = (fun t => PV (PStr t)) <$> playlistSecretToken /\
  rq_params rq !! "body" = None /\ rq_json rq = None /\
  (forall k, k ∉ ["ids"; "playlistId"; "playlistSecretToken"; "body"; "client_id"] ->
             rq_params rq !! k = PV <$> kwargs !! k).
Proof.
  intros rq.
  assert (Hself : kwargs !! "self" = None) by (apply Hfree; set_unfold; tauto).
  assert (Htracks : kwargs !! "track_ids" = None) by (apply Hfree; set_unfold; tauto).
  assert (Hpl : kwargs !! "playlistId" = None) by (apply Hfree; set_unfold; tauto).
  assert (Htok : kwargs !! "playlistSecretToken" = None)
    by (apply Hfree; set_unfold; tauto).
  assert (Hids : kwargs !! "ids" = None) by (apply Hfree; set_unfold; tauto).
  assert (Hclient : kwargs !! "client" = None) by (apply Hfree; set_unfold; tauto).
  split.
  - unfold get_tracks.
    rewrite decide_False.
    2:{ unfold get_tracks_names. rewrite !Exists_cons, Exists_nil, !elem_of_dom.
        intros [[v Hv]|[[v Hv]|[[v Hv]|[[v Hv]|[]]]]]; congruence. }
    rewrite decide_False.
    2:{ rewrite !elem_of_dom. intros [[v Hv]|[v Hv]]; revert Hv;
          destruct playlistSecretToken, playlistId;
          rewrite ?lookup_insert_ne by discriminate; congruence. }
    assert (Hkw : <["ids" := PStr (join "," (map PyStr.of_Z track_ids))]>
                    (match playlistSecretToken with
                     | Some t =>
                         <["playlistSecretToken" := PStr t]>
                           (match playlistId with
                            | Some p => <["playlistId" := PInt p]> kwargs
                            | None => kwargs
                            end)
                     | None =>
                         match playlistId with
                         | Some p => <["playlistId" := PInt p]> kwargs
                         | None => kwargs
                         end
                     end)
                  = tracks_kwargs track_ids playlistId playlistSecretToken kwargs).
    { unfold tracks_kwargs. destruct playlistSecretToken; reflexivity. }
    cbn zeta. rewrite Hkw.
    apply (list_request_success srv (TracksRequest R) client _ _ _
             "https://api-v2.soundcloud.com/tracks" items values log);
      [|exact Hstatus|exact Hbody|exact Hdec].
    apply (format_url_literal_run _ (TracksRequest R) _ "/tracks"). reflexivity.
  - subst rq. unfold list_rq, rest_request, tracks_kwargs. cbn [rq_params rq_json].
    assert (Hall : forall k, k <> "client_id" -> k <> "body" ->
              (<["client_id" := PV (PStr (client_id client))]>
                 (PV <$> delete "body"
                    (<["ids" := PStr (join "," (map PyStr.of_Z track_ids))]>
                       (match playlistSecretToken with
                        | Some t => <["playlistSecretToken" := PStr t]>
                        | None => fun m => m
                        end
                          (match playlistId with
                           | Some p => <["playlistId" := PInt p]> kwargs
                           | None => kwargs
                           end))))) !! k
              = PV <$>
                  (<["ids" := PStr (join "," (map PyStr.of_Z track_ids))]>
                     (match playlistSecretToken with
                      | Some t => <["playlistSecretToken" := PStr t]>
                      | None => fun m => m
                      end
                        (match playlistId with
                         | Some p => <["playlistId" := PInt p]> kwargs
                         | None => kwargs
                         end))) !! k).
    { intros k Hc Hb. rewrite lookup_insert_ne by congruence.
      rewrite lookup_fmap, lookup_delete_ne by congruence. reflexivity. }
    split; [rewrite Hall by discriminate; rewrite lookup_insert_eq; reflexivity|].
    split.
    { rewrite Hall by discriminate. rewrite lookup_insert_ne by discriminate.
      destruct playlistSecretToken as [t|], playlistId as [p|];
        rewrite ?lookup_insert_ne by discriminate;
        rewrite ?lookup_insert_eq, ?Hpl; reflexivity. }
    split.
    { rewrite Hall by discriminate. rewrite lookup_insert_ne by discriminate.
      destruct playlistSecretToken as [t|], playlistId as [p|];
        rewrite ?lookup_insert_eq; [reflexivity..| |];
        rewrite ?lookup_insert_ne by discriminate; rewrite Htok; reflexivity. }
    split.
    { rewrite lookup_insert_ne by discriminate.
      rewrite lookup_fmap, lookup_delete_eq. reflexivity. }
    split; [reflexivity|].
    intros k Hk. rewrite Hall by (set_unfold; tauto).
    rewrite lookup_insert_ne by (set_unfold; intros <-; tauto).
    destruct playlistSecretToken as [t|], playlistId as [p|];
      rewrite ?lookup_insert_ne by (set_unfold; intros <-; tauto); reflexivity.
Qed.

End ProbeProps.

Lemma is_client_id_valid_by_status_witness :
  is_client_id_valid (Fixtures.always 401 None) Fixtures.resources
      Fixtures.fresh_client []
    = (Ok false, [] ++ [client_id_probe Fixtures.resources Fixtures.fresh_client]) /\
  is_client_id_valid (Fixtures.always 404 None) Fixtures.resources
      Fixtures.fresh_client []
    = (Raise (ClientResponseError 404),
       [] ++ [client_id_probe Fixtures.resources Fixtures.fresh_client]) /\
  is_client_id_valid (Fixtures.always 200 (Some Fixtures.track_json)) Fixtures.resources
      Fixtures.fresh_client []
    = (Ok true, [] ++ [client_id_probe Fixtures.resources Fixtures.fresh_client]).
Proof.
  split; [|split].
  - apply (proj1 (is_client_id_valid_by_status (Fixtures.always 401 None) Fixtures.resources
                    Fixtures.fresh_client [])).
    reflexivity.
  - apply (proj1 (proj2 (is_client_id_valid_by_status (Fixtures.always 404 None) Fixtures.resources
                           Fixtures.fresh_client []))).
    + simpl. lia.
    + simpl. lia.
  - apply (proj2 (proj2 (is_client_id_valid_by_status (Fixtures.always 200 (Some Fixtures.track_json)) Fixtures.resources
                           Fixtures.fresh_client []))
             ltac:(simpl; lia) Fixtures.track_json Fixtures.the_track);
      reflexivity.
Defined.

Lemma is_auth_token_valid_False_iff_witness :
  fst (is_auth_token_valid (Fixtures.always 401 None) Fixtures.user_item
         Fixtures.token_client []) = Ok false <->
  status (Fixtures.always 401 None
            (token_probe Fixtures.user_item Fixtures.token_client)) = 401.
Proof.
  apply (is_auth_token_valid_False_iff (Fixtures.always 401 None) Fixtures.user_item Fixtures.token_client []).
  intros d s. unfold Fixtures.user_item. cbn [from_dict].
  unfold Fixtures.get_str. destruct (subscript d "username") as [[]| |]; discriminate.
Defined.

Lemma list_request_decodes_in_order_witness :
  ListRequest_call (Fixtures.always 200 (Some (JArr MoreFixtures.two_tracks)))
      (TracksRequest Fixtures.resources) Fixtures.fresh_client None
      {[ "ids" := PStr "1,2" ]} []
    = (Ok [("soundcloud:tracks:1", "soundcloud:users:9");
           ("soundcloud:tracks:2", "soundcloud:users:9")],
       [] ++ [list_rq Fixtures.fresh_client "https://api-v2.soundcloud.com/tracks"
                {[ "ids" := PStr "1,2" ]}]).
Proof.
  apply (list_request_decodes_in_order
           (Fixtures.always 200 (Some (JArr MoreFixtures.two_tracks)))
           (TracksRequest Fixtures.resources) Fixtures.fresh_client None
           {[ "ids" := PStr "1,2" ]} {[ "ids" := PStr "1,2" ]}
           "https://api-v2.soundcloud.com/tracks" MoreFixtures.two_tracks).
  - vm_compute. reflexivity.
  - simpl. lia.
  - reflexivity.
  - repeat constructor.
Defined.

Lemma list_request_all_or_nothing_witness :
  ListRequest_call (Fixtures.always 200 (Some (JArr MoreFixtures.spoiled_tracks)))
      (TracksRequest Fixtures.resources) Fixtures.fresh_client None
      {[ "ids" := PStr "1,3,2" ]} []
    = (Raise (FromDictError "BasicTrack"),
       [] ++ [list_rq Fixtures.fresh_client "https://api-v2.soundcloud.com/tracks"
                {[ "ids" := PStr "1,3,2" ]}]).
Proof.
  apply (list_request_all_or_nothing
           (Fixtures.always 200 (Some (JArr MoreFixtures.spoiled_tracks)))
           (TracksRequest Fixtures.resources) Fixtures.fresh_client None
           {[ "ids" := PStr "1,3,2" ]} {[ "ids" := PStr "1,3,2" ]}
           "https://api-v2.soundcloud.com/tracks"
           [Fixtures.track_json] [("soundcloud:tracks:1", "soundcloud:users:9")]
           (JObj [("urn", JNum 3)]) [MoreFixtures.second_track_json]).
  - vm_compute. reflexivity.
  - simpl. lia.
  - reflexivity.
  - repeat constructor.
  - reflexivity.
Defined.

Lemma get_tracks_sends_joined_ids_witness :
  let kwargs : gmap string PyVal :=
    {[ "body" := PStr "x"; "representation" := PStr "mini" ]} in
  let rq := list_rq Fixtures.fresh_client "https://api-v2.soundcloud.com/tracks"
              (delete "body" (tracks_kwargs [1; 2] (Some 7) None kwargs)) in
  get_tracks (Fixtures.always 200 (Some (JArr MoreFixtures.two_tracks)))
      Fixtures.resources Fixtures.fresh_client [1; 2] (Some 7) None kwargs []
    = (Ok [("soundcloud:tracks:1", "soundcloud:users:9");
           ("soundcloud:tracks:2", "soundcloud:users:9")], [] ++ [rq]) /\
  rq_params rq !! "ids" = Some (PV (PStr (join "," (map PyStr.of_Z [1; 2])))) /\
  rq_params rq !! "playlistId" = (fun p => PV (PInt p)) <$> Some 7 /\
  rq_params rq !! "playlistSecretToken" = (fun t => PV (PStr t)) <$> None /\
  rq_params rq !! "body" = None /\ rq_json rq = None /\
  (forall k, k ∉ ["ids"; "playlistId"; "playlistSecretToken"; "body"; "client_id"] ->
             rq_params rq !! k = PV <$> kwargs !! k).
Proof.
  apply (get_tracks_sends_joined_ids
           (Fixtures.always 200 (Some (JArr MoreFixtures.two_tracks)))
           Fixtures.resources Fixtures.fresh_client [1; 2] (Some 7) None
           {[ "body" := PStr "x"; "representation" := PStr "mini" ]}
           MoreFixtures.two_tracks).
  - intros k Hk. unfold get_tracks_names in Hk. cbn [app] in Hk.
    repeat (apply elem_of_cons in Hk as [->|Hk]; [reflexivity|]).
    inversion Hk.
  - simpl. lia.
  - reflexivity.
  - repeat constructor.
Defined.

(** The query parameters of that request, and the [TypeError] of a
    keyword [client], before any request is sent. *)
Example get_tracks_keywords :
  (rq_params <$> snd (get_tracks (Fixtures.always 200 (Some (JArr [])))
                        Fixtures.resources Fixtures.fresh_client [1; 2] (Some 7) None
                        {[ "body" := PStr "x"; "representation" := PStr "mini" ]} []))
    = [{[ "client_id" := PV (PStr "cid"); "ids" := PV (PStr "1,2");
          "playlistId" := PV (PInt 7); "representation" := PV (PStr "mini") ]}] /\
  get_tracks (Fixtures.always 200 (Some (JArr []))) Fixtures.resources
      Fixtures.fresh_client [1; 2] None None {[ "client" := PStr "x" ]} []
    = (Raise TypeError, []).
Proof. vm_compute. split; reflexivity. Qed.

Example joined_ids : join "," (map PyStr.of_Z [1; 22; 333]) = "1,22,333".
Proof. reflexivity. Qed.

(** ** The collection shape: what it sends and where it fails *)
Section GeneratorProps.
Context (lib : UrlLib) (srv : Server) {T : Type} (self : Request T)
  (client : AsyncCloud).

Lemma cursor_target_client_id (next_href : option Json) (url : string)
    (params : gmap string ParamVal) :
  cursor_target lib client next_href = Ok (url, params) ->
  params !! "client_id" = Some (PVList [client_id client]).
Proof.
  unfold cursor_target. intros H.
  destruct next_href as [[| | |[|a u]| |]|]; cbn in H;
    repeat match type of H with
           | (if ?b then _ else _) = _ => destruct b
           end;
    try discriminate; injection H as <- <-; apply lookup_insert_eq.
Qed.

Lemma initial_params_client_id (kwargs : gmap string PyVal)
    (offset limit : option PyVal) :
  initial_params client kwargs offset limit !! "client_id"
    = Some (PV (PStr (client_id client))).
Proof.
  unfold initial_params.
  destruct offset, limit; repeat (rewrite lookup_insert_ne by discriminate);
    apply lookup_insert_eq.
Qed.

(** Every page fetch appends requests that are GETs of the aiohttp
    session with the client's id among the parameters. *)
Lemma fetch_pages_requests (fuel : nat) :
  forall (url : string) (params : gmap string ParamVal) (log : list HttpRequest),
    (params !! "client_id" = Some (PV (PStr (client_id client))) \/
     params !! "client_id" = Some (PVList [client_id client])) ->
    exists new,
      snd (fetch_pages lib srv self client fuel url params log) = log ++ new /\
      Forall (fun rq => carries_client_id client rq /\
                        rq_via rq = Aiohttp /\ rq_method rq = "GET" /\
                        rq_headers rq = session_headers client) new.
Proof.
  induction fuel as [|fuel IH]; intros url params log Hp.
  - exists []. rewrite app_nil_r. split; [|constructor].
    cbn. destruct (negb (PyStr.truthy url)); reflexivity.
  - cbn [fetch_pages]. destruct (negb (PyStr.truthy url)).
    { exists []. rewrite app_nil_r. split; [reflexivity|constructor]. }
    set (rq := rest_request client "GET" url None params ∅).
    assert (Hrq : carries_client_id client rq /\
                  rq_via rq = Aiohttp /\ rq_method rq = "GET" /\
                  rq_headers rq = session_headers client).
    { split; [exact Hp|]. split; [reflexivity|]. split; [reflexivity|].
      apply (left_id_L ∅ (∪)). }
    assert (Hone : Forall (fun rq => carries_client_id client rq /\
                             rq_via rq = Aiohttp /\ rq_method rq = "GET" /\
                             rq_headers rq = session_headers client) [rq]).
    { constructor; [exact Hrq|constructor]. }
    unfold bind at 1, session_request, bind at 1, send. fold rq.
    cbn [andb].
    destruct (400 <=? status (srv rq))%Z.
    { exists [rq]. split; [reflexivity|exact Hone]. }
    unfold ret at 1.
    destruct (is_empty_status (status (srv rq))).
    { exists [rq]. split; [reflexivity|exact Hone]. }
    unfold bind at 1, json.
    destruct (body (srv rq)) as [data|];
      [|exists [rq]; split; [reflexivity|exact Hone]].
    unfold ret at 1, bind at 1, lift at 1.
    destruct (subscript data "collection") as [collection| |];
      [|exists [rq]; split; [reflexivity|exact Hone]..].
    unfold bind at 1, lift at 1.
    destruct (py_iter collection) as [items| |];
      [|exists [rq]; split; [reflexivity|exact Hone]..].
    destruct items as [|x items]; cbn [for_body].
    + unfold bind at 1, lift at 1.
      destruct (dict_get data "next_href") as [next_href| |];
        [|exists [rq]; split; [reflexivity|exact Hone]..].
      unfold bind at 1, lift at 1.
      destruct (cursor_target lib client next_href) as [[url' params']| |] eqn:Ec;
        [|exists [rq]; split; [reflexivity|exact Hone]..].
      destruct (IH url' params' (log ++ [rq])) as (new & Hsnd & Hall).
      { right. exact (cursor_target_client_id _ _ _ Ec). }
      exists (rq :: new). split.
      * rewrite Hsnd, <- app_assoc. reflexivity.
      * constructor; assumption.
    + unfold bind at 1, lift at 1.
      destruct (_convert_dict x (return_type self));
        exists [rq]; (split; [reflexivity|exact Hone]).
Qed.

(** One resumption appends GETs of the aiohttp session that carry the
    client's id. *)
Lemma anext_requests (fuel : nat) (g : GenState)
    (log : list HttpRequest) :
  exists new,
    snd (anext lib srv self client fuel g log) = log ++ new /\
    Forall (fun rq => carries_client_id client rq /\
                      rq_via rq = Aiohttp /\ rq_method rq = "GET" /\
                      rq_headers rq = session_headers client) new.
Proof.
  assert (Hnil : forall (r : Res (option T * GenState)),
             exists new, snd (r, log) = log ++ new /\
               Forall (fun rq => carries_client_id client rq /\
                                 rq_via rq = Aiohttp /\ rq_method rq = "GET" /\
                                 rq_headers rq = session_headers client) new).
  { intros r. exists []. rewrite app_nil_r. split; [reflexivity|constructor]. }
  destruct g as [kwargs offset limit|data rest|]; cbn [anext].
  - unfold bind at 1, lift at 1.
    destruct (_format_url_and_remove_params self kwargs) as [[url kwargs']| |];
      [|apply Hnil..].
    apply fetch_pages_requests. left. apply initial_params_client_id.
  - destruct rest as [|x rest]; cbn [for_body].
    + unfold bind at 1, lift at 1.
      destruct (dict_get data "next_href") as [next_href| |]; [|apply Hnil..].
      unfold bind at 1, lift at 1.
      destruct (cursor_target lib client next_href) as [[url' params']| |] eqn:Ec;
        [|apply Hnil..].
      apply fetch_pages_requests. right. exact (cursor_target_client_id _ _ _ Ec).
    + unfold bind at 1, lift at 1.
      destruct (_convert_dict x (return_type self)); apply Hnil.
  - apply Hnil.
Qed.

(** X12: whatever state the generator is in and whatever the server
    answers, one resumption only appends to the log, and every request it
    appends is a GET of the aiohttp session that carries the client's id as
    its [client_id] parameter (also the requests that follow a cursor, whose
    own query does not contain it). *)
Theorem anext_requests_carry_client_id (fuel : nat) (g : GenState)
    (log : list HttpRequest) :
  exists new,
    snd (anext lib srv self client fuel g log) = log ++ new /\
    Forall (fun rq => carries_client_id client rq /\
                      rq_via rq = Aiohttp /\ rq_method rq = "GET") new.
Proof.
  destruct (anext_requests fuel g log) as (new & Hlog & Hall).
  exists new. split; [exact Hlog|].
  eapply Forall_impl; [exact Hall|]. intros rq (Hc & Hv & Hm & _). auto.
Qed.

(** Taking records from the generator sends requests through the aiohttp
    session only. *)
Lemma islice_collect_requests (fuel n : nat) :
  forall (g : GenState) (log : list HttpRequest),
    exists new,
      snd (islice_collect lib srv self client fuel n g log) = log ++ new /\
      Forall (fun rq => carries_client_id client rq /\
                        rq_via rq = Aiohttp /\ rq_method rq = "GET" /\
                        rq_headers rq = session_headers client) new.
Proof.
  induction n as [|n IH]; intros g log.
  - exists []. rewrite app_nil_r. split; [reflexivity|constructor].
  - cbn [islice_collect]. unfold bind at 1.
    destruct (anext_requests fuel g log) as (new & Hlog & Hall).
    destruct (anext lib srv self client fuel g log) as [[[o g']| |] log1];
      cbn [snd] in Hlog; subst log1;
      [|exists new; split; [reflexivity|exact Hall]..].
    destruct o as [v|]; [|exists new; split; [reflexivity|exact Hall]].
    unfold bind at 1.
    destruct (IH g' (log ++ new)) as (new' & Hlog' & Hall').
    destruct (islice_collect lib srv self client fuel n g' (log ++ new))
      as [[[vs g'']| |] log2]; cbn [snd] in Hlog'; subst log2;
      exists (new ++ new'); rewrite app_assoc;
      (split; [reflexivity|apply Forall_app; split; assumption]).
Qed.

End GeneratorProps.

Section GeneratorFailures.
Context (lib : UrlLib) (srv : Server) {T : Type} (self : Request T)
  (client : AsyncCloud).

(** A consumer that asks for more records than decode before a bad one
    gets the decoding error, after the pages up to the one holding the bad
    record have been fetched. *)
Lemma islice_collect_bad_record (n : nat) :
  forall (g : GenState) (items : list Json) (pages : list (HttpRequest * list Json))
         (fuel : nat) (log : list HttpRequest)
         (good : list Json) (bad : Json) (rest : list Json) (values : list T) (e : Exn),
    Pending lib srv client self g items pages ->
    (length pages <= fuel)%nat ->
    items = good ++ bad :: rest ->
    decodes (return_type self) good values ->
    _convert_dict bad (return_type self) = Raise e ->
    (length good < n)%nat ->
    exists fetched remaining,
      pages = fetched ++ remaining /\
      islice_collect lib srv self client fuel n g log
        = (Raise e, log ++ map fst fetched).
Proof.
  induction n as [|n IH];
    intros g items pages fuel log good bad rest values e HP Hfuel Hitems Hdec Hbad Hn;
    [lia|].
  cbn [islice_collect]. unfold bind at 1.
  destruct (anext_spec lib srv self client g items pages fuel log HP Hfuel)
    as [[-> _] | (x & items' & fetched & remaining & g' & -> & Hp & HP' & Hrun & _)].
  { destruct good; discriminate. }
  rewrite Hrun. unfold bind at 1, lift at 1.
  destruct good as [|y good]; simpl in Hitems; injection Hitems as -> ->.
  - rewrite Hbad. exists fetched, remaining. split; [exact Hp|reflexivity].
  - apply Forall2_cons_inv_l in Hdec as (v & values' & Hv & Hdec & ->).
    rewrite Hv. unfold ret at 1.
    destruct (IH g' (good ++ bad :: rest) remaining fuel (log ++ map fst fetched)
                good bad rest values' e HP')
      as (fetched' & remaining' & Hp' & Hrun');
      [subst pages; rewrite length_app in Hfuel; lia|reflexivity|exact Hdec
      |exact Hbad|simpl in Hn; lia|].
    exists (fetched ++ fetched'), remaining'. split.
    + subst. apply app_assoc.
    + unfold bind at 1. rewrite Hrun'. rewrite map_app, app_assoc. reflexivity.
Qed.

(** X13: when one record of a chain of pages does not decode, the records
    before it are still delivered, decoded and in order; the error of the
    bad record reaches the consumer that asks for one record more, and the
    requests issued by then are a prefix of the chain's: the pages after the
    bad record's are not fetched. *)
Theorem collection_bad_record_raises_in_place (kwargs : gmap string PyVal)
    (offset limit : option PyVal) (pages : list (HttpRequest * list Json))
    (good : list Json) (bad : Json) (rest : list Json) (values : list T) (e : Exn)
    (fuel : nat) (log : list HttpRequest)
    (Hchain : Chain lib srv client self kwargs offset limit pages)
    (Hrecords : records_of pages = good ++ bad :: rest)
    (Hdec : decodes (return_type self) good values)
    (Hbad : _convert_dict bad (return_type self) = Raise e)
    (Hfuel : (length pages <= fuel)%nat) :
  (exists fetched remaining g',
      pages = fetched ++ remaining /\
      islice_collect lib srv self client fuel (length good)
          (GStart kwargs offset limit) log
        = (Ok (values, g'), log ++ map fst fetched)) /\
  (forall n, (length good < n)%nat ->
     exists fetched remaining,
       pages = fetched ++ remaining /\
       islice_collect lib srv self client fuel n (GStart kwargs offset limit) log
         = (Raise e, log ++ map fst fetched)).
Proof.
  assert (HP : Pending lib srv client self (GStart kwargs offset limit)
                 (records_of pages) pages) by (split; [exact Hchain|reflexivity]).
  split.
  - destruct (islice_collect_spec lib srv self client (length good)
                (GStart kwargs offset limit) (records_of pages) pages fuel log values
                HP Hfuel)
      as (fetched & remaining & g' & Hp & _ & Hrun & _).
    { rewrite Hrecords, take_app_length. exact Hdec. }
    exists fetched, remaining, g'. split; assumption.
  - intros n Hn.
    exact (islice_collect_bad_record n _ _ _ fuel log good bad rest values e
             HP Hfuel Hrecords Hdec Hbad Hn).
Qed.

End GeneratorFailures.

Lemma picky_chain :
  Chain Fixtures.urllib Fixtures.three_page_server Fixtures.fresh_client
    MoreFixtures.PickyCommentsRequest {[ "track_id" := PInt 2 ]} None None
    Fixtures.three_pages.
Proof.
  exists Fixtures.three_url, ∅.
  split; [vm_compute; reflexivity|].
  unfold Fixtures.three_pages.
  eapply PagesFrom_next with
    (data := Fixtures.page_json ["a1"; "a2"] (Some Fixtures.href_2)).
  - repeat split; try (vm_compute; reflexivity). discriminate.
  - split; [reflexivity|discriminate].
  - eapply PagesFrom_next with
      (data := Fixtures.page_json ["a3"] (Some Fixtures.href_3)).
    + repeat split; try (vm_compute; reflexivity). vm_compute. discriminate.
    + split; [reflexivity|discriminate].
    + eapply PagesFrom_last with (data := Fixtures.page_json ["a4"; "a5"] None).
      * repeat split; try (vm_compute; reflexivity). vm_compute. discriminate.
      * exists None. split; reflexivity.
Qed.

Lemma collection_bad_record_raises_in_place_witness :
  (exists fetched remaining g',
      Fixtures.three_pages = fetched ++ remaining /\
      islice_collect Fixtures.urllib Fixtures.three_page_server
          MoreFixtures.PickyCommentsRequest Fixtures.fresh_client 3
          (length (map Fixtures.comment_json ["a1"; "a2"; "a3"]))
          (GStart {[ "track_id" := PInt 2 ]} None None) []
        = (Ok ([("a1", "hi"); ("a2", "hi"); ("a3", "hi")], g'),
           [] ++ map fst fetched)) /\
  (forall n, (length (map Fixtures.comment_json ["a1"; "a2"; "a3"]) < n)%nat ->
     exists fetched remaining,
       Fixtures.three_pages = fetched ++ remaining /\
       islice_collect Fixtures.urllib Fixtures.three_page_server
           MoreFixtures.PickyCommentsRequest Fixtures.fresh_client 3 n
           (GStart {[ "track_id" := PInt 2 ]} None None) []
         = (Raise (FromDictError "PickyComment"), [] ++ map fst fetched)).
Proof.
  apply (collection_bad_record_raises_in_place Fixtures.urllib
           Fixtures.three_page_server MoreFixtures.PickyCommentsRequest
           Fixtures.fresh_client {[ "track_id" := PInt 2 ]} None None
           Fixtures.three_pages
           (map Fixtures.comment_json ["a1"; "a2"; "a3"])
           (Fixtures.comment_json "a4")
           (map Fixtures.comment_json ["a5"])).
  - exact picky_chain.
  - reflexivity.
  - repeat constructor.
  - reflexivity.
  - simpl. lia.
Defined.

(** Run on the three-page server: three records taken cost two requests,
    a fourth ends in the error after the third request. *)
Example picky_run :
  fst (islice_collect Fixtures.urllib Fixtures.three_page_server
         MoreFixtures.PickyCommentsRequest Fixtures.fresh_client 3 5
         (GStart {[ "track_id" := PInt 2 ]} None None) [])
    = Raise (FromDictError "PickyComment") /\
  snd (islice_collect Fixtures.urllib Fixtures.three_page_server
         MoreFixtures.PickyCommentsRequest Fixtures.fresh_client 3 5
         (GStart {[ "track_id" := PInt 2 ]} None None) [])
    = map fst Fixtures.three_pages /\
  snd (islice_collect Fixtures.urllib Fixtures.three_page_server
         MoreFixtures.PickyCommentsRequest Fixtures.fresh_client 3 3
         (GStart {[ "track_id" := PInt 2 ]} None None) [])
    = map fst (take 2 Fixtures.three_pages).
Proof. vm_compute. repeat split. Qed.

(** ** The comments with their interaction data, for any number of comments *)
Section ComposedMore.
Context (lib : UrlLib) (srv : Server) (R : Resources) (client : AsyncCloud).

Lemma pending_via_session {T} (self : Request T) (g : GenState) (items : list Json)
    (pages : list (HttpRequest * list Json)) :
  Pending lib srv client self g items pages ->
  Forall (fun p => via_requests (fst p) = false) pages.
Proof.
  destruct g as [kw offset limit|data rest|]; simpl.
  - intros [(url & kw' & _ & Hch) _]. exact (pages_via_session _ _ _ _ _ _ Hch).
  - intros [[[_ ->]|(href & _ & Hch)] _]; [constructor|].
    exact (pages_via_session _ _ _ _ _ _ Hch).
  - intros [_ ->]. constructor.
Qed.

(** The batches of a list put together again give the list. *)
Lemma pieces_of_concat {A} (n k : nat) :
  forall l : list A, (0 < k)%nat -> (length l <= n)%nat -> concat (pieces_of n k l) = l.
Proof.
  induction n as [|n IH]; intros l Hk Hn.
  - destruct l; [reflexivity|simpl in Hn; lia].
  - destruct l as [|x l]; [reflexivity|].
    cbn [pieces_of concat]. rewrite IH; [apply take_drop|exact Hk|].
    rewrite length_drop. simpl in *. lia.
Qed.

(** The loop over the batches: every batch costs one interaction-count
    query, and the loop ends when the source is exhausted. *)
Lemma batches_run (track : BasicTrack R) (m : nat) :
  forall (comments : list (BasicComment R)) (g : GenState) (items : list Json)
         (pages : list (HttpRequest * list Json)) (fuel : nat) (log : list HttpRequest),
    Pending lib srv client (TrackCommentsRequest R) g items pages ->
    decodes (Single (BasicComment_type R)) items comments ->
    (forall chunk, chunk ∈ pieces_of m 10 comments ->
       exists result,
         Answers srv R client track (map (comment_self_urn R) chunk) result /\
         Aligned (length chunk) result) ->
    (length comments <= m)%nat ->
    (length pages + m + 1 <= fuel)%nat ->
    exists out log',
      batches lib srv R client (track_urn R track) (track_user_urn R track) fuel g log
        = (mkDrained out (Ok tt), log') /\
      map (comment R) out = comments /\
      List.filter via_requests log'
        = List.filter via_requests log
          ++ map (fun chunk => interactions_query R client track
                                 (map (comment_self_urn R) chunk))
               (pieces_of m 10 comments).
Proof.
  induction m as [|m IH]; intros comments g items pages fuel log HP Hdec Hans Hm Hfuel.
  - destruct comments; [|simpl in Hm; lia].
    destruct fuel as [|fuel]; [lia|].
    destruct (islice_collect_spec lib srv (TrackCommentsRequest R) client 10
                g items pages (S fuel) log [] HP)
      as (fetched & remaining & g' & Hp & _ & Hrun & _); [lia| |].
    { inversion Hdec; subst. constructor. }
    rewrite (batches_end lib srv R client _ _ fuel g g' _ _ Hrun).
    exists [], (log ++ map fst fetched). repeat split.
    assert (Hvia := pending_via_session _ _ _ _ HP). subst pages.
    apply Forall_app in Hvia as [Hv _].
    rewrite List.filter_app, (gql_only_session _ Hv). reflexivity.
  - destruct fuel as [|fuel]; [lia|].
    destruct comments as [|c comments].
    + destruct (islice_collect_spec lib srv (TrackCommentsRequest R) client 10
                  g items pages (S fuel) log [] HP)
        as (fetched & remaining & g' & Hp & _ & Hrun & _); [lia| |].
      { inversion Hdec; subst. constructor. }
      rewrite (batches_end lib srv R client _ _ fuel g g' _ _ Hrun).
      exists [], (log ++ map fst fetched). repeat split.
      assert (Hvia := pending_via_session _ _ _ _ HP). subst pages.
      apply Forall_app in Hvia as [Hv _].
      rewrite List.filter_app, (gql_only_session _ Hv). reflexivity.
    + set (all := c :: comments) in *.
      assert (Hpieces : pieces_of (S m) 10 all
                        = take 10 all :: pieces_of m 10 (drop 10 all)) by reflexivity.
      destruct (islice_collect_spec lib srv (TrackCommentsRequest R) client 10
                  g items pages (S fuel) log (take 10 all) HP)
        as (fetched & remaining & g' & Hp & HP' & Hrun & _);
        [lia|apply Forall2_take; exact Hdec|].
      destruct (Hans (take 10 all)) as (result & Hres & Hu & Hc & Hall).
      { rewrite Hpieces. apply list_elem_of_here. }
      destruct (enrich_aligned R (take 10 all) (user result) (creator result)
                  Hu Hc Hall) as (out1 & Hout1 & Hmap1).
      assert (Hne : take 10 all <> []) by discriminate.
      rewrite (batches_step lib srv R client track fuel g g' (take 10 all) result out1
                 log _ Hne Hrun Hres Hout1).
      destruct (IH (drop 10 all) g' (drop 10 items) remaining fuel
                  ((log ++ map fst fetched)
                     ++ [interactions_query R client track
                           (map (comment_self_urn R) (take 10 all))]) HP')
        as (out2 & log2 & Hrun2 & Hmap2 & Hlog2).
      { apply Forall2_drop. exact Hdec. }
      { intros chunk Hin. apply Hans. rewrite Hpieces.
        apply list_elem_of_further. exact Hin. }
      { rewrite length_drop. subst all. simpl in *. lia. }
      { subst pages. rewrite length_app in Hfuel. lia. }
      rewrite Hrun2. exists (out1 ++ out2), log2. split; [reflexivity|].
      split.
      * rewrite map_app, Hmap1, Hmap2. apply take_drop.
      * rewrite Hlog2, Hpieces.
        assert (Hvia := pending_via_session _ _ _ _ HP). subst pages.
        apply Forall_app in Hvia as [Hv _].
        rewrite !List.filter_app, (gql_only_session _ Hv). simpl.
        rewrite app_nil_r, <- app_assoc. reflexivity.
Qed.

(** X14: for a track that exists and any number of comments, served over
    any pagination, with the GraphQL endpoint answering the query of each
    batch with one entry per queried comment: the operation consumed to its
    end emits one result per comment, in the source's order, ends without
    error, and has issued exactly one interaction-count query per batch of
    ten consecutive comments (the last batch possibly shorter), in order. *)
Theorem comments_with_interactions_batches
    (track_id threaded : Z) (kwargs : gmap string PyVal)
    (track : BasicTrack R) (pages : list (HttpRequest * list Json))
    (comments : list (BasicComment R)) (fuel : nat) (log log1 : list HttpRequest)
    (Htrack : get_track srv R client track_id log = (Ok (Some track), log1))
    (Hpages : CommentPages lib srv R client track_id threaded kwargs pages)
    (Hdec : decodes (Single (BasicComment_type R)) (records_of pages) comments)
    (Hanswers : forall chunk, chunk ∈ batches_of_ten comments ->
       exists result,
         Answers srv R client track (map (comment_self_urn R) chunk) result /\
         Aligned (length chunk) result)
    (Hfuel : (length pages + length comments + 1 <= fuel)%nat) :
  exists out log',
    get_track_comments_with_interactions lib srv R client fuel track_id threaded
        kwargs log
      = (mkDrained out (Ok tt), log') /\
    map (comment R) out = comments /\
    concat (batches_of_ten comments) = comments /\
    List.filter via_requests log'
      = List.filter via_requests log
        ++ map (fun chunk => interactions_query R client track
                               (map (comment_self_urn R) chunk))
             (batches_of_ten comments).
Proof.
  destruct Hpages as (kw & offset & limit & Hgen & Hchain).
  unfold get_track_comments_with_interactions. rewrite Htrack, Hgen.
  destruct (batches_run track (length comments) comments (GStart kw offset limit)
              (records_of pages) pages fuel log1)
    as (out & log' & Hrun & Hmap & Hlog);
    [split; [exact Hchain|reflexivity]|exact Hdec|exact Hanswers|lia|exact Hfuel|].
  exists out, log'. split; [exact Hrun|]. split; [exact Hmap|].
  split; [apply pieces_of_concat; lia|].
  rewrite Hlog. unfold get_track in Htrack.
  rewrite (single_request_via srv client _ _ _ _ _ _ Htrack). reflexivity.
Qed.

End ComposedMore.

Lemma comments_with_interactions_batches_witness :
  exists out log',
    get_track_comments_with_interactions Fixtures.urllib Fixtures.comment_server
        Fixtures.resources Fixtures.fresh_client 18 1 0 ∅ []
      = (mkDrained out (Ok tt), log') /\
    map (comment Fixtures.resources) out = Fixtures.the_comments /\
    concat (batches_of_ten Fixtures.the_comments) = Fixtures.the_comments /\
    List.filter via_requests log'
      = List.filter via_requests []
        ++ map (fun chunk => interactions_query Fixtures.resources Fixtures.fresh_client
                               Fixtures.the_track (map fst chunk))
             (batches_of_ten Fixtures.the_comments).
Proof.
  apply (comments_with_interactions_batches Fixtures.urllib Fixtures.comment_server
           Fixtures.resources Fixtures.fresh_client 1 0 ∅ Fixtures.the_track
           Fixtures.comment_pages Fixtures.the_comments 18 []
           (snd (get_track Fixtures.comment_server Fixtures.resources
                   Fixtures.fresh_client 1 []))).
  - vm_compute. reflexivity.
  - exists Fixtures.comment_kwargs, None, None. split; [vm_compute; reflexivity|].
    exact comment_chain.
  - repeat constructor.
  - intros chunk Hin.
    change (batches_of_ten Fixtures.the_comments)
      with [take 10 Fixtures.the_comments; drop 10 Fixtures.the_comments] in Hin.
    apply elem_of_cons in Hin as [->|Hin];
      [|apply list_elem_of_singleton in Hin as ->].
    + exists Fixtures.ten_answers. split.
      * split; [vm_compute; reflexivity|].
        eexists _, _. repeat split; vm_compute; reflexivity.
      * repeat split; repeat constructor; discriminate.
    + exists Fixtures.five_answers. split.
      * split; [vm_compute; reflexivity|].
        eexists _, _. repeat split; vm_compute; reflexivity.
      * repeat split; repeat constructor; discriminate.
  - simpl. lia.
Defined.

(** ** Pairing comments with interaction entries *)
Section EnrichProps.
Context (R : Resources).

(** X15: the comments of a batch are paired with the interaction entries
    by position and the pairing stops at the shortest of the three lists:
    when the user-side entries in that range all have their counts, the
    batch gives one result per paired comment, in order, and the comments
    beyond the range are dropped. A result's flags say whether the
    creator's, and the user's, own interaction is a like; its number of likes
    is the count of the first like entry of the user side, 0 when there is
    none or when that count is missing. *)
Theorem enrich_pairs_by_position (chunk : list (BasicComment R)) :
  forall (us cs : list UserInteraction),
    Forall (fun u => interactionCounts u <> None)
      (take (Nat.min (length chunk) (length cs)) us) ->
    exists out,
      enrich R chunk us cs = Ok out /\
      map (comment R) out
        = take (Nat.min (length us) (length cs)) chunk /\
      forall (i : nat) (o : CommentWithInteractions R),
        out !! i = Some o ->
        exists u c counts,
          us !! i = Some u /\ cs !! i = Some c /\
          interactionCounts u = Some counts /\
          liked_by_user R o = bool_decide (userInteraction u = Some like) /\
          liked_by_creator R o = bool_decide (userInteraction c = Some like) /\
          likes R o = match List.find is_like counts with
                      | Some l => default 0 (count l)
                      | None => 0
                      end.
Proof.
  induction chunk as [|x chunk IH]; intros us cs Hall.
  - exists []. split; [reflexivity|]. split; [symmetry; apply take_nil|].
    intros i o Hi. discriminate.
  - destruct us as [|u us].
    { exists []. split; [reflexivity|]. split; [reflexivity|].
      intros i o Hi. discriminate. }
    destruct cs as [|c cs].
    { exists []. split; [reflexivity|]. split; [reflexivity|].
      intros i o Hi. discriminate. }
    cbn [length Nat.min take] in Hall. apply Forall_cons in Hall as [Hu Hall].
    destruct (IH us cs Hall) as (out & Hout & Hmap & Hflags).
    cbn [enrich]. destruct (interactionCounts u) as [counts|] eqn:Ecounts;
      [|congruence].
    rewrite Hout. cbn [res_bind]. eexists. split; [reflexivity|].
    split; [cbn [length Nat.min take map comment]; rewrite Hmap; reflexivity|].
    intros [|i] o Hi.
    + injection Hi as <-. exists u, c, counts.
      repeat split; try assumption.
      cbn [likes]. clear. induction counts as [|k counts IHc]; [reflexivity|].
      cbn [List.filter List.find]. destruct (is_like k); [|exact IHc].
      destruct (count k); reflexivity.
    + exact (Hflags i o Hi).
Qed.

(** An entry of the user side without counts, in the paired range, fails
    the batch. *)
Lemma enrich_countless (chunk : list (BasicComment R)) :
  forall (us cs : list UserInteraction) (i : nat) (u : UserInteraction),
    (i < length chunk)%nat -> (i < length cs)%nat ->
    us !! i = Some u ->
    interactionCounts u = None ->
    enrich R chunk us cs = Raise AssertionError.
Proof.
  induction chunk as [|x chunk IH]; intros us cs i u Hi Hc Hu Hnone;
    [simpl in Hi; lia|].
  destruct us as [|u0 us]; [discriminate|].
  destruct cs as [|c cs]; [simpl in Hc; lia|].
  cbn [enrich]. destruct i as [|i].
  - injection Hu as ->. rewrite Hnone. reflexivity.
  - destruct (interactionCounts u0); [|reflexivity].
    rewrite (IH us cs i u); [reflexivity|simpl in *; lia..|exact Hu|exact Hnone].
Qed.

(** X16: an entry of the user side without counts, at a position where a
    comment and a creator-side entry exist, fails the batch with an
    assertion error: no result of the batch is produced, also none for the
    comments before that position. *)
Theorem enrich_asserts_counts (chunk : list (BasicComment R))
    (us cs : list UserInteraction) (i : nat) (u : UserInteraction)
    (Hi : (i < length chunk)%nat) (Hc : (i < length cs)%nat)
    (Hu : us !! i = Some u)
    (Hcountless : interactionCounts u = None) :
  enrich R chunk us cs = Raise AssertionError.
Proof. exact (enrich_countless chunk us cs i u Hi Hc Hu Hcountless). Qed.

End EnrichProps.

Lemma enrich_pairs_by_position_witness :
  exists out,
    enrich Fixtures.resources [("c1", "hi"); ("c2", "hi"); ("c3", "hi")]
        MoreFixtures.two_user_entries MoreFixtures.three_creator_entries = Ok out /\
    map (comment Fixtures.resources) out
      = take (Nat.min (length MoreFixtures.two_user_entries)
                      (length MoreFixtures.three_creator_entries))
          [("c1", "hi"); ("c2", "hi"); ("c3", "hi")] /\
    forall (i : nat) (o : CommentWithInteractions Fixtures.resources),
      out !! i = Some o ->
      exists u c counts,
        MoreFixtures.two_user_entries !! i = Some u /\
        MoreFixtures.three_creator_entries !! i = Some c /\
        interactionCounts u = Some counts /\
        liked_by_user Fixtures.resources o = bool_decide (userInteraction u = Some like) /\
        liked_by_creator Fixtures.resources o
          = bool_decide (userInteraction c = Some like) /\
        likes Fixtures.resources o = match List.find is_like counts with
                                     | Some l => default 0 (count l)
                                     | None => 0
                                     end.
Proof.
  apply (enrich_pairs_by_position Fixtures.resources
           [("c1", "hi"); ("c2", "hi"); ("c3", "hi")]
           MoreFixtures.two_user_entries MoreFixtures.three_creator_entries).
  repeat constructor; discriminate.
Defined.

(** The three comments against two user-side entries: two results, with
    4 likes and 0 likes. *)
Example enrich_two_of_three :
  enrich Fixtures.resources [("c1", "hi"); ("c2", "hi"); ("c3", "hi")]
      MoreFixtures.two_user_entries MoreFixtures.three_creator_entries
    = Ok [mkCWI Fixtures.resources ("c1", "hi") 4 false true;
          mkCWI Fixtures.resources ("c2", "hi") 0 true false].
Proof. vm_compute. reflexivity. Qed.

Lemma enrich_asserts_counts_witness :
  enrich Fixtures.resources [("c1", "hi"); ("c2", "hi"); ("c3", "hi")]
      MoreFixtures.three_creator_entries MoreFixtures.three_creator_entries
    = Raise AssertionError.
Proof.
  apply (enrich_asserts_counts Fixtures.resources
           [("c1", "hi"); ("c2", "hi"); ("c3", "hi")]
           MoreFixtures.three_creator_entries MoreFixtures.three_creator_entries
           2%nat (mkInteraction None None)).
  - simpl. lia.
  - simpl. lia.
  - reflexivity.
  - reflexivity.
Defined.

(** The URL of a track, and what is left of the mapping. *)
Lemma string_app_empty (s : string) : s +:+ "" = s.
Proof.
  induction s as [|a s IH]; [reflexivity|].
  change (String a (s +:+ "") = String a s). rewrite IH. reflexivity.
Qed.

Lemma format_url_supplied {T} (self : Request T) (kwargs : gmap string PyVal)
    (segs : list Segment) :
  parse (format_url self) = Ok segs ->
  (forall n, n ∈ field_names segs -> positional n = false /\ is_Some (kwargs !! n)) ->
  _format_url_and_remove_params self kwargs
    = Ok (Template.base +:+ expand kwargs segs,
          filter (fun kv => kv.1 ∉ field_names segs) kwargs).
Proof.
  intros Hparse Hsupplied.
  unfold _format_url_and_remove_params. rewrite Hparse. simpl.
  destruct (pop_fold (list_to_set (field_names segs)) (elements (dom kwargs)) ∅ kwargs)
    as (args' & kw' & Hf & Ha & Hk).
  { apply NoDup_elements. }
  { intros k Hk. apply elem_of_dom. apply elem_of_elements. exact Hk. }
  rewrite Hf. simpl.
  assert (Hargs : forall n, n ∈ field_names segs -> args' !! n = kwargs !! n).
  { intros n Hn. rewrite Ha. rewrite decide_True; [reflexivity|].
    split; [|apply elem_of_list_to_set; exact Hn].
    apply elem_of_elements, elem_of_dom. apply Hsupplied. exact Hn. }
  rewrite render_expand.
  2:{ intros n Hn. rewrite (Hargs n Hn). apply Hsupplied. exact Hn. }
  simpl. rewrite (expand_ext args' kwargs segs Hargs).
  do 2 f_equal. apply map_eq. intros k. rewrite Hk.
  apply option_eq. intros v. rewrite map_lookup_filter_Some. simpl.
  destruct (decide _) as [Hd|Hd].
  - split; [discriminate|]. intros [_ Hn]. destruct Hd as [_ Hd].
    apply elem_of_list_to_set in Hd. contradiction.
  - split; [|tauto]. intros Hv. split; [exact Hv|]. intros Hn. apply Hd.
    split; [|apply elem_of_list_to_set; exact Hn].
    apply elem_of_elements, elem_of_dom. eauto.
Qed.

Lemma track_url (R : Resources) (track_id : Z) :
  _format_url_and_remove_params (TrackRequest R) {[ "track_id" := PInt track_id ]}
    = Ok ("https://api-v2.soundcloud.com/tracks/" +:+ PyStr.of_Z track_id, ∅).
Proof.
  rewrite (format_url_supplied (TrackRequest R) _
             (map Lit (list_ascii_of_string "/tracks/") ++ [Field "track_id"])).
  - f_equal. f_equal.
    cbn [list_ascii_of_string map app expand foldr].
    rewrite lookup_singleton_eq. cbn [py_str]. rewrite string_app_empty. reflexivity.
  - vm_compute. reflexivity.
  - intros n Hn. cbn in Hn. apply list_elem_of_singleton in Hn as ->.
    split; [reflexivity|]. rewrite lookup_singleton_eq. eexists. reflexivity.
Qed.

(** ** How the composed operation ends before the source is exhausted *)
Section ComposedEndings.
Context (lib : UrlLib) (srv : Server) (R : Resources) (client : AsyncCloud).

(** The loop up to a batch that ends it: the batches before it are
    emitted, the ending is that batch's. *)
Lemma batches_until (track : BasicTrack R) (r : Res unit)
    (bad : list (BasicComment R)) (m : nat) :
  (forall fuel g g' log log1,
      islice_collect lib srv (TrackCommentsRequest R) client (S fuel) 10 g log
        = (Ok (bad, g'), log1) ->
      batches lib srv R client (track_urn R track) (track_user_urn R track) (S fuel) g log
        = ended r (log1 ++ [interactions_query R client track
                              (map (comment_self_urn R) bad)])) ->
  forall (comments : list (BasicComment R)) (g : GenState) (items : list Json)
         (pages : list (HttpRequest * list Json)) (fuel : nat) (log : list HttpRequest)
         (good later : list (list (BasicComment R))),
    Pending lib srv client (TrackCommentsRequest R) g items pages ->
    decodes (Single (BasicComment_type R)) items comments ->
    pieces_of m 10 comments = good ++ bad :: later ->
    (forall chunk, chunk ∈ good ->
       exists result,
         Answers srv R client track (map (comment_self_urn R) chunk) result /\
         Aligned (length chunk) result) ->
    (length pages + m + 1 <= fuel)%nat ->
    exists out log',
      batches lib srv R client (track_urn R track) (track_user_urn R track) fuel g log
        = (mkDrained out r, log') /\
      map (comment R) out = concat good /\
      List.filter via_requests log'
        = List.filter via_requests log
          ++ map (fun chunk => interactions_query R client track
                                 (map (comment_self_urn R) chunk))
               (good ++ [bad]).
Proof.
  intros Hstop. induction m as [|m IH];
    intros comments g items pages fuel log good later HP Hdec Hpieces Hans Hfuel.
  { destruct good; discriminate. }
  destruct comments as [|c comments]; [destruct good; discriminate|].
  destruct fuel as [|fuel]; [lia|].
  set (all := c :: comments) in *.
  assert (Hcut : pieces_of (S m) 10 all
                 = take 10 all :: pieces_of m 10 (drop 10 all)) by reflexivity.
  rewrite Hcut in Hpieces.
  destruct (islice_collect_spec lib srv (TrackCommentsRequest R) client 10
              g items pages (S fuel) log (take 10 all) HP)
    as (fetched & remaining & g' & Hp & HP' & Hrun & _);
    [lia|apply Forall2_take; exact Hdec|].
  assert (Hvia := pending_via_session lib srv client _ _ _ _ HP).
  rewrite Hp in Hvia. apply Forall_app in Hvia as [Hv _].
  destruct good as [|p good]; simpl in Hpieces; injection Hpieces as Hhead Htail.
  - subst bad. rewrite (Hstop fuel g g' log _ Hrun).
    exists [], ((log ++ map fst fetched)
                  ++ [interactions_query R client track
                        (map (comment_self_urn R) (take 10 all))]).
    split; [reflexivity|]. split; [reflexivity|].
    rewrite !List.filter_app, (gql_only_session _ Hv). simpl.
    rewrite app_nil_r. reflexivity.
  - subst p.
    destruct (Hans (take 10 all)) as (result & Hres & Hu & Hc & Hall);
      [apply list_elem_of_here|].
    destruct (enrich_aligned R (take 10 all) (user result) (creator result)
                Hu Hc Hall) as (out1 & Hout1 & Hmap1).
    assert (Hne : take 10 all <> []) by discriminate.
    rewrite (batches_step lib srv R client track fuel g g' (take 10 all) result out1
               log _ Hne Hrun Hres Hout1).
    destruct (IH (drop 10 all) g' (drop 10 items) remaining fuel
                ((log ++ map fst fetched)
                   ++ [interactions_query R client track
                         (map (comment_self_urn R) (take 10 all))])
                good later HP')
      as (out2 & log2 & Hrun2 & Hmap2 & Hlog2).
    { apply Forall2_drop. exact Hdec. }
    { exact Htail. }
    { intros chunk Hin. apply Hans. apply list_elem_of_further. exact Hin. }
    { subst pages. rewrite length_app in Hfuel. lia. }
    rewrite Hrun2. exists (out1 ++ out2), log2. split; [reflexivity|].
    split.
    + rewrite map_app, Hmap1, Hmap2. reflexivity.
    + rewrite Hlog2. rewrite !List.filter_app, (gql_only_session _ Hv). simpl.
      rewrite app_nil_r, <- app_assoc. reflexivity.
Qed.

(** No batch is empty. *)
Lemma pieces_of_nonempty {A} (n : nat) :
  forall (l : list A) (p : list A), p ∈ pieces_of n 10 l -> p <> [].
Proof.
  induction n as [|n IH]; intros l p Hin; [inversion Hin|].
  destruct l as [|x l]; [inversion Hin|].
  cbn [pieces_of] in Hin. apply elem_of_cons in Hin as [->|Hin]; [discriminate|].
  exact (IH _ _ Hin).
Qed.

(** X17: when the interaction-count query of a batch is refused, the
    operation stops there: the results of the batches before it have been
    emitted, the comments of that batch and of all later ones are not, and
    no further query is sent. With status 400, 404 or 500 the operation ends
    as if the source were exhausted; with any other status from 400 to 599
    it ends with the HTTP error of that status. *)
Theorem comments_with_interactions_refused_batch
    (track_id threaded : Z) (kwargs : gmap string PyVal)
    (track : BasicTrack R) (pages : list (HttpRequest * list Json))
    (comments : list (BasicComment R))
    (good : list (list (BasicComment R))) (bad : list (BasicComment R))
    (later : list (list (BasicComment R)))
    (fuel : nat) (log log1 : list HttpRequest)
    (Htrack : get_track srv R client track_id log = (Ok (Some track), log1))
    (Hpages : CommentPages lib srv R client track_id threaded kwargs pages)
    (Hdec : decodes (Single (BasicComment_type R)) (records_of pages) comments)
    (Hsplit : batches_of_ten comments = good ++ bad :: later)
    (Hanswers : forall chunk, chunk ∈ good ->
       exists result,
         Answers srv R client track (map (comment_self_urn R) chunk) result /\
         Aligned (length chunk) result)
    (Hrefused : 400 <= status (srv (interactions_query R client track
                                      (map (comment_self_urn R) bad))) < 600)
    (Hfuel : (length pages + length comments + 1 <= fuel)%nat) :
  let s := status (srv (interactions_query R client track
                          (map (comment_self_urn R) bad))) in
  exists out log',
    get_track_comments_with_interactions lib srv R client fuel track_id threaded
        kwargs log
      = (mkDrained out (if is_empty_status s then Ok tt else Raise (HTTPError s)),
         log') /\
    map (comment R) out = concat good /\
    List.filter via_requests log'
      = List.filter via_requests log
        ++ map (fun chunk => interactions_query R client track
                               (map (comment_self_urn R) chunk))
             (good ++ [bad]).
Proof.
  intros s. destruct Hpages as (kw & offset & limit & Hgen & Hchain).
  unfold get_track_comments_with_interactions. rewrite Htrack, Hgen.
  assert (Hne : bad <> []).
  { apply (pieces_of_nonempty (length comments) comments).
    unfold batches_of_ten in Hsplit. rewrite Hsplit.
    apply elem_of_app. right. apply list_elem_of_here. }
  unfold get_track in Htrack.
  rewrite <- (single_request_via srv client _ _ _ _ _ _ Htrack).
  apply (batches_until track _ bad (length comments)) with
    (comments := comments) (items := records_of pages) (pages := pages) (later := later);
    [|split; [exact Hchain|reflexivity]|exact Hdec|exact Hsplit|exact Hanswers|exact Hfuel].
  intros fuel' g g' l l1 Hrun. cbn [batches]. rewrite Hrun.
  destruct bad as [|b bad]; [congruence|].
  destruct (is_empty_status s) eqn:Es.
  - rewrite (graphql_request_returns_None srv (UserInteractionsRequest R) client _ l1 Es).
    reflexivity.
  - rewrite (graphql_request_raises srv (UserInteractionsRequest R) client _ l1 Es
               Hrefused).
    reflexivity.
Qed.

(** X18: when the answer to a batch's query has a user-side entry without
    counts at a position that is paired with a comment, the operation ends
    with an assertion error at that batch: the results of the batches before
    it have been emitted, and none of that batch, not even for the comments
    before the offending entry. *)
Theorem comments_with_interactions_countless_batch
    (track_id threaded : Z) (kwargs : gmap string PyVal)
    (track : BasicTrack R) (pages : list (HttpRequest * list Json))
    (comments : list (BasicComment R))
    (good : list (list (BasicComment R))) (bad : list (BasicComment R))
    (later : list (list (BasicComment R)))
    (result : UserInteractionsQueryResult) (i : nat) (u : UserInteraction)
    (fuel : nat) (log log1 : list HttpRequest)
    (Htrack : get_track srv R client track_id log = (Ok (Some track), log1))
    (Hpages : CommentPages lib srv R client track_id threaded kwargs pages)
    (Hdec : decodes (Single (BasicComment_type R)) (records_of pages) comments)
    (Hsplit : batches_of_ten comments = good ++ bad :: later)
    (Hanswers : forall chunk, chunk ∈ good ->
       exists result,
         Answers srv R client track (map (comment_self_urn R) chunk) result /\
         Aligned (length chunk) result)
    (Hresult : Answers srv R client track (map (comment_self_urn R) bad) result)
    (Hi : (i < length bad)%nat) (Hc : (i < length (creator result))%nat)
    (Hu : user result !! i = Some u)
    (Hcountless : interactionCounts u = None)
    (Hfuel : (length pages + length comments + 1 <= fuel)%nat) :
  exists out log',
    get_track_comments_with_interactions lib srv R client fuel track_id threaded
        kwargs log
      = (mkDrained out (Raise AssertionError), log') /\
    map (comment R) out = concat good /\
    List.filter via_requests log'
      = List.filter via_requests log
        ++ map (fun chunk => interactions_query R client track
                               (map (comment_self_urn R) chunk))
             (good ++ [bad]).
Proof.
  destruct Hpages as (kw & offset & limit & Hgen & Hchain).
  unfold get_track_comments_with_interactions. rewrite Htrack, Hgen.
  unfold get_track in Htrack.
  rewrite <- (single_request_via srv client _ _ _ _ _ _ Htrack).
  apply (batches_until track _ bad (length comments)) with
    (comments := comments) (items := records_of pages) (pages := pages) (later := later);
    [|split; [exact Hchain|reflexivity]|exact Hdec|exact Hsplit|exact Hanswers|exact Hfuel].
  intros fuel' g g' l l1 Hrun. cbn [batches]. rewrite Hrun.
  destruct bad as [|b bad]; [simpl in Hi; lia|].
  rewrite (graphql_answers srv R client track _ result l1 Hresult).
  rewrite (enrich_countless R (b :: bad) (user result) (creator result) i u
             Hi Hc Hu Hcountless).
  reflexivity.
Qed.

(** X19: when the server refuses the request for the track with a status
    of 400 or above, the operation ends with the response error of that
    status (it does not end silently): nothing is emitted, and the request
    for the track is the only one sent. *)
Theorem comments_with_interactions_unknown_track
    (track_id threaded : Z) (kwargs : gmap string PyVal)
    (fuel : nat) (log : list HttpRequest)
    (Hrefused : 400 <= status (srv (rest_request client "GET"
                   ("https://api-v2.soundcloud.com/tracks/" +:+ PyStr.of_Z track_id)
                   None {[ "client_id" := PV (PStr (client_id client)) ]} ∅))) :
  let rq := rest_request client "GET"
              ("https://api-v2.soundcloud.com/tracks/" +:+ PyStr.of_Z track_id)
              None {[ "client_id" := PV (PStr (client_id client)) ]} ∅ in
  get_track_comments_with_interactions lib srv R client fuel track_id threaded
      kwargs log
    = (mkDrained [] (Raise (ClientResponseError (status (srv rq)))), log ++ [rq]).
Proof.
  intros rq. unfold get_track_comments_with_interactions, get_track.
  rewrite (single_request_raises srv (TrackRequest R) client None _ _ _ log
             (track_url R track_id)).
  - reflexivity.
  - exact Hrefused.
Qed.

End ComposedEndings.

(** A chain of pages depends on the server only through its answers to the
    requests of the aiohttp session. *)
Lemma PagesFrom_ext (lib : UrlLib) (srv srv' : Server) (client : AsyncCloud)
    (url : string) (params : gmap string ParamVal)
    (pages : list (HttpRequest * list Json)) :
  (forall rq, via_requests rq = false -> srv' rq = srv rq) ->
  PagesFrom lib srv client url params pages ->
  PagesFrom lib srv' client url params pages.
Proof.
  intros Hext. induction 1 as [url params data records HP Hno
                              |url params data records href pages HP Hcur _ IH].
  - eapply PagesFrom_last; [|exact Hno].
    destruct HP as (Hu & Hs & Hb & Hc). unfold Page.
    rewrite (Hext (page_request client url params) eq_refl). repeat split; assumption.
  - eapply PagesFrom_next; [|exact Hcur|exact IH].
    destruct HP as (Hu & Hs & Hb & Hc). unfold Page.
    rewrite (Hext (page_request client url params) eq_refl). repeat split; assumption.
Qed.

Lemma Chain_ext (lib : UrlLib) (srv srv' : Server) (client : AsyncCloud)
    {T} (self : Request T) (kwargs : gmap string PyVal) (offset limit : option PyVal)
    (pages : list (HttpRequest * list Json)) :
  (forall rq, via_requests rq = false -> srv' rq = srv rq) ->
  Chain lib srv client self kwargs offset limit pages ->
  Chain lib srv' client self kwargs offset limit pages.
Proof.
  intros Hext (url & kw & Hfmt & Hch). exists url, kw. split; [exact Hfmt|].
  exact (PagesFrom_ext _ _ _ _ _ _ _ Hext Hch).
Qed.

Lemma refusing_chain :
  Chain Fixtures.urllib MoreFixtures.refusing_server Fixtures.fresh_client
    (TrackCommentsRequest Fixtures.resources) Fixtures.comment_kwargs None None
    Fixtures.comment_pages.
Proof.
  apply (Chain_ext _ Fixtures.comment_server); [|exact comment_chain].
  intros rq Hrq. unfold MoreFixtures.refusing_server. rewrite Hrq. reflexivity.
Qed.

Lemma countless_chain :
  Chain Fixtures.urllib MoreFixtures.countless_server Fixtures.fresh_client
    (TrackCommentsRequest Fixtures.resources) Fixtures.comment_kwargs None None
    Fixtures.comment_pages.
Proof.
  apply (Chain_ext _ Fixtures.comment_server); [|exact comment_chain].
  intros rq Hrq. unfold MoreFixtures.countless_server. rewrite Hrq. reflexivity.
Qed.

Lemma comments_with_interactions_refused_batch_witness :
  let s := status (MoreFixtures.refusing_server
                     (interactions_query Fixtures.resources Fixtures.fresh_client
                        Fixtures.the_track
                        (map (comment_self_urn Fixtures.resources)
                           (drop 10 Fixtures.the_comments)))) in
  exists out log',
    get_track_comments_with_interactions Fixtures.urllib MoreFixtures.refusing_server
        Fixtures.resources Fixtures.fresh_client 18 1 0 ∅ []
      = (mkDrained out (if is_empty_status s then Ok tt else Raise (HTTPError s)),
         log') /\
    map (comment Fixtures.resources) out = concat [take 10 Fixtures.the_comments] /\
    List.filter via_requests log'
      = List.filter via_requests []
        ++ map (fun chunk => interactions_query Fixtures.resources Fixtures.fresh_client
                               Fixtures.the_track
                               (map (comment_self_urn Fixtures.resources) chunk))
             ([take 10 Fixtures.the_comments] ++ [drop 10 Fixtures.the_comments]).
Proof.
  apply (comments_with_interactions_refused_batch Fixtures.urllib
           MoreFixtures.refusing_server
           Fixtures.resources Fixtures.fresh_client 1 0 ∅ Fixtures.the_track
           Fixtures.comment_pages Fixtures.the_comments
           [take 10 Fixtures.the_comments] (drop 10 Fixtures.the_comments) []
           18 []
           (snd (get_track MoreFixtures.refusing_server Fixtures.resources
                   Fixtures.fresh_client 1 []))).
  - vm_compute. reflexivity.
  - exists Fixtures.comment_kwargs, None, None. split; [vm_compute; reflexivity|].
    exact refusing_chain.
  - repeat constructor.
  - reflexivity.
  - intros chunk Hin. apply list_elem_of_singleton in Hin as ->.
    exists Fixtures.ten_answers. split.
    + split; [vm_compute; reflexivity|].
      eexists _, _. repeat split; vm_compute; reflexivity.
    + repeat split; repeat constructor; discriminate.
  - split; [vm_compute; discriminate|vm_compute; reflexivity].
  - simpl. lia.
Defined.

(** On that server the operation emits the first ten comments and ends
    without error, having sent two queries. *)
Example refused_batch_run :
  let run := get_track_comments_with_interactions Fixtures.urllib
               MoreFixtures.refusing_server Fixtures.resources Fixtures.fresh_client
               18 1 0 ∅ [] in
  map (comment Fixtures.resources) (emitted (fst run)) = take 10 Fixtures.the_comments /\
  ending (fst run) = Ok tt /\
  length (List.filter via_requests (snd run)) = 2%nat.
Proof. vm_compute. repeat split. Qed.

Lemma comments_with_interactions_countless_batch_witness :
  exists out log',
    get_track_comments_with_interactions Fixtures.urllib MoreFixtures.countless_server
        Fixtures.resources Fixtures.fresh_client 18 1 0 ∅ []
      = (mkDrained out (Raise AssertionError), log') /\
    map (comment Fixtures.resources) out = concat [] /\
    List.filter via_requests log'
      = List.filter via_requests []
        ++ map (fun chunk => interactions_query Fixtures.resources Fixtures.fresh_client
                               Fixtures.the_track
                               (map (comment_self_urn Fixtures.resources) chunk))
             ([] ++ [take 10 Fixtures.the_comments]).
Proof.
  apply (comments_with_interactions_countless_batch Fixtures.urllib
           MoreFixtures.countless_server
           Fixtures.resources Fixtures.fresh_client 1 0 ∅ Fixtures.the_track
           Fixtures.comment_pages Fixtures.the_comments
           [] (take 10 Fixtures.the_comments) [drop 10 Fixtures.the_comments]
           MoreFixtures.ten_countless 0%nat (mkInteraction None None)
           18 []
           (snd (get_track MoreFixtures.countless_server Fixtures.resources
                   Fixtures.fresh_client 1 []))).
  - vm_compute. reflexivity.
  - exists Fixtures.comment_kwargs, None, None. split; [vm_compute; reflexivity|].
    exact countless_chain.
  - repeat constructor.
  - reflexivity.
  - intros chunk Hin. inversion Hin.
  - split; [vm_compute; reflexivity|].
    eexists _, _. repeat split; vm_compute; reflexivity.
  - simpl. lia.
  - simpl. lia.
  - reflexivity.
  - reflexivity.
  - simpl. lia.
Defined.

Lemma comments_with_interactions_unknown_track_witness :
  let rq := rest_request Fixtures.fresh_client "GET"
              ("https://api-v2.soundcloud.com/tracks/" +:+ PyStr.of_Z 1)
              None {[ "client_id" := PV (PStr (client_id Fixtures.fresh_client)) ]} ∅ in
  get_track_comments_with_interactions Fixtures.urllib (Fixtures.always 404 None)
      Fixtures.resources Fixtures.fresh_client 5 1 0 ∅ []
    = (mkDrained [] (Raise (ClientResponseError
                              (status (Fixtures.always 404 None rq)))), [] ++ [rq]).
Proof.
  apply (comments_with_interactions_unknown_track Fixtures.urllib
           (Fixtures.always 404 None) Fixtures.resources Fixtures.fresh_client
           1 0 ∅ 5 []).
  simpl. lia.
Defined.

(** ** Tokens, the authorization header and the requests *)

Lemma string_app_assoc (a b c : string) : (a +:+ b) +:+ c = a +:+ (b +:+ c).
Proof.
  induction a as [|x a IH]; [reflexivity|].
  change (String x ((a +:+ b) +:+ c) = String x (a +:+ (b +:+ c))).
  rewrite IH. reflexivity.
Qed.

Lemma string_of_list_snoc (l : list ascii) (c : ascii) (t : string) :
  string_of_list_ascii (l ++ [c]) +:+ t = string_of_list_ascii l +:+ String c t.
Proof.
  induction l as [|a l IH]; [reflexivity|].
  change (String a (string_of_list_ascii (l ++ [c]) +:+ t)
          = String a (string_of_list_ascii l +:+ String c t)).
  rewrite IH. reflexivity.
Qed.

(** A text without whitespace is one word. *)
Lemma split_ws_word (t : string) :
  forall cur : list ascii,
    forallb (fun c => negb (PyStr.is_space c)) (list_ascii_of_string t) = true ->
    cur <> [] \/ t <> EmptyString ->
    PyStr.split_ws cur t = [string_of_list_ascii (rev cur) +:+ t].
Proof.
  induction t as [|c t IH]; intros cur Hns Hne.
  - destruct Hne as [Hne|Hne]; [|congruence].
    destruct cur as [|a cur]; [congruence|].
    cbn [PyStr.split_ws]. rewrite string_app_empty. reflexivity.
  - cbn [list_ascii_of_string forallb] in Hns. apply andb_prop in Hns as [Hc Hns].
    cbn [PyStr.split_ws]. apply negb_true_iff in Hc. rewrite Hc.
    rewrite (IH (c :: cur) Hns) by (left; discriminate).
    cbn [rev]. rewrite string_of_list_snoc. reflexivity.
Qed.

(** The last word of a text is a word. *)
Lemma split_ws_last_word (s : string) :
  forall (cur : list ascii) (t : string),
    forallb (fun c => negb (PyStr.is_space c)) cur = true ->
    last (PyStr.split_ws cur s) = Some t ->
    is_word t.
Proof.
  assert (Hflush : forall cur t,
             forallb (fun c => negb (PyStr.is_space c)) cur = true ->
             cur <> [] -> t = string_of_list_ascii (rev cur) -> is_word t).
  { intros cur t Hns Hne ->. split.
    - destruct (rev cur) as [|a r] eqn:E; [|discriminate].
      apply (f_equal (@rev _)) in E. rewrite rev_involutive in E. contradiction.
    - rewrite list_ascii_of_string_of_list_ascii.
      apply forallb_forall. intros x Hx. apply in_rev in Hx.
      exact (proj1 (forallb_forall _ _) Hns x Hx). }
  induction s as [|c s IH]; intros cur t Hns Hlast.
  - cbn [PyStr.split_ws] in Hlast. destruct cur as [|a cur]; [discriminate|].
    injection Hlast as <-. apply (Hflush (a :: cur)); [exact Hns|discriminate|reflexivity].
  - cbn [PyStr.split_ws] in Hlast. destruct (PyStr.is_space c) eqn:Hc.
    + rewrite last_app in Hlast.
      destruct (last (PyStr.split_ws [] s)) as [w|] eqn:Hw.
      * injection Hlast as <-. exact (IH [] w eq_refl Hw).
      * destruct cur as [|a cur]; [discriminate|].
        injection Hlast as <-.
        apply (Hflush (a :: cur)); [exact Hns|discriminate|reflexivity].
    + apply (IH (c :: cur) t); [|exact Hlast].
      cbn [forallb]. rewrite Hc. exact Hns.
Qed.

(** Normalising a token a second time changes nothing, and a token that
    came with the scheme is stored as a word. *)
Lemma normalize_token_idempotent (tok tok' : option string) :
  normalize_token tok = Ok tok' ->
  normalize_token tok' = Ok tok' /\
  (forall s, tok = Some s -> PyStr.startswith "OAuth" s = true ->
             exists t, tok' = Some t /\ is_word t).
Proof.
  destruct tok as [s|]; unfold normalize_token; [|intros [= <-]; split; [reflexivity|]].
  2:{ intros s Hs. discriminate. }
  destruct (PyStr.startswith "OAuth" s) eqn:Hs.
  - destruct (last (PyStr.split s)) as [t|] eqn:Ht; [|discriminate].
    intros [= <-].
    assert (Hw : is_word t) by exact (split_ws_last_word s [] t eq_refl Ht).
    split.
    + destruct (PyStr.startswith "OAuth" t); [|reflexivity].
      unfold PyStr.split. rewrite (split_ws_word t []);
        [reflexivity|exact (proj2 Hw)|right; exact (proj1 Hw)].
    + intros s' [= <-] _. exists t. split; [reflexivity|exact Hw].
  - intros [= <-]. rewrite Hs. split; [reflexivity|].
    intros s' [= <-] Hs'. congruence.
Qed.

(** Only whitespace gives no word. *)
Lemma split_ws_nil_all_space (s : string) :
  PyStr.split_ws [] s = [] -> all_space s.
Proof.
  unfold all_space. induction s as [|c s IH]; intros H; [reflexivity|].
  cbn [PyStr.split_ws] in H. cbn [list_ascii_of_string forallb].
  destruct (PyStr.is_space c) eqn:Hc.
  - exact (IH H).
  - exfalso.
    destruct (split_ws_last_is_Some [c] s) as [w Hw]; [left; discriminate|].
    rewrite H in Hw. discriminate.
Qed.

(** The last word that [split_ws] returns is the last word of the text
    read, the word in progress included. *)
Lemma split_ws_last_spec (s : string) :
  forall (cur : list ascii) (t : string),
    forallb (fun c => negb (PyStr.is_space c)) cur = true ->
    last (PyStr.split_ws cur s) = Some t ->
    exists pre post,
      string_of_list_ascii (rev cur) +:+ s = pre +:+ t +:+ post /\
      all_space post /\
      (pre = EmptyString \/
       exists pre' c, pre = pre' +:+ String c EmptyString /\ PyStr.is_space c = true).
Proof.
  induction s as [|c s IH]; intros cur t Hns Hlast.
  - cbn [PyStr.split_ws] in Hlast. destruct cur as [|a cur]; [discriminate|].
    injection Hlast as <-. exists EmptyString, EmptyString.
    split; [reflexivity|]. split; [reflexivity|]. left. reflexivity.
  - cbn [PyStr.split_ws] in Hlast. destruct (PyStr.is_space c) eqn:Hc.
    + rewrite last_app in Hlast.
      destruct (last (PyStr.split_ws [] s)) as [w|] eqn:Hw.
      * injection Hlast as <-.
        destruct (IH [] w eq_refl Hw) as (pre & post & Hs & Hpost & Hpre).
        change (string_of_list_ascii (rev []) +:+ s) with s in Hs.
        exists (string_of_list_ascii (rev cur) +:+ String c pre), post.
        split; [|split; [exact Hpost|]].
        -- rewrite string_app_assoc.
           change (String c pre +:+ w +:+ post) with (String c (pre +:+ w +:+ post)).
           rewrite <- Hs. reflexivity.
        -- right. destruct Hpre as [->|(pre' & d & -> & Hd)].
           ++ exists (string_of_list_ascii (rev cur)), c. split; [reflexivity|exact Hc].
           ++ exists (string_of_list_ascii (rev cur) +:+ String c pre'), d.
              split; [|exact Hd]. rewrite string_app_assoc. reflexivity.
      * destruct cur as [|a cur]; [discriminate|].
        injection Hlast as <-. apply last_None in Hw.
        exists EmptyString, (String c s).
        split; [reflexivity|]. split; [|left; reflexivity].
        unfold all_space. cbn [list_ascii_of_string forallb]. rewrite Hc.
        exact (split_ws_nil_all_space s Hw).
    + destruct (IH (c :: cur) t) as (pre & post & Hs & Hpost & Hpre);
        [cbn [forallb]; rewrite Hc; exact Hns|exact Hlast|].
      exists pre, post. split; [|split; assumption].
      rewrite <- Hs. cbn [rev]. rewrite string_of_list_snoc. reflexivity.
Qed.

(** What the setter stores. *)
Lemma normalize_token_spec (tok : option string) :
  exists tok',
    normalize_token tok = Ok tok' /\
    match tok with
    | None => tok' = None
    | Some s =>
        if PyStr.startswith "OAuth" s then exists t, tok' = Some t /\ last_word s t
        else tok' = Some s
    end.
Proof.
  destruct (normalize_token_total tok) as [tok' Hn]. exists tok'. split; [exact Hn|].
  destruct tok as [s|]; unfold normalize_token in Hn; [|congruence].
  destruct (PyStr.startswith "OAuth" s); [|congruence].
  destruct (last (PyStr.split s)) as [t|] eqn:Ht; [|discriminate].
  injection Hn as <-. exists t. split; [reflexivity|].
  split; [exact (split_ws_last_word s [] t eq_refl Ht)|].
  exact (split_ws_last_spec s [] t eq_refl Ht).
Qed.

(** X20: assigning a token never fails, and assigning back the token that
    [auth_token] then reads leaves the client as it is. What is stored is
    the token as given, unless it starts with [OAuth]: then it is the last
    word of the given text (the word that only whitespace follows), and the
    derived authorization is [OAuth], a space and that word. Assigning [None]
    stores no token and no authorization. *)
Theorem set_auth_token_settles (tok : option string) (c : AsyncCloud) :
  exists c',
    set_auth_token tok c = Ok c' /\
    set_auth_token (auth_token c') c' = Ok c' /\
    match tok with
    | None => auth_token c' = None /\ _authorization c' = None
    | Some s =>
        if PyStr.startswith "OAuth" s then
          exists t, last_word s t /\ auth_token c' = Some t /\
                    _authorization c' = Some ("OAuth " +:+ t)
        else
          auth_token c' = Some s /\
          _authorization c' = if PyStr.truthy s then Some ("OAuth " +:+ s) else None
    end.
Proof.
  destruct (normalize_token_spec tok) as (tok' & Hn & Hspec).
  destruct (normalize_token_idempotent tok tok' Hn) as [Hidem _].
  unfold set_auth_token. rewrite Hn. cbn [res_bind].
  eexists. split; [reflexivity|]. cbn [auth_token _auth_token].
  rewrite Hidem. cbn [res_bind]. split; [reflexivity|].
  cbn [_authorization].
  destruct tok as [s|]; [|subst tok'; split; reflexivity].
  destruct (PyStr.startswith "OAuth" s).
  - destruct Hspec as (t & -> & Hlast). exists t. split; [exact Hlast|].
    split; [reflexivity|]. cbn [opt_truthy opt_str].
    destruct t; [destruct Hlast as [[Hne _] _]; congruence|reflexivity].
  - subst tok'. split; reflexivity.
Qed.

(** The last word of a text with several runs of whitespace, one of them a
    no-break space. *)
Example last_word_of_token :
  normalize_token (Some ("OAuth  abc" +:+ String "160"%char "def  "))
    = Ok (Some "def") /\
  last_word ("OAuth  abc" +:+ String "160"%char "def  ") "def".
Proof.
  split; [vm_compute; reflexivity|].
  split; [split; [discriminate|reflexivity]|].
  exists ("OAuth  abc" +:+ String "160"%char EmptyString), "  ".
  split; [reflexivity|]. split; [reflexivity|].
  right. exists "OAuth  abc", "160"%char. split; reflexivity.
Qed.

(** X21: on a client whose session has no Authorization header, assigning
    a non-empty token does not yet authenticate the requests of the session:
    they carry no Authorization header. Assigning [use_auth = True]
    afterwards succeeds, and from then on they carry [OAuth] followed by the
    stored token. *)
Theorem token_needs_use_auth (c : AsyncCloud) (tok : string)
    (method url : string) (payload : option Json) (params : gmap string ParamVal)
    (Hfresh : session_headers c !! "Authorization" = None)
    (Htok : tok <> EmptyString) :
  exists c' c'' t,
    set_auth_token (Some tok) c = Ok c' /\
    auth_token c' = Some t /\
    rq_headers (rest_request c' method url payload params ∅) !! "Authorization" = None /\
    set_use_auth true c' = Ok c'' /\
    rq_headers (rest_request c'' method url payload params ∅) !! "Authorization"
      = Some ("OAuth " +:+ t).
Proof.
  destruct (normalize_token_total (Some tok)) as [tok' Hn].
  assert (Ht : exists t, tok' = Some t /\ t <> EmptyString).
  { destruct (PyStr.startswith "OAuth" tok) eqn:Hp.
    - destruct (proj2 (normalize_token_idempotent _ _ Hn) tok eq_refl Hp)
        as (t & -> & Hw & _).
      exists t. split; [reflexivity|exact Hw].
    - unfold normalize_token in Hn. rewrite Hp in Hn. injection Hn as <-.
      exists tok. split; [reflexivity|exact Htok]. }
  destruct Ht as (t & -> & Hne).
  unfold set_auth_token. rewrite Hn. cbn [res_bind].
  eexists _, _, t. split; [reflexivity|]. split; [reflexivity|].
  cbn [rest_request rq_headers session_headers].
  split; [rewrite (left_id_L ∅ (∪)); exact Hfresh|].
  unfold set_use_auth. cbn [_auth_token opt_truthy].
  destruct t as [|a t]; [congruence|]. cbn [PyStr.truthy negb andb opt_str].
  split; [reflexivity|].
  cbn [session_headers]. rewrite (left_id_L ∅ (∪)). apply lookup_insert_eq.
Qed.

Lemma token_needs_use_auth_witness :
  exists c' c'' t,
    set_auth_token (Some "OAuth  abc") Fixtures.fresh_client = Ok c' /\
    auth_token c' = Some t /\
    rq_headers (rest_request c' "GET" "https://api-v2.soundcloud.com/me" None ∅ ∅)
      !! "Authorization" = None /\
    set_use_auth true c' = Ok c'' /\
    rq_headers (rest_request c'' "GET" "https://api-v2.soundcloud.com/me" None ∅ ∅)
      !! "Authorization" = Some ("OAuth " +:+ t).
Proof.
  apply (token_needs_use_auth Fixtures.fresh_client "OAuth  abc").
  - reflexivity.
  - discriminate.
Defined.

(** The header that the requests of the session carry in the end. *)
Example token_needs_use_auth_run :
  res_bind (set_auth_token (Some "OAuth  abc") Fixtures.fresh_client) (fun c' =>
  res_bind (set_use_auth true c') (fun c'' =>
  Ok (rq_headers (rest_request c'' "GET" "https://api-v2.soundcloud.com/me" None ∅ ∅)
        !! "Authorization")))
    = Ok (Some "OAuth abc").
Proof. vm_compute. reflexivity. Qed.

(** ** The interaction queries and the authorization header *)
Section QueryHeaders.
Context (lib : UrlLib) (srv : Server) (R : Resources) (client : AsyncCloud).

(** The GraphQL shape sends exactly one request, whatever comes back. *)
Lemma graphql_call_log {Q T} (self : GraphQLRequest Q T) (query_args : Q)
    (log : list HttpRequest) :
  snd (GraphQLRequest_call srv self client query_args log)
    = log ++ [graphql_request self client query_args].
Proof.
  unfold GraphQLRequest_call, bind at 1, requests_post, send.
  change (mkReq Requests _ _ _ _ _) with (graphql_request self client query_args).
  set (rq := graphql_request self client query_args).
  destruct (is_empty_status (status (srv rq))); [reflexivity|].
  unfold bind at 1, raise_for_status.
  destruct ((400 <=? status (srv rq))%Z && (status (srv rq) <? 600)%Z); [reflexivity|].
  unfold ret at 1, bind at 1, json.
  destruct (body (srv rq)) as [j|]; [|reflexivity].
  unfold ret at 1, bind at 1, lift at 1.
  destruct (subscript j "data") as [d| |]; [|reflexivity..].
  unfold bind at 1, lift at 1.
  destruct (_convert_dict d (gql_return_type self)); reflexivity.
Qed.

(** The requests that the loop over the batches sends through the
    requests library are interaction queries without Authorization header. *)
Lemma batches_queries (track_urn creator_urn : string) (fuel : nat) :
  forall (g : GenState) (log : list HttpRequest),
    exists qs,
      List.filter via_requests
          (snd (batches lib srv R client track_urn creator_urn fuel g log))
        = List.filter via_requests log ++ qs /\
      Forall (fun rq => rq_url rq = graphql_base /\
                        rq_headers rq !! "Authorization" = None /\
                        rq_headers rq !! "User-Agent" = Some (_user_agent client)) qs.
Proof.
  assert (Hsession : forall log new,
             Forall (fun rq => carries_client_id client rq /\
                               rq_via rq = Aiohttp /\ rq_method rq = "GET" /\
                               rq_headers rq = session_headers client) new ->
             List.filter via_requests (log ++ new) = List.filter via_requests log).
  { intros log new Hall. rewrite List.filter_app.
    assert (Hnew : List.filter via_requests new = []).
    { induction Hall as [|rq new (_ & Hv & _) _ IH]; [reflexivity|].
      cbn [List.filter].
      replace (via_requests rq) with false by (unfold via_requests; rewrite Hv; reflexivity).
      exact IH. }
    rewrite Hnew. apply app_nil_r. }
  induction fuel as [|fuel IH]; intros g log.
  - exists []. rewrite app_nil_r. split; [reflexivity|constructor].
  - cbn [batches].
    destruct (islice_collect_requests lib srv (TrackCommentsRequest R) client
                (S fuel) 10 g log) as (new & Hlog & Hall).
    destruct (islice_collect lib srv (TrackCommentsRequest R) client (S fuel) 10 g log)
      as [[[chunk g']| |] log1]; cbn [snd] in Hlog; subst log1;
      [|exists []; rewrite app_nil_r; split;
        [exact (Hsession log new Hall)|constructor]..].
    destruct chunk as [|c chunk].
    { exists []. rewrite app_nil_r. split; [exact (Hsession log new Hall)|constructor]. }
    set (q := mkParams creator_urn "sc:interactiontype:reaction" track_urn
                (map (comment_self_urn R) (c :: chunk))).
    assert (Hq := graphql_call_log (UserInteractionsRequest R) q (log ++ new)).
    set (rq := graphql_request (UserInteractionsRequest R) client q) in *.
    assert (Hrq : rq_url rq = graphql_base /\
                  rq_headers rq !! "Authorization" = None /\
                  rq_headers rq !! "User-Agent" = Some (_user_agent client)).
    { split; [reflexivity|]. split; reflexivity. }
    assert (Hone : List.filter via_requests ((log ++ new) ++ [rq])
                   = List.filter via_requests log ++ [rq]).
    { rewrite List.filter_app, (Hsession log new Hall). reflexivity. }
    destruct (GraphQLRequest_call srv (UserInteractionsRequest R) client q (log ++ new))
      as [[[result|]| |] log2]; cbn [snd] in Hq; subst log2;
      [|exists [rq]; split; [exact Hone|constructor; [exact Hrq|constructor]]..].
    destruct (enrich R (c :: chunk) (user result) (creator result)) as [out| |];
      [|exists [rq]; split; [exact Hone|constructor; [exact Hrq|constructor]]..].
    destruct (IH g' ((log ++ new) ++ [rq])) as (qs & Hqs & Hall').
    exists (rq :: qs). split; [|constructor; assumption].
    unfold emit_then. cbn [snd]. rewrite Hqs, Hone, <- app_assoc. reflexivity.
Qed.

(** X22: whatever the server answers and whatever the state of the client,
    also one with [use_auth] switched on: every request that the composed
    operation sends through the requests library goes to the GraphQL
    endpoint with the client's user agent and without Authorization header.
    The token of the client reaches the operation's REST requests only. *)
Theorem interaction_queries_carry_no_authorization
    (fuel : nat) (track_id threaded : Z) (kwargs : gmap string PyVal)
    (log : list HttpRequest) :
  exists qs,
    List.filter via_requests
        (snd (get_track_comments_with_interactions lib srv R client fuel track_id
                threaded kwargs log))
      = List.filter via_requests log ++ qs /\
    Forall (fun rq => rq_url rq = graphql_base /\
                      rq_headers rq !! "Authorization" = None /\
                      rq_headers rq !! "User-Agent" = Some (_user_agent client)) qs.
Proof.
  unfold get_track_comments_with_interactions, get_track.
  destruct (SingleRequest_call srv (TrackRequest R) client None
              {[ "track_id" := PInt track_id ]} log) as [r log1] eqn:Erun.
  assert (Hvia := single_request_via srv client _ _ _ _ _ _ Erun).
  assert (Hnone : exists qs,
             List.filter via_requests log1 = List.filter via_requests log ++ qs /\
             Forall (fun rq => rq_url rq = graphql_base /\
                               rq_headers rq !! "Authorization" = None /\
                               rq_headers rq !! "User-Agent"
                               = Some (_user_agent client)) qs).
  { exists []. rewrite app_nil_r. split; [exact Hvia|constructor]. }
  destruct r as [[track|]| |]; [|exact Hnone..].
  destruct (get_track_comments client track_id threaded kwargs) as [g| |];
    [|exact Hnone..].
  destruct (batches_queries (track_urn R track) (track_user_urn R track) fuel g log1)
    as (qs & Hqs & Hall).
  exists qs. rewrite Hqs, Hvia. split; [reflexivity|exact Hall].
Qed.

End QueryHeaders.

(** With a token and [use_auth] on, the REST request for the track carries
    the Authorization header and the interaction query does not. *)
Example authorized_client_queries :
  let log := snd (get_track_comments_with_interactions Fixtures.urllib
                    Fixtures.comment_server Fixtures.resources Fixtures.token_client
                    18 1 0 ∅ []) in
  map (fun rq => rq_headers rq !! "Authorization") (List.filter via_requests log)
    = [None; None] /\
  (fun rq => rq_headers rq !! "Authorization") <$> head log
    = Some (Some "OAuth abc").
Proof. vm_compute. split; reflexivity. Qed.

(** ** Generating a client id *)

Lemma strip_prefix_Some (p : string) :
  forall s r : string, strip_prefix p s = Some r -> s = p +:+ r.
Proof.
  induction p as [|a p IH]; intros s r H.
  - injection H as <-. reflexivity.
  - destruct s as [|b s]; [discriminate|]. cbn [strip_prefix] in H.
    destruct (Ascii.eqb a b) eqn:E; [|discriminate].
    apply Ascii.eqb_eq in E. subst b.
    change (String a s = String a (p +:+ r)). rewrite (IH s r H). reflexivity.
Qed.

(** The run that [span_not] takes holds no [c], and what follows it is
    empty or starts with [c]. *)
Lemma span_not_spec (c : ascii) (s : string) :
  forall run rest : string,
    span_not c s = (run, rest) ->
    s = run +:+ rest /\
    forallb (fun a => negb (Ascii.eqb a c)) (list_ascii_of_string run) = true /\
    (rest = EmptyString \/ exists t, rest = String c t).
Proof.
  induction s as [|a s IH]; intros run rest H.
  - injection H as <- <-. repeat split. left. reflexivity.
  - cbn [span_not] in H. destruct (Ascii.eqb a c) eqn:E.
    + injection H as <- <-. apply Ascii.eqb_eq in E. subst a.
      repeat split. right. eexists. reflexivity.
    + destruct (span_not c s) as [run' rest'] eqn:Es. injection H as <- <-.
      destruct (IH run' rest' eq_refl) as (Hs & Hrun & Hrest).
      split; [|split; [|exact Hrest]].
      * change (String a s = String a (run' +:+ rest')). rewrite <- Hs. reflexivity.
      * cbn [list_ascii_of_string forallb]. rewrite E. exact Hrun.
Qed.

(** [search] returns the match at the leftmost position where there is
    one. *)
Lemma search_spec (m : string -> option string) (s : string) :
  forall r : string,
    search m s = Some r ->
    exists pre suf,
      s = pre +:+ suf /\ m suf = Some r /\
      forall pre1 suf1, s = pre1 +:+ suf1 ->
                        (String.length pre1 < String.length pre)%nat ->
                        m suf1 = None.
Proof.
  induction s as [|a s IH]; intros r H.
  - cbn [search] in H. destruct (m EmptyString) as [r0|] eqn:E; [|discriminate].
    injection H as <-. exists EmptyString, EmptyString.
    split; [reflexivity|]. split; [exact E|]. intros pre1 suf1 _ Hl. simpl in Hl. lia.
  - cbn [search] in H. destruct (m (String a s)) as [r0|] eqn:E.
    + injection H as <-. exists EmptyString, (String a s).
      split; [reflexivity|]. split; [exact E|]. intros pre1 suf1 _ Hl. simpl in Hl. lia.
    + destruct (IH r H) as (pre & suf & Hs & Hm & Hleft).
      exists (String a pre), suf. split; [|split; [exact Hm|]].
      * change (String a s = String a (pre +:+ suf)). rewrite <- Hs. reflexivity.
      * intros pre1 suf1 Hsplit Hl. destruct pre1 as [|b pre1].
        -- change (String a s = suf1) in Hsplit. subst suf1. exact E.
        -- change (String a s = String b (pre1 +:+ suf1)) in Hsplit.
           injection Hsplit as _ Hs1. apply (Hleft pre1 suf1 Hs1).
           simpl in Hl. lia.
Qed.

Lemma match_client_id_spec (s id : string) :
  match_client_id s = Some id ->
  id <> EmptyString /\
  forallb (fun a => negb (Ascii.eqb a dquote)) (list_ascii_of_string id) = true /\
  exists rest, s = "client_id:" +:+ String dquote (id +:+ String dquote rest).
Proof.
  unfold match_client_id. intros H.
  destruct (strip_prefix ("client_id:" +:+ String dquote EmptyString) s) as [s1|] eqn:Ep;
    [|discriminate].
  cbn [mbind option_bind] in H.
  destruct (span_not dquote s1) as [run rest] eqn:Es.
  destruct (span_not_spec dquote s1 run rest Es) as (Hs1 & Hrun & Hrest).
  destruct run as [|a run]; [discriminate|].
  destruct rest as [|b rest]; [discriminate|].
  injection H as <-. split; [discriminate|]. split; [exact Hrun|].
  destruct Hrest as [Hrest|[t Ht]]; [discriminate|]. injection Ht as -> ->.
  exists t. apply strip_prefix_Some in Ep. rewrite Ep, Hs1. reflexivity.
Qed.

Lemma match_asset_spec (s url : string) :
  match_asset s = Some url ->
  exists name rest,
    url = asset_base +:+ name +:+ ".js" /\
    name <> EmptyString /\
    forallb (fun a => negb (Ascii.eqb a ".")) (list_ascii_of_string name) = true /\
    s = "src=" +:+ String dquote (url +:+ String dquote rest).
Proof.
  unfold match_asset. intros H.
  destruct (strip_prefix ("src=" +:+ String dquote asset_base) s) as [s1|] eqn:Ep;
    [|discriminate].
  cbn [mbind option_bind] in H.
  destruct (span_not "." s1) as [run rest] eqn:Es.
  destruct (span_not_spec "." s1 run rest Es) as (Hs1 & Hrun & _).
  destruct run as [|a run]; [discriminate|].
  destruct (strip_prefix (".js" +:+ String dquote EmptyString) rest) as [rest'|] eqn:Er;
    [|discriminate].
  cbn [mbind option_bind] in H. injection H as <-.
  exists (String a run), rest'. split; [reflexivity|]. split; [discriminate|].
  split; [exact Hrun|].
  apply strip_prefix_Some in Ep. apply strip_prefix_Some in Er.
  rewrite Ep, Hs1, Er.
  change ("src=" +:+ String dquote asset_base)
    with ("src=" +:+ String dquote EmptyString +:+ asset_base).
  rewrite !string_app_assoc. reflexivity.
Qed.

Lemma get_text_inr (web : Web) (url text : string) :
  get_text web url = inr text ->
  snd (web url) = text /\ ~ (400 <= fst (web url) < 600).
Proof.
  unfold get_text. destruct (web url) as [status txt]. cbn [fst snd].
  destruct (400 <=? status)%Z eqn:E1; destruct (status <? 600)%Z eqn:E2;
    cbn [andb]; intros H; try discriminate; injection H as <-;
    (split; [reflexivity|]);
    rewrite ?Z.leb_gt, ?Z.ltb_ge in *; lia.
Qed.

(** X23: a client id that [generate_client_id] returns was read off the
    web: the home page, fetched without HTTP error, names at its leftmost
    [src=] attribute of the asset form a script URL; that script, fetched
    without HTTP error, contains the text [client_id:] followed by the
    returned id in double quotes. The id is not empty and holds no double
    quote. *)
Theorem generate_client_id_sound (web : Web) (id : string)
    (Hgen : generate_client_id web = inr id) :
  id <> EmptyString /\
  forallb (fun a => negb (Ascii.eqb a dquote)) (list_ascii_of_string id) = true /\
  exists url pre post pre' post',
    ~ (400 <= fst (web "https://soundcloud.com") < 600) /\
    snd (web "https://soundcloud.com")
      = pre +:+ "src=" +:+ String dquote (url +:+ String dquote post) /\
    search match_asset (snd (web "https://soundcloud.com")) = Some url /\
    ~ (400 <= fst (web url) < 600) /\
    snd (web url)
      = pre' +:+ "client_id:" +:+ String dquote (id +:+ String dquote post').
Proof.
  unfold generate_client_id in Hgen.
  destruct (get_text web "https://soundcloud.com") as [e|home] eqn:Eh; [discriminate|].
  destruct (get_text_inr _ _ _ Eh) as [Hhome Hs1].
  destruct (search match_asset home) as [url|] eqn:Eu; [|discriminate].
  destruct (get_text web url) as [e|script] eqn:Es; [discriminate|].
  destruct (get_text_inr _ _ _ Es) as [Hscript Hs2].
  destruct (search match_client_id script) as [id'|] eqn:Ei; [|discriminate].
  injection Hgen as <-.
  destruct (search_spec _ _ _ Eu) as (pre & suf & Hsplit & Hm & _).
  destruct (match_asset_spec _ _ Hm) as (name & post & _ & _ & _ & Hsuf).
  destruct (search_spec _ _ _ Ei) as (pre' & suf' & Hsplit' & Hm' & _).
  destruct (match_client_id_spec _ _ Hm') as (Hne & Hq & post' & Hsuf').
  split; [exact Hne|]. split; [exact Hq|].
  exists url, pre, post, pre', post'.
  split; [exact Hs1|]. split; [rewrite Hhome, Hsplit, Hsuf; reflexivity|].
  split; [rewrite Hhome; exact Eu|]. split; [exact Hs2|].
  rewrite Hscript, Hsplit', Hsuf'. reflexivity.
Qed.

Lemma generate_client_id_sound_witness :
  "Zx9" <> EmptyString /\
  forallb (fun a => negb (Ascii.eqb a dquote)) (list_ascii_of_string "Zx9") = true /\
  exists url pre post pre' post',
    ~ (400 <= fst (MoreFixtures.small_web "https://soundcloud.com") < 600) /\
    snd (MoreFixtures.small_web "https://soundcloud.com")
      = pre +:+ "src=" +:+ String dquote (url +:+ String dquote post) /\
    search match_asset (snd (MoreFixtures.small_web "https://soundcloud.com"))
      = Some url /\
    ~ (400 <= fst (MoreFixtures.small_web url) < 600) /\
    snd (MoreFixtures.small_web url)
      = pre' +:+ "client_id:" +:+ String dquote ("Zx9" +:+ String dquote post').
Proof.
  apply (generate_client_id_sound MoreFixtures.small_web "Zx9").
  vm_compute. reflexivity.
Defined.

(** The double quote is the character of code 34, and the two failures of
    the generation on pages without the patterns. *)
Example dquote_code : nat_of_ascii dquote = 34%nat.
Proof. reflexivity. Qed.

Example generation_failures :
  generate_client_id (fun _ => (200, "<html></html>"))
    = inl (ClientIDGenerationError "No asset scripts found") /\
  generate_client_id (fun _ => (503, "")) = inl (BootHTTPError 503) /\
  generate_client_id
      (fun url => if String.eqb url "https://soundcloud.com"
                  then (200, MoreFixtures.home_page) else (200, "var o={}"))
    = inl (ClientIDGenerationError
             ("Could not find client_id in script '" +:+ MoreFixtures.script_url +:+ "'")).
Proof. vm_compute. repeat split. Qed.

(** X24: constructing a client fails only when no client id is given and
    its generation fails; the configuration error of [use_auth] never comes
    out of the constructor. The client built has a non-empty client id (the
    given one, or else the generated one), keeps the token as it was given
    (not normalised as by the [auth_token] setter) and its session sends the
    user agent and, for a non-empty token, the Authorization header
    [OAuth] followed by that token. *)
Theorem construct_gives_usable_client (web : Web) (cid token : option string)
    (user_agent : string) :
  match construct web cid token user_agent with
  | inl e => opt_truthy cid = false /\ generate_client_id web = inl e
  | inr r =>
      exists c,
        r = Ok c /\
        client_id c <> EmptyString /\
        (opt_truthy cid = true -> cid = Some (client_id c)) /\
        (opt_truthy cid = false -> generate_client_id web = inr (client_id c)) /\
        auth_token c = token /\
        session_headers c !! "User-Agent" = Some user_agent /\
        session_headers c !! "Authorization"
          = if opt_truthy token then Some ("OAuth " +:+ opt_str token) else None
  end.
Proof.
  assert (Hinit : forall generated cid',
             (if opt_truthy cid then Ok (opt_str cid) else generated) = Ok cid' ->
             exists c,
               init generated cid token user_agent = Ok c /\
               client_id c = cid' /\ auth_token c = token /\
               session_headers c !! "User-Agent" = Some user_agent /\
               session_headers c !! "Authorization"
                 = if opt_truthy token then Some ("OAuth " +:+ opt_str token) else None).
  { intros generated cid' Hcid. unfold init. rewrite Hcid. cbn [res_bind].
    unfold set_use_auth. cbn [_auth_token].
    destruct (opt_truthy token) eqn:Et; cbn [negb andb].
    - eexists. split; [reflexivity|]. cbn.
      repeat split.
    - eexists. split; [reflexivity|]. cbn. repeat split. }
  unfold construct. destruct (opt_truthy cid) eqn:Ec.
  - destruct cid as [s|]; [|discriminate].
    destruct (Hinit (Raise (Unmodelled "generate_client_id")) s)
      as (c & Hc & Hid & Htok & Hua & Hauth); [reflexivity|].
    exists c. split; [exact Hc|]. cbn [opt_str] in Hid. subst s.
    split; [destruct (client_id c); [cbn in Ec; discriminate Ec|discriminate]|].
    split; [reflexivity|]. split; [discriminate|].
    repeat split; assumption.
  - destruct (generate_client_id web) as [e|generated] eqn:Eg; [split; reflexivity|].
    destruct (Hinit (Ok generated) generated)
      as (c & Hc & Hid & Htok & Hua & Hauth); [reflexivity|].
    exists c. split; [exact Hc|]. subst generated.
    split; [|split; [discriminate|split; [reflexivity|repeat split; assumption]]].
    unfold generate_client_id in Eg.
    destruct (get_text web "https://soundcloud.com"); [discriminate|].
    destruct (search match_asset s) as [url|]; [|discriminate].
    destruct (get_text web url); [discriminate|].
    destruct (search match_client_id s0) as [id|] eqn:Ei; [|discriminate].
    injection Eg as Eg. rewrite <- Eg.
    destruct (search_spec _ _ _ Ei) as (pre & suf & _ & Hm & _).
    exact (proj1 (match_client_id_spec _ _ Hm)).
Qed.

(** A token given to the constructor with the scheme in front is not
    normalised: the header repeats the scheme. *)
Example constructor_keeps_token :
  match construct MoreFixtures.small_web None (Some "OAuth abc") _DEFAULT_USER_AGENT with
  | inr (Ok c) =>
      Some (client_id c, auth_token c, session_headers c !! "Authorization")
  | _ => None
  end = Some ("Zx9", Some "OAuth abc", Some "OAuth OAuth abc").
Proof. vm_compute. reflexivity. Qed.
